(** * The LLM invocation layer of neoqa's dataset generation

    A shallow embedding of
      - dataset-generation/data_gen/llm/wrapper/models/openrouter_wrapper.py
      - dataset-generation/data_gen/llm/wrapper/models/vllm_wrapper.py
      - dataset-generation/data_gen/llm/get_llm.py
    followed by the scripts 0_deps_viz.py, dataset-generation/filter_graph.py
    and dataset-generation/mock_prereqs.py.

    Python objects are mutable and exceptions do not roll effects back, so
    the methods are written in a state-and-exception monad over a [world]:
    the wrapper object [self], the response cache it shares through the
    cache pool, a trace of the observable steps of the run (entries into
    [invoke_model_with_messages], network requests, sleeps, file appends and
    cache operations), and the machine the process runs on, with its clock
    and its log file.  Output on stdout ([print]) is not recorded.

    A Python [str] is held as its UTF-8 encoding.  Equality, concatenation,
    [startswith], [in] and [split] on an ASCII separator are the same on
    the bytes as on the characters; [len], slicing, iteration and
    [strip] go by the characters. *)

From Stdlib Require Import ZArith String Ascii List Bool Lia Floats.
From stdpp Require Import base option gmap strings list.
Import ListNotations.

Local Open Scope Z_scope.

(** ** Data model *)

(** A chat turn: the dict [{"role": ..., "content": ...}]. *)
Record message := Message { role : string; content : string }.

#[global] Instance message_eq_dec : EqDecision message.
Proof. solve_decision. Defined.

(** The keyword arguments of [client.chat.completions.create]. *)
Record request := Request {
  req_model : string;
  req_messages : list message;
  req_temperature : float;
  req_max_tokens : Z
}.

(** What one network call does: it returns a completion whose
    [choices[0].message.content] is the string [text], raises
    [openai.RateLimitError], raises some other exception, or returns a
    completion that has no text to read ([choices] is empty, or the content
    is [None]). *)
Inductive outcome :=
| Completion (text : string)
| RateLimitError (err : string)
| OtherError (err : string)
| NoContent.

(** The observable steps of a run, oldest first: an entry into
    [invoke_model_with_messages], a network request, a sleep, an append to a
    file, and the three operations of the cache. *)
Inductive event :=
| Invoke (system_prompt : option string) (messages : list message)
| Create (r : request)
| Sleep (seconds : Z)
| FileAppend (path : string) (text : string)
| HasHash (messages_hash model : string)
| AddResult (messages_hash : string) (payload : list message) (response model : string)
| GetResult (messages_hash model : string).

(** The exceptions that leave the modelled methods.  [FuelExhausted] is not
    a Python exception: it marks a loop model that ran out of fuel, and
    [invoke_fuel_suffices] shows no method raises it. *)
Inductive exn :=
| AssertionError
| ValueError (msg : string)
| NameError (name : string)
| NotImplementedError
| OpenAIError
| NotFound
| FuelExhausted.

#[global] Instance exn_eq_dec : EqDecision exn.
Proof. solve_decision. Defined.

(** The fields of a wrapper instance.  [client] stands for the OpenAI client
    and the service behind it: the outcome of a call may depend on how many
    calls the service has already received and on the request. *)
Record wrapper := Wrapper {
  model : string;
  temperature : float;
  max_tokens : Z;
  count_queries : Z;
  client : nat -> request -> outcome
}.

(** Modelled from the spec: the class LLMHashCache (data_gen.llm.cache) is
    not among the sources.  The spec describes a mapping from
    (model, fingerprint) to the request payload and the response text, with
    exact-match lookup.  The payload [json.dumps(messages)] is kept as the
    message list it serialises. *)
Abbreviation LLMHashCache := (gmap (string * string) (list message * string)).

(** The machine the process runs on, as far as the wrappers meet it: what
    [datetime.now().strftime("%Y-%m-%d %H:%M:%S")] gives, and whether an
    operation on the log file goes through or raises OSError.  Both may
    change during the run: they are taken at the number of network calls
    made so far, and the file operations of one attempt are numbered 0 for
    [open], 1 to 3 for the three [write]s and 4 for [close]. *)
Record machine := Machine {
  strftime_now : nat -> string;
  file_op : nat -> nat -> bool
}.

Record world := World {
  self : wrapper;
  cache : LLMHashCache;
  trace : list event;
  host : machine
}.

(** The dict returned by [query] and [query_history]. *)
Record reply := Reply { model_dump : option string; response : string }.

(** The dict returned by [get_info], with its keys ['type'], ['model'],
    ['temperature'] and ['max-tokens']. *)
Record info := Info {
  info_type : string;
  info_model : string;
  info_temperature : float;
  info_max_tokens : Z
}.

(** ** The monad of methods *)

Inductive result (A : Type) :=
| Return (a : A)
| Raise (e : exn).
Arguments Return {A} a.
Arguments Raise {A} e.

Definition M (A : Type) : Type := world -> result A * world.

Definition ret {A} (a : A) : M A := fun w => (Return a, w).

Definition raise {A} (e : exn) : M A := fun w => (Raise e, w).

Definition bind {A B} (c : M A) (k : A -> M B) : M B :=
  fun w =>
    match c w with
    | (Return a, w') => k a w'
    | (Raise e, w') => (Raise e, w')
    end.

Declare Scope py_scope.
Delimit Scope py_scope with py.
Notation "x <- c ;; k" := (bind c (fun x => k))
  (at level 100, c at next level, right associativity) : py_scope.
Notation "c ;; k" := (bind c (fun _ => k))
  (at level 100, right associativity) : py_scope.
Local Open Scope py_scope.

(** [self.f] *)
Definition attr {A} (f : wrapper -> A) : M A := fun w => (Return (f (self w)), w).

(** [self.count_queries += 1] *)
Definition bumped (s : wrapper) : wrapper :=
  Wrapper (model s) (temperature s) (max_tokens s) (count_queries s + 1) (client s).

Definition incr_count_queries : M unit :=
  fun w => (Return tt, World (bumped (self w)) (cache w) (trace w) (host w)).

(** [assert b] *)
Definition assert (b : bool) : M unit :=
  if b then ret tt else raise AssertionError.

Definition emit (e : event) : M unit :=
  fun w => (Return tt, World (self w) (cache w) (trace w ++ [e]) (host w)).

(** The number of network calls recorded in a trace. *)
Fixpoint network_calls (t : list event) : nat :=
  match t with
  | [] => O
  | Create _ :: t' => S (network_calls t')
  | _ :: t' => network_calls t'
  end.

(** The number of entries into [invoke_model_with_messages]. *)
Fixpoint invocations (t : list event) : nat :=
  match t with
  | [] => O
  | Invoke _ _ :: t' => S (invocations t')
  | _ :: t' => invocations t'
  end.

(** The requests sent to the service, the sleeps taken and the fingerprints
    looked up in the cache, each in order. *)
Fixpoint requests (t : list event) : list request :=
  match t with
  | [] => []
  | Create r :: t' => r :: requests t'
  | _ :: t' => requests t'
  end.

Fixpoint sleeps (t : list event) : list Z :=
  match t with
  | [] => []
  | Sleep s :: t' => s :: sleeps t'
  | _ :: t' => sleeps t'
  end.

Fixpoint fingerprints (t : list event) : list string :=
  match t with
  | [] => []
  | HasHash h _ :: t' => h :: fingerprints t'
  | _ :: t' => fingerprints t'
  end.

(** [self.client.chat.completions.create(...)]: the request reaches the
    service, which answers according to the calls it has seen before. *)
Definition create (r : request) : M outcome :=
  fun w =>
    (Return (client (self w) (network_calls (trace w)) r),
     World (self w) (cache w) (trace w ++ [Create r]) (host w)).

(** [time.sleep(seconds)] *)
Definition sleep (seconds : Z) : M unit := emit (Sleep seconds).

(** [datetime.now().strftime("%Y-%m-%d %H:%M:%S")] *)
Definition now_strftime : M string :=
  fun w => (Return (strftime_now (host w) (network_calls (trace w))), w).

(** The [k]-th operation of an attempt on the log file: [false] stands for
    the OSError it raises. *)
Definition log_op (k : nat) : M bool :=
  fun w => (Return (file_op (host w) (network_calls (trace w)) k), w).

(** [f.write(text)] as the [k]-th operation on the log file [path]. *)
Definition write (k : nat) (path text : string) : M bool :=
  done <- log_op k ;;
  if done then emit (FileAppend path text) ;; ret true else ret false.

(** Modelled from the spec: [has(fingerprint, model) -> bool]. *)
Definition has_hash (messages_hash model : string) : M bool :=
  fun w =>
    (Return (bool_decide (is_Some (cache w !! (model, messages_hash)))),
     World (self w) (cache w) (trace w ++ [HasHash messages_hash model]) (host w)).

(** Modelled from the spec: [add(fingerprint, model, request_payload,
    response_text)]; an insert for a key that is present overwrites. *)
Definition add_result (messages_hash : string) (payload : list message)
    (response model : string) : M unit :=
  fun w =>
    (Return tt,
     World (self w) (<[(model, messages_hash) := (payload, response)]> (cache w))
           (trace w ++ [AddResult messages_hash payload response model]) (host w)).

(** Modelled from the spec: [get(fingerprint, model) -> response_text],
    failing with NotFound for an absent key. *)
Definition get_result (messages_hash model : string) : M string :=
  fun w =>
    let w' :=
      World (self w) (cache w) (trace w ++ [GetResult messages_hash model]) (host w) in
    match cache w !! (model, messages_hash) with
    | Some (_, response) => (Return response, w')
    | None => (Raise NotFound, w')
    end.

(** The fingerprint function [hash_messages(messages, system_prompt=...)]
    of data_gen.util.misc is not among the sources; the wrappers are
    embedded over any such function and over the default its signature
    gives to [system_prompt], which is what a call that omits the argument
    hashes with. *)
Class HashMessages := {
  hash_messages : list message -> option string -> string;
  omitted_system_prompt : option string
}.

(** ** Python string helpers *)

(** The number of bytes of the character whose first byte is [c]. *)
Definition width (c : ascii) : nat :=
  let n := N_of_ascii c in
  if (n <? 192)%N then 1%nat
  else if (n <? 224)%N then 2%nat
  else if (n <? 240)%N then 3%nat
  else 4%nat.

(** The characters of a string in order, each as the bytes that encode it;
    [pending] bytes of the character under way are still to come. *)
Fixpoint characters (pending : nat) (s : string) : list string :=
  match s with
  | EmptyString => []
  | String c s' =>
      let pending := match pending with
                     | O => (width c - 1)%nat
                     | S p => p
                     end in
      match pending, characters pending s' with
      | S _, ch :: chs => String c ch :: chs
      | _, chs => String c "" :: chs
      end
  end.

(** [list(s)] *)
Definition chars (s : string) : list string := characters 0 s.

(** ["".join(l)] *)
Definition str_join (l : list string) : string := foldr String.append "" l.

(** [len(s)] *)
Definition len (s : string) : nat := length (chars s).

(** [ord(ch)]: the code point a character encodes; a byte that starts no
    character stands for U+FFFD. *)
Definition ord (ch : string) : N :=
  match ch with
  | EmptyString => 0%N
  | String c rest =>
      let lead :=
        match width c with
        | 1%nat => if (N_of_ascii c <? 128)%N then N_of_ascii c else 65533%N
        | 2%nat => N.land (N_of_ascii c) 31
        | 3%nat => N.land (N_of_ascii c) 15
        | _ => N.land (N_of_ascii c) 7
        end in
      fold_left (fun acc b => (acc * 64 + N.land (N_of_ascii b) 63)%N)
        (list_ascii_of_string rest) lead
  end.

(** [ch.isspace()] by code point: the characters [str.strip()] removes. *)
Definition isspace (cp : N) : bool :=
  ((9 <=? cp) && (cp <=? 13) || (28 <=? cp) && (cp <=? 32) ||
   (cp =? 133) || (cp =? 160) || (cp =? 5760) ||
   (8192 <=? cp) && (cp <=? 8202) ||
   (cp =? 8232) || (cp =? 8233) || (cp =? 8239) || (cp =? 8287) || (cp =? 12288))%N.

(** [len(s.strip()) > 0]: some character of [s] is not whitespace. *)
Definition strip_nonempty (s : string) : bool :=
  existsb (fun ch => negb (isspace (ord ch))) (chars s).

(** [if s:] for a string. *)
Definition truthy (s : string) : bool := negb (bool_decide (s = "")).

(** [if o:] for an optional string. *)
Definition opt_truthy (o : option string) : bool :=
  match o with
  | Some s => truthy s
  | None => false
  end.

(** [a or b] for optional strings. *)
Definition py_or (a b : option string) : option string :=
  if opt_truthy a then a else b.

(** [system_prompt or ""] *)
Definition or_empty (system_prompt : option string) : string :=
  match system_prompt with
  | Some s => s
  | None => ""
  end.

(** [system_prompt is None or system_prompt == ''] *)
Definition none_or_empty (system_prompt : option string) : bool :=
  match system_prompt with
  | None => true
  | Some s => bool_decide (s = "")
  end.

(** [sub in s] *)
Fixpoint contains (sub s : string) : bool :=
  String.prefix sub s ||
  match s with
  | EmptyString => false
  | String _ s' => contains sub s'
  end.

(** [s[n:]]: [s] less its first [n] characters. *)
Definition drop_prefix (n : nat) (s : string) : string := str_join (drop n (chars s)).

(** The list [new_messages] both wrappers build before each network call:
    a system turn when the prompt has a non-blank character, then every
    turn re-tagged user or assistant. *)
Definition retag (msg : message) : message :=
  if bool_decide (role msg = "user") then Message "user" (content msg)
  else Message "assistant" (content msg).

Definition build_new_messages (system_prompt : option string)
    (messages : list message) : list message :=
  (match system_prompt with
   | Some s => if strip_nonempty s then [Message "system" s] else []
   | None => []
   end) ++ map retag messages.

(** ** What the constructors meet outside the sources *)

(** The value [BaseLLMWrapper.__init__] leaves in [count_queries] (the base
    class is not among the sources), the environment variables read by
    [os.getenv], and the service a client built here talks to. *)
Record platform := Platform {
  base_count_queries : Z;
  getenv : string -> option string;
  service : nat -> request -> outcome
}.

(** [OpenAI(api_key=..., base_url=...)] of the openai package, which is not
    among the sources: without a key, neither given nor in OPENAI_API_KEY,
    the constructor raises openai.OpenAIError. *)
Definition OpenAI (p : platform) (api_key base_url : option string)
    : result (nat -> request -> outcome) :=
  match api_key, getenv p "OPENAI_API_KEY" with
  | None, None => Raise OpenAIError
  | _, _ => Return (service p)
  end.

(** ** openrouter_wrapper.py *)

Module OPENROUTERWrapper.

(** [__init__]: [super().__init__()] sets the counter; the cache comes from
    [LLMCachePool.get(temperature, max_tokens)] and lives in the [world];
    the client is built with the key of the environment. *)
Definition __init__ (p : platform) (model_version : string) (temperature : float)
    (max_tokens : Z) : result wrapper :=
  let api_key := getenv p "OPENROUTER_API_KEY" in
  let base_url := Some "https://openrouter.ai/api/v1" in
  match OpenAI p api_key base_url with
  | Return client =>
      Return (Wrapper model_version temperature max_tokens (base_count_queries p) client)
  | Raise e => Raise e
  end.

(** The line feed, and the line written after each logged response. *)
Definition nl : string := String (ascii_of_nat 10) "".

Definition separator : string :=
  nl +:+ nl +:+
  "===========================================================================" +:+
  nl +:+ nl.

(** The [with open("temp2.txt", "a") as f:] block of an attempt whose call
    returned a completion; [content] is its
    [response.choices[0].message.content], [None] when there is no text to
    read.  The result tells whether the block ran to its end: the OSError
    of a file operation and the error of writing a text that is not there
    leave it early, with what was written before. *)
Definition log_completion (content : option string) : M bool :=
  opened <- log_op 0 ;;
  if negb opened then ret false
  else
    timestamp_str <- now_strftime ;;
    written <- write 1 "temp2.txt" (timestamp_str +:+ nl +:+ nl) ;;
    if negb written then ret false
    else
      match content with
      | None => ret false
      | Some text =>
          written <- write 2 "temp2.txt" text ;;
          if negb written then ret false
          else
            written <- write 3 "temp2.txt" separator ;;
            if negb written then ret false
            else log_op 4
      end.

(** The [while attempts < max_attempts] loop.  [fuel] bounds the number of
    iterations the model may unfold.  Whatever is raised inside the [try]
    after the call has returned is caught by the handler of [Exception],
    like an error of the call itself. *)
Fixpoint attempt_loop (fuel : nat) (system_prompt : option string)
    (messages : list message) (max_gen_len : Z) (temperature : float)
    (max_attempts attempts : Z) : M string :=
  if attempts <? max_attempts then
    match fuel with
    | O => raise FuelExhausted
    | S fuel' =>
        let attempts := attempts + 1 in
        let new_messages := build_new_messages system_prompt messages in
        self_model <- attr model ;;
        r <- create (Request self_model messages temperature max_gen_len) ;;
        match r with
        | Completion text =>
            logged <- log_completion (Some text) ;;
            if logged then ret text
            else
              attempt_loop fuel' system_prompt messages max_gen_len temperature
                max_attempts attempts
        | NoContent =>
            log_completion None ;;
            attempt_loop fuel' system_prompt messages max_gen_len temperature
              max_attempts attempts
        | RateLimitError _ =>
            sleep 5 ;;
            attempt_loop fuel' system_prompt messages max_gen_len temperature
              max_attempts attempts
        | OtherError _ =>
            attempt_loop fuel' system_prompt messages max_gen_len temperature
              max_attempts attempts
        end
    end
  else raise (ValueError "Ratelimit exceeded too many times!").

Definition invoke_model_with_messages (system_prompt : option string)
    (messages : list message) (max_gen_len : Z) (temperature : float)
    (max_attempts : Z) : M string :=
  emit (Invoke system_prompt messages) ;;
  attempt_loop (Z.to_nat max_attempts) system_prompt messages max_gen_len
    temperature max_attempts 0.

(** The default of the keyword argument [max_attempts]. *)
Definition default_max_attempts : Z := 10.

(** The keyword argument [format_prompt] of [query] is never read and is
    left out. *)
Definition query `{HashMessages} (system_prompt : option string)
    (user_prompt : string) : M reply :=
  incr_count_queries ;;
  assert (none_or_empty system_prompt) ;;
  let messages := [Message "user" user_prompt] in
  let messages_hash := hash_messages messages omitted_system_prompt in
  self_model <- attr model ;;
  hit <- has_hash messages_hash self_model ;;
  (if negb hit then
     self_max_tokens <- attr max_tokens ;;
     self_temperature <- attr temperature ;;
     response <- invoke_model_with_messages (Some (or_empty system_prompt))
                   messages self_max_tokens self_temperature default_max_attempts ;;
     self_model <- attr model ;;
     add_result messages_hash messages response self_model
   else ret tt) ;;
  self_model <- attr model ;;
  response <- get_result messages_hash self_model ;;
  ret (Reply None response).

(** The turns [query_history] assembles from the history and the prompt. *)
Definition history_messages (prompt : string) (history : list (string * string))
    : list message :=
  flat_map (fun io => [Message "user" (fst io); Message "assistant" (snd io)]) history
  ++ [Message "user" prompt].

Definition query_history `{HashMessages} (system_prompt : option string)
    (prompt : string) (history : list (string * string)) : M reply :=
  incr_count_queries ;;
  let messages := history_messages prompt history in
  let messages_hash := hash_messages messages system_prompt in
  self_model <- attr model ;;
  hit <- has_hash messages_hash self_model ;;
  (if negb hit then
     self_max_tokens <- attr max_tokens ;;
     self_temperature <- attr temperature ;;
     response <- invoke_model_with_messages (Some (or_empty system_prompt))
                   messages self_max_tokens self_temperature default_max_attempts ;;
     self_model <- attr model ;;
     add_result messages_hash messages response self_model
   else ret tt) ;;
  self_model <- attr model ;;
  response <- get_result messages_hash self_model ;;
  ret (Reply None response).

Definition get_info : M info :=
  self_model <- attr model ;;
  self_temperature <- attr temperature ;;
  self_max_tokens <- attr max_tokens ;;
  ret (Info "gpt" self_model self_temperature self_max_tokens).

End OPENROUTERWrapper.

(** ** vllm_wrapper.py *)

Module VLLMWrapper.

(** [__init__]: as for the OpenRouter wrapper, but the key falls back on
    OPENAI_API_KEY and then on the text 'not-needed', and the base URL on
    OPENAI_BASE_URL. *)
Definition __init__ (p : platform) (model_version : string) (temperature : float)
    (max_tokens : Z) (base_url api_key : option string) : result wrapper :=
  match OpenAI p
          (py_or api_key (py_or (getenv p "OPENAI_API_KEY") (Some "not-needed")))
          (py_or base_url (py_or (getenv p "OPENAI_BASE_URL") None)) with
  | Return client =>
      Return (Wrapper model_version temperature max_tokens (base_count_queries p) client)
  | Raise e => Raise e
  end.

(** The [while attempts < 10] loop.  The [try] body ends with the
    assignment of [response], which is never read; the handler of the other
    exceptions formats the name [max_attempts], which is bound nowhere in
    the module. *)
Fixpoint attempt_loop (fuel : nat) (system_prompt : option string)
    (messages : list message) (max_gen_len : Z) (temperature : float)
    (attempts : Z) : M string :=
  if attempts <? 10 then
    match fuel with
    | O => raise FuelExhausted
    | S fuel' =>
        let attempts := attempts + 1 in
        let new_messages := build_new_messages system_prompt messages in
        self_model <- attr model ;;
        r <- create (Request self_model messages temperature max_gen_len) ;;
        match r with
        | Completion _ | NoContent =>
            attempt_loop fuel' system_prompt messages max_gen_len temperature attempts
        | RateLimitError _ =>
            sleep 5 ;;
            attempt_loop fuel' system_prompt messages max_gen_len temperature attempts
        | OtherError _ =>
            raise (NameError "max_attempts")
        end
    end
  else raise (ValueError "Ratelimit exceeded too many times!").

Definition invoke_model_with_messages (system_prompt : option string)
    (messages : list message) (max_gen_len : Z) (temperature : float) : M string :=
  emit (Invoke system_prompt messages) ;;
  attempt_loop 10 system_prompt messages max_gen_len temperature 0.

(** The keyword argument [format_prompt] of [query] is never read and is
    left out. *)
Definition query `{HashMessages} (system_prompt : option string)
    (user_prompt : string) : M reply :=
  incr_count_queries ;;
  assert (none_or_empty system_prompt) ;;
  let messages := [Message "user" user_prompt] in
  let messages_hash := hash_messages messages omitted_system_prompt in
  self_model <- attr model ;;
  hit <- has_hash messages_hash self_model ;;
  (if negb hit then
     self_max_tokens <- attr max_tokens ;;
     self_temperature <- attr temperature ;;
     response <- invoke_model_with_messages (Some (or_empty system_prompt))
                   messages self_max_tokens self_temperature ;;
     self_model <- attr model ;;
     add_result messages_hash messages response self_model
   else ret tt) ;;
  self_model <- attr model ;;
  response <- get_result messages_hash self_model ;;
  ret (Reply None response).

Definition history_messages (prompt : string) (history : list (string * string))
    : list message :=
  flat_map (fun io => [Message "user" (fst io); Message "assistant" (snd io)]) history
  ++ [Message "user" prompt].

Definition query_history `{HashMessages} (system_prompt : option string)
    (prompt : string) (history : list (string * string)) : M reply :=
  incr_count_queries ;;
  let messages := history_messages prompt history in
  let messages_hash := hash_messages messages system_prompt in
  self_model <- attr model ;;
  hit <- has_hash messages_hash self_model ;;
  (if negb hit then
     self_max_tokens <- attr max_tokens ;;
     self_temperature <- attr temperature ;;
     response <- invoke_model_with_messages (Some (or_empty system_prompt))
                   messages self_max_tokens self_temperature ;;
     self_model <- attr model ;;
     add_result messages_hash messages response self_model
   else ret tt) ;;
  self_model <- attr model ;;
  response <- get_result messages_hash self_model ;;
  ret (Reply None response).

Definition get_info : M info :=
  self_model <- attr model ;;
  self_temperature <- attr temperature ;;
  self_max_tokens <- attr max_tokens ;;
  ret (Info "gpt" self_model self_temperature self_max_tokens).

End VLLMWrapper.

(** ** The two wrappers behind the common interface *)

Inductive variant := vllm | openrouter.

Definition invoke_model_with_messages (v : variant) (system_prompt : option string)
    (messages : list message) (max_gen_len : Z) (temperature : float) : M string :=
  match v with
  | vllm =>
      VLLMWrapper.invoke_model_with_messages system_prompt messages max_gen_len temperature
  | openrouter =>
      OPENROUTERWrapper.invoke_model_with_messages system_prompt messages max_gen_len
        temperature OPENROUTERWrapper.default_max_attempts
  end.

Definition query `{HashMessages} (v : variant) : option string -> string -> M reply :=
  match v with
  | vllm => VLLMWrapper.query
  | openrouter => OPENROUTERWrapper.query
  end.

Definition query_history `{HashMessages} (v : variant)
    : option string -> string -> list (string * string) -> M reply :=
  match v with
  | vllm => VLLMWrapper.query_history
  | openrouter => OPENROUTERWrapper.query_history
  end.

Definition get_info (v : variant) : M info :=
  match v with
  | vllm => VLLMWrapper.get_info
  | openrouter => OPENROUTERWrapper.get_info
  end.

(** ** get_llm.py *)

(** What [get_llm] ends with.  The Claude and GPT wrapper classes are not
    among the sources: for them the value is the constructor call [get_llm]
    hands over to, with its arguments, and what that call returns or raises
    is left open.  For the two wrappers of the sources it is the object
    built. *)
Inductive llm :=
| ClaudeWrapper (model_version : string) (temperature : float) (max_tokens : Z)
| GPTWrapper (model_version : string) (temperature : float) (max_tokens : Z)
| Adapter (v : variant) (w : wrapper).

(** [return Wrapper(...)] for a wrapper of the sources. *)
Definition built (v : variant) (made : result wrapper) : result llm :=
  match made with
  | Return s => Return (Adapter v s)
  | Raise e => Raise e
  end.

Definition get_llm (p : platform) (model_name : string) (temperature : float)
    (max_tokens : Z) : result llm :=
  if bool_decide (model_name = "claude-35") then
    Return (ClaudeWrapper "3.5" temperature max_tokens)
  else if bool_decide (model_name = "gpt4-turbo") then
    let max_tokens := Z.min max_tokens 40960 in
    Return (GPTWrapper "gpt-4-turbo-2024-04-09" temperature max_tokens)
  else if bool_decide (model_name = "gpt4-o") then
    let max_tokens := Z.min max_tokens 40960 in
    Return (GPTWrapper "gpt-4o-2024-11-20" temperature max_tokens)
  else if contains "vllm/" model_name then
    let max_tokens := Z.min max_tokens 40960 in
    built vllm
      (VLLMWrapper.__init__ p (drop_prefix 5 model_name) temperature max_tokens None None)
  else if contains "openrouter/" model_name then
    let max_tokens := Z.min max_tokens 40960 in
    built openrouter
      (OPENROUTERWrapper.__init__ p (drop_prefix 11 model_name) temperature max_tokens)
  else Raise NotImplementedError.

(** Whether the environment holds a key for the OpenRouter client. *)
Definition keyed (p : platform) : bool :=
  bool_decide (is_Some (getenv p "OPENROUTER_API_KEY")) ||
  bool_decide (is_Some (getenv p "OPENAI_API_KEY")).

(** The [max_tokens] handed to the constructor of the wrapper built. *)
Definition llm_max_tokens (l : llm) : Z :=
  match l with
  | ClaudeWrapper _ _ mt => mt
  | GPTWrapper _ _ mt => mt
  | Adapter _ s => max_tokens s
  end.

(** ** Calls through the public interface *)

(** A call to one of the two public methods, with what the method derives
    from its arguments before it consults the cache. *)
Inductive call :=
| Query (system_prompt : option string) (user_prompt : string)
| QueryHistory (system_prompt : option string) (prompt : string)
    (history : list (string * string)).

Definition run `{HashMessages} (v : variant) (c : call) : M reply :=
  match c with
  | Query sp p => query v sp p
  | QueryHistory sp p h => query_history v sp p h
  end.

(** The world after a series of calls on the same wrapper, whatever each
    of them returned or raised. *)
Fixpoint run_all `{HashMessages} (v : variant) (cs : list call) (w : world) : world :=
  match cs with
  | [] => w
  | c :: cs' => run_all v cs' (snd (run v c w))
  end.

(** Whether the assertion on the system prompt lets the call through. *)
Definition accepted (c : call) : bool :=
  match c with
  | Query sp _ => none_or_empty sp
  | QueryHistory _ _ _ => true
  end.

Definition call_system_prompt (c : call) : option string :=
  match c with
  | Query sp _ => sp
  | QueryHistory sp _ _ => sp
  end.

Definition call_messages (c : call) : list message :=
  match c with
  | Query _ p => [Message "user" p]
  | QueryHistory _ p h => OPENROUTERWrapper.history_messages p h
  end.

Definition call_fingerprint `{HashMessages} (c : call) : string :=
  match c with
  | Query _ p => hash_messages [Message "user" p] omitted_system_prompt
  | QueryHistory sp p h => hash_messages (OPENROUTERWrapper.history_messages p h) sp
  end.

(** The world in which a method that missed the cache enters
    [invoke_model_with_messages]: the counter has been incremented and the
    lookup of the fingerprint [fp] recorded. *)
Definition entering (w : world) (fp : string) : world :=
  World (bumped (self w)) (cache w) (trace w ++ [HasHash fp (model (self w))]) (host w).

(** The invocation a method makes on a miss. *)
Definition invocation_of `{HashMessages} (v : variant) (c : call) (w : world)
    : result string * world :=
  invoke_model_with_messages v (Some (or_empty (call_system_prompt c)))
    (call_messages c) (max_tokens (self w)) (temperature (self w))
    (entering w (call_fingerprint c)).

(** The wrapper after one counted call: one more query, same configuration. *)
Definition counted_once (s s' : wrapper) : Prop :=
  count_queries s' = count_queries s + 1 /\
  model s' = model s /\ temperature s' = temperature s /\
  max_tokens s' = max_tokens s.

(** ** The retry loops, attempt by attempt *)

(** The only steps a retry loop takes: requests carrying the model of the
    wrapper and the arguments of the call unchanged, sleeps of 5 seconds,
    and appends to the log file. *)
Definition loop_step (s : wrapper) (messages : list message) (max_gen_len : Z)
    (temperature : float) (e : event) : Prop :=
  match e with
  | Create r => r = Request (model s) messages temperature max_gen_len
  | Sleep seconds => seconds = 5
  | FileAppend _ _ => True
  | _ => False
  end.

(** What the log block of an attempt appends when [calls] network calls
    have been made, and whether it runs to its end. *)
Definition log_steps (h : machine) (calls : nat) (content : option string) : list event :=
  if file_op h calls 0 && file_op h calls 1 then
    FileAppend "temp2.txt"
      (strftime_now h calls +:+ OPENROUTERWrapper.nl +:+ OPENROUTERWrapper.nl) ::
    match content with
    | None => []
    | Some text =>
        if file_op h calls 2 then
          FileAppend "temp2.txt" text ::
          (if file_op h calls 3 then [FileAppend "temp2.txt" OPENROUTERWrapper.separator]
           else [])
        else []
    end
  else [].

(** A stretch of a trace that only appends to a file. *)
Definition appends (t : list event) : Prop :=
  Forall (fun e => match e with FileAppend _ _ => True | _ => False end) t.

Definition logged (h : machine) (calls : nat) (content : option string) : bool :=
  match content with
  | None => false
  | Some _ =>
      file_op h calls 0 && file_op h calls 1 && file_op h calls 2 &&
      file_op h calls 3 && file_op h calls 4
  end.

(** The steps and the result of the OpenRouter loop when [n] attempts are
    left and the service has already received [calls] calls. *)
Fixpoint retry_steps (n : nat) (service : nat -> request -> outcome) (h : machine)
    (calls : nat) (r : request) : list event :=
  match n with
  | O => []
  | S n' =>
      Create r ::
      match service calls r with
      | Completion text =>
          log_steps h (S calls) (Some text) ++
          (if logged h (S calls) (Some text) then []
           else retry_steps n' service h (S calls) r)
      | NoContent => log_steps h (S calls) None ++ retry_steps n' service h (S calls) r
      | RateLimitError _ => Sleep 5 :: retry_steps n' service h (S calls) r
      | OtherError _ => retry_steps n' service h (S calls) r
      end
  end.

Fixpoint retry_result (n : nat) (service : nat -> request -> outcome) (h : machine)
    (calls : nat) (r : request) : result string :=
  match n with
  | O => Raise (ValueError "Ratelimit exceeded too many times!")
  | S n' =>
      match service calls r with
      | Completion text =>
          if logged h (S calls) (Some text) then Return text
          else retry_result n' service h (S calls) r
      | _ => retry_result n' service h (S calls) r
      end
  end.

(** The same for the vLLM loop. *)
Fixpoint vllm_steps (n : nat) (service : nat -> request -> outcome) (calls : nat)
    (r : request) : list event :=
  match n with
  | O => []
  | S n' =>
      Create r ::
      match service calls r with
      | Completion _ | NoContent => vllm_steps n' service (S calls) r
      | RateLimitError _ => Sleep 5 :: vllm_steps n' service (S calls) r
      | OtherError _ => []
      end
  end.

Fixpoint vllm_result (n : nat) (service : nat -> request -> outcome) (calls : nat)
    (r : request) : result string :=
  match n with
  | O => Raise (ValueError "Ratelimit exceeded too many times!")
  | S n' =>
      match service calls r with
      | OtherError _ => Raise (NameError "max_attempts")
      | _ => vllm_result n' service (S calls) r
      end
  end.

(** How many of the [n] calls numbered from [calls] are rate-limited. *)
Fixpoint rate_limited (n : nat) (service : nat -> request -> outcome) (calls : nat)
    (r : request) : nat :=
  match n with
  | O => O
  | S n' =>
      match service calls r with
      | RateLimitError _ => S (rate_limited n' service (S calls) r)
      | _ => rate_limited n' service (S calls) r
      end
  end.

Definition succeeds (o : outcome) : bool :=
  match o with
  | Completion _ => true
  | _ => false
  end.

(** Whether the attempt whose call is numbered [calls] returns: the call
    gives a text, and the log block that follows runs to its end. *)
Definition attempt_returns (service : nat -> request -> outcome) (h : machine)
    (calls : nat) (r : request) : bool :=
  match service calls r with
  | Completion text => logged h (S calls) (Some text)
  | _ => false
  end.

(** ** Concrete instances for running the model *)

(** Modelled from the spec: [hash_messages] is not among the sources.  The
    spec asks for a pure function of the turns and the optional system
    prompt that tells apart conversations differing in role, content or
    order, and speaks of the path that passes a system prompt as folding
    it in; this one writes the canonical text of the conversation out, with
    the system prompt in front when one is passed. *)
Fixpoint canonical_turns (messages : list message) : string :=
  match messages with
  | [] => ""
  | m :: ms => "<" +:+ role m +:+ ">" +:+ content m +:+ canonical_turns ms
  end.

Definition canonical_hash (messages : list message) (system_prompt : option string)
    : string :=
  match system_prompt with
  | Some s => "<system>" +:+ s +:+ canonical_turns messages
  | None => canonical_turns messages
  end.

Definition canonical_fingerprint : HashMessages :=
  {| hash_messages := canonical_hash; omitted_system_prompt := None |}.

(** Substitute services. *)
Definition always (o : outcome) : nat -> request -> outcome := fun _ _ => o.

Definition rate_limited_then (n : nat) (o : outcome) : nat -> request -> outcome :=
  fun calls _ => if (calls <? n)%nat then RateLimitError "429" else o.

(** The characters U+00E9 (e with an acute accent), U+00A0 (no-break
    space) and U+2003 (em space), each in its UTF-8 encoding. *)
Definition e_acute : string := String (ascii_of_nat 195) (String (ascii_of_nat 169) "").

Definition no_break_space : string :=
  String (ascii_of_nat 194) (String (ascii_of_nat 160) "").

Definition em_space : string :=
  String (ascii_of_nat 226) (String (ascii_of_nat 128) (String (ascii_of_nat 131) "")).

(** A machine whose clock stands still and whose disk takes every write,
    and one on which the log file cannot be opened before the third call. *)
Definition calm : machine := Machine (fun _ => "2025-01-01 00:00:00") (fun _ _ => true).

Definition locked_twice : machine :=
  Machine (fun _ => "2025-01-01 00:00:00") (fun calls _ => (2 <? calls)%nat).

(** A platform whose base class starts the counter at 0 and whose
    environment holds a key for OpenRouter only, and one without any key. *)
Definition lab (service : nat -> request -> outcome) : platform :=
  Platform 0
    (fun name => if bool_decide (name = "OPENROUTER_API_KEY") then Some "sk-or-v1" else None)
    service.

Definition keyless (service : nat -> request -> outcome) : platform :=
  Platform 0 (fun _ => None) service.

(** A freshly started process on the calm machine: an empty cache and an
    empty trace. *)
Definition fresh (s : wrapper) : world := World s ∅ [] calm.

(** The scenario of the spec: temperature 0.0, max_tokens 50, a service
    that answers "4", and a wrapper that has counted no query yet. *)
Definition scenario (v : variant) : world :=
  fresh (match v with
         | vllm => Wrapper "qwen3" 0%float 50 0 (always (Completion "4"))
         | openrouter => Wrapper "gpt-oss" 0%float 50 0 (always (Completion "4"))
         end).

(** The same wrappers in front of a service that fails as [service] says. *)
Definition failing (v : variant) (service : nat -> request -> outcome) : world :=
  fresh (match v with
         | vllm => Wrapper "qwen3" 0%float 50 0 service
         | openrouter => Wrapper "gpt-oss" 0%float 50 0 service
         end).

(** Substitute matchers for the DOT filter, for lines of the shape
    [N<id> <tooltip>] and [E<src><dst>] with one-character ids. *)
Definition toy_node_re (line : string) : option (string * string * option string) :=
  match line with
  | String "N" (String i (String " " tooltip)) => Some (String i "", tooltip, None)
  | _ => None
  end.

Definition toy_edge_re (line : string) : option (string * string) :=
  match line with
  | String "E" (String a (String b "")) => Some (String a "", String b "")
  | _ => None
  end.

(** A process in front of a service that answers "4", on the machine whose
    log file cannot be opened before the third call. *)
Definition locked : world :=
  World (Wrapper "gpt-oss" 0%float 50 0 (always (Completion "4"))) ∅ [] locked_twice.

(** A process whose cache already holds a response for the turn "hi", under
    the fingerprint without a system prompt and under the one with the
    system prompt "be brief". *)
Definition primed : world :=
  World (Wrapper "gpt-oss" 0%float 50 0 (always (Completion "4")))
    (<[("gpt-oss", canonical_hash [Message "user" "hi"] None) :=
         ([Message "user" "hi"], "hello")]>
       (<[("gpt-oss", canonical_hash [Message "user" "hi"] (Some "be brief")) :=
            ([Message "user" "hi"], "hello")]> ∅))
    [] calm.

(** ** 0_deps_viz.py *)

Module DepsViz.

(** [s.split(".")]: never empty, one more part than there are dots. *)
Fixpoint split_dot (s : string) : list string :=
  match s with
  | EmptyString => [""]
  | String c s' =>
      if bool_decide (c = "."%char) then "" :: split_dot s'
      else
        match split_dot s' with
        | p :: ps => String c p :: ps
        | [] => [String c ""]
        end
  end.

(** [".".join(parts)] *)
Fixpoint join_dot (parts : list string) : string :=
  match parts with
  | [] => ""
  | [p] => p
  | p :: ps => p +:+ "." +:+ join_dot ps
  end.

(** Whether a string is a single, non-empty segment of a dotted name. *)
Fixpoint no_dot (s : string) : bool :=
  match s with
  | EmptyString => true
  | String c s' => negb (bool_decide (c = "."%char)) && no_dot s'
  end.

Definition segment (p : string) : Prop := no_dot p = true /\ p <> "".

(** [l[:-n]] for a positive [n]. *)
Definition drop_last {A} (n : nat) (l : list A) : list A :=
  firstn (length l - n) l.

Definition resolve_from_import (current_module : string)
    (imported_module : option string) (level : Z) : string :=
  if level =? 0 then or_empty imported_module
  else
    let base_parts := split_dot current_module in
    let base_parts :=
      if truthy current_module then
        match base_parts with
        | [] => base_parts
        | _ => drop_last 1 base_parts
        end
      else base_parts in
    let up := Z.max (level - 1) 0 in
    let base_parts :=
      if up =? 0 then base_parts
      else if up <=? Z.of_nat (length base_parts) then drop_last (Z.to_nat up) base_parts
      else [] in
    if opt_truthy imported_module then
      join_dot (filter (fun p => truthy p = true) base_parts
                ++ split_dot (or_empty imported_module))
    else join_dot (filter (fun p => truthy p = true) base_parts).

(** The import statements [ast.walk] meets in a parsed file: [import a, b],
    [from m import a, b] with its count of leading dots, and any other node. *)
Inductive node :=
| Import (names : list string)
| ImportFrom (module : option string) (names : list string) (level : Z)
| Other.

(** The body of the loop of [collect_imports_for_file] for one node. *)
Definition collect_node (current_module : string) (found : gset string) (n : node)
    : gset string :=
  match n with
  | Import names =>
      foldl (fun found name => if truthy name then found ∪ {[name]} else found)
        found names
  | ImportFrom module names level =>
      let abs_mod := resolve_from_import current_module module level in
      let found := if truthy abs_mod then found ∪ {[abs_mod]} else found in
      foldl (fun found name =>
               if bool_decide (name = "*") then found
               else
                 let name_as_module :=
                   if truthy abs_mod then abs_mod +:+ "." +:+ name else name in
                 found ∪ {[name_as_module]})
        found names
  | Other => found
  end.

(** [collect_imports_for_file], given what reading and parsing the file
    gives ([None] for a SyntaxError, else the nodes in the order of the
    walk) and the module name of the file. *)
Definition collect_imports_for_file (tree : option (list node))
    (current_module : string) : gset string :=
  match tree with
  | None => ∅
  | Some nodes => foldl (collect_node current_module) ∅ nodes
  end.

(** [sorted(project_modules, key=len, reverse=True)] on the modules in the
    order the set yields them: longest first, equal lengths in their
    original order. *)
Fixpoint insert_by_len (x : string) (l : list string) : list string :=
  match l with
  | [] => [x]
  | y :: l' =>
      if (len x <? len y)%nat then y :: insert_by_len x l'
      else x :: l
  end.

Definition sorted_by_len (l : list string) : list string := foldr insert_by_len [] l.

Fixpoint first_match (mod_ : string) (candidates : list string) : option string :=
  match candidates with
  | [] => None
  | cand :: rest =>
      if bool_decide (mod_ = cand) || String.prefix (cand +:+ ".") mod_ then Some mod_
      else first_match mod_ rest
  end.

Definition normalize_to_project (mod_ : string) (project_modules : list string)
    : option string :=
  let candidates := sorted_by_len project_modules in
  first_match mod_ candidates.

(** Whether [mod_] is the project module [cand] or lies under it. *)
Definition under (cand mod_ : string) : bool :=
  bool_decide (mod_ = cand) || String.prefix (cand +:+ ".") mod_.

(** A [networkx.DiGraph]: its nodes and its edges. *)
Record digraph := DiGraph { nodes : gset string; edges : gset (string * string) }.

(** [G.add_edge(u, v)], which also makes [u] and [v] nodes. *)
Definition add_edge (u v : string) (G : digraph) : digraph :=
  DiGraph (nodes G ∪ {[u]} ∪ {[v]}) (edges G ∪ {[(u, v)]}).

(** [build_graph] from the dict [module_of] on: the files found with their
    module names, and what parsing each file gives. *)
Definition build_graph (module_of : list (string * string))
    (parse : string -> option (list node)) : digraph * gset string :=
  let project_modules : gset string := list_to_set (map snd module_of) in
  let G := DiGraph project_modules ∅ in
  let G :=
    foldl (fun G item =>
             let modname := snd item in
             let imports := collect_imports_for_file (parse (fst item)) modname in
             foldl (fun G target =>
                      match normalize_to_project target (elements project_modules) with
                      | Some internal =>
                          if truthy internal && negb (bool_decide (internal = modname))
                          then add_edge modname internal G
                          else G
                      | None => G
                      end)
               G (elements imports))
      G module_of in
  (G, project_modules).

(** What holds of the graph while [build_graph] adds edges to it, [pms]
    being the project modules. *)
Definition graph_ok (pms : gset string) (G : digraph) : Prop :=
  (forall u v, (u, v) ∈ edges G ->
     u <> v /\ u ∈ pms /\ exists cand, cand ∈ pms /\ under cand v = true) /\
  (forall n, n ∈ nodes G -> n ∈ pms \/ exists u, (u, n) ∈ edges G) /\
  pms ⊆ nodes G.

End DepsViz.

(** ** filter_graph.py *)

Module FilterGraph.

Section Script.

(** What the script takes from the libraries: the result of
    [node_re.match(line)] (the groups id, tooltip and label, the last one
    optional) and of [edge_re.match(line)] (the groups src and dst),
    [os.path.isabs], [os.path.abspath], and the absolute project root of
    the command line. *)
Context (node_re : string -> option (string * string * option string))
        (edge_re : string -> option (string * string))
        (isabs : string -> bool) (abspath : string -> string)
        (project_root : string).

Definition is_node (line : string) : bool :=
  match node_re line with Some _ => true | None => false end.

Definition is_edge (line : string) : bool :=
  match edge_re line with Some _ => true | None => false end.

(** The first loop: the lines before the first node or edge line, and the
    lines from there on. *)
Fixpoint split_header (lines : list string) : list string * list string :=
  match lines with
  | [] => ([], [])
  | line :: rest =>
      if is_node line || is_edge line then ([], lines)
      else (line :: fst (split_header rest), snd (split_header rest))
  end.

Definition node_lines (footer : list string) : list string :=
  List.filter is_node footer.

Definition edge_lines (footer : list string) : list string :=
  List.filter (fun line => negb (is_node line) && is_edge line) footer.

Definition other_lines (footer : list string) : list string :=
  List.filter (fun line => negb (is_node line) && negb (is_edge line)) footer.

(** [any(p.search(label) or p.search(tooltip) for p in EXCLUDE_PATTERNS)]:
    both patterns are literal texts. *)
Definition excluded (label tooltip : string) : bool :=
  (contains "<frozen importlib" label || contains "<frozen importlib" tooltip) ||
  (contains "~" label || contains "~" tooltip).

Definition under_project (tooltip : string) : bool :=
  let abs_path := if isabs tooltip then tooltip else abspath tooltip in
  String.prefix project_root abs_path.

(** [d[k] = v] on a dict, which keeps the place of a key it already has. *)
Fixpoint dict_set (k v : string) (d : list (string * string)) : list (string * string) :=
  match d with
  | [] => [(k, v)]
  | (k', v') :: d' =>
      if bool_decide (k = k') then (k, v) :: d' else (k', v') :: dict_set k v d'
  end.

(** [k in d] *)
Definition dict_has (k : string) (d : list (string * string)) : bool :=
  existsb (fun kv => bool_decide (fst kv = k)) d.

(** Whether a node line is kept. *)
Definition wanted (nl : string) : bool :=
  match node_re nl with
  | None => false
  | Some (_, tooltip, label) =>
      under_project tooltip && negb (excluded (or_empty label) tooltip)
  end.

Definition keep_step (keep_nodes : list (string * string)) (nl : string)
    : list (string * string) :=
  match node_re nl with
  | None => keep_nodes
  | Some (node_id, tooltip, label) =>
      if under_project tooltip && negb (excluded (or_empty label) tooltip)
      then dict_set node_id nl keep_nodes
      else keep_nodes
  end.

Definition keep_nodes (nls : list string) : list (string * string) :=
  foldl keep_step [] nls.

Definition edge_kept (keep : list (string * string)) (el : string) : bool :=
  match edge_re el with
  | None => false
  | Some (src, dst) => dict_has src keep && dict_has dst keep
  end.

Definition filtered_edges (keep : list (string * string)) (els : list string)
    : list string :=
  List.filter (edge_kept keep) els.

(** The dict of the kept node lines and the list of the kept edge lines of
    an input. *)
Definition kept_nodes_of (lines : list string) : list (string * string) :=
  keep_nodes (node_lines (snd (split_header lines))).

Definition kept_edges_of (lines : list string) : list string :=
  filtered_edges (kept_nodes_of lines) (edge_lines (snd (split_header lines))).

(** The lines written to the output file, from the lines read. *)
Definition filter_dot (lines : list string) : list string :=
  fst (split_header lines)
  ++ map snd (kept_nodes_of lines)
  ++ kept_edges_of lines
  ++ other_lines (snd (split_header lines)).

(** What holds of the dict while the node lines [nls] are being read. *)
Definition dict_ok (nls : list string) (d : list (string * string)) : Prop :=
  NoDup (map fst d) /\
  forall node_id nl, In (node_id, nl) d ->
    In nl nls /\ wanted nl = true /\
    exists tooltip label, node_re nl = Some (node_id, tooltip, label).

End Script.

End FilterGraph.

(** ** mock_prereqs.py *)

Module MockPrereqs.

(** JSON values as [json.load] gives them. *)
#[local] Unset Elimination Schemes.
Inductive json :=
| JNull
| JBool (b : bool)
| JInt (n : Z)
| JFloat (x : float)
| JStr (s : string)
| JArr (items : list json)
| JObj (fields : list (string * json)).
#[local] Set Elimination Schemes.

(** A dict with string keys, in insertion order. *)
Abbreviation dict := (list (string * json)).

(** [d.get(k)] *)
Fixpoint dict_get (k : string) (d : dict) : option json :=
  match d with
  | [] => None
  | (k', v) :: d' => if bool_decide (k = k') then Some v else dict_get k d'
  end.

(** [d[k] = v], which keeps the place of a key the dict already has. *)
Fixpoint dict_set (k : string) (v : json) (d : dict) : dict :=
  match d with
  | [] => [(k, v)]
  | (k', v') :: d' =>
      if bool_decide (k = k') then (k, v) :: d' else (k', v') :: dict_set k v d'
  end.

(** What a file holds, by the shape the script reads or writes it in: the
    news file, an object whose key ['articles'] maps event keys to lists of
    article objects; a raw question file, an object with or without the
    key ['questions'], a list of question objects; and a file of one
    JSON object per line. *)
Inductive content :=
| NewsArticles (top : dict) (events : list (string * list dict))
| RawQuestions (top : dict) (questions : option (list dict))
| JsonLines (records : list dict).

Inductive error :=
| FileNotFoundError
| KeyError (key : string)
| TypeError
| ZeroDivisionError
| Unreadable.

Inductive outcome (A : Type) :=
| Ok (a : A)
| Err (e : error).
Arguments Ok {A} a.
Arguments Err {A} e.

(** [storyline_dir / name] *)
Definition path_join (dir name : string) : string := dir +:+ "/" +:+ name.

(** [for x in v] for a JSON value: the items of a list, the characters of
    a string, the keys of an object, and TypeError for the rest. *)
Definition py_iter (v : json) : outcome (list json) :=
  match v with
  | JArr items => Ok items
  | JStr s => Ok (map JStr (chars s))
  | JObj fields => Ok (map (fun kv => JStr (fst kv)) fields)
  | _ => Err TypeError
  end.

(** [d[k]] *)
Definition getitem (d : dict) (k : string) : outcome json :=
  match dict_get k d with
  | Some v => Ok v
  | None => Err (KeyError k)
  end.

Section Script.

(** The generator behind [random.random()] and [random.choice] on a list
    of two ([true] for its first item), and [generate_id] of
    data_gen.util.ids, which is not among the sources. *)
Context {rng : Type}
        (random_random : rng -> float * rng)
        (random_choice : rng -> bool * rng)
        (generate_id : dict -> json).

Record state := State { files : gmap string content; seed : rng }.

Definition St (A : Type) : Type := state -> outcome A * state.

Definition ret {A} (a : A) : St A := fun st => (Ok a, st).

Definition raise {A} (e : error) : St A := fun st => (Err e, st).

Definition bind {A B} (c : St A) (k : A -> St B) : St B :=
  fun st =>
    match c st with
    | (Ok a, st') => k a st'
    | (Err e, st') => (Err e, st')
    end.

Definition lift {A} (o : outcome A) : St A := fun st => (o, st).

(** A [for] loop that carries the local variables [acc] along. *)
Fixpoint for_each {A B} (l : list A) (body : B -> A -> St B) (acc : B) : St B :=
  match l with
  | [] => ret acc
  | x :: l' => bind (body acc x) (for_each l' body)
  end.

(** [path.exists()] *)
Definition path_exists (path : string) : St bool :=
  fun st => (Ok (bool_decide (is_Some (files st !! path))), st).

(** [with path.open("w") as f: ...] *)
Definition write_file (path : string) (c : content) : St unit :=
  fun st => (Ok tt, State (<[path := c]> (files st)) (seed st)).

(** [read_json(path)] of data_gen.util.file_util ("or json.load", as the
    script says) for a news file and for a raw question file. *)
Definition read_news (path : string) : St (dict * list (string * list dict)) :=
  fun st =>
    match files st !! path with
    | Some (NewsArticles top events) => (Ok (top, events), st)
    | Some _ => (Err Unreadable, st)
    | None => (Err FileNotFoundError, st)
    end.

Definition read_questions (path : string) : St (option (list dict)) :=
  fun st =>
    match files st !! path with
    | Some (RawQuestions _ questions) => (Ok questions, st)
    | Some _ => (Err Unreadable, st)
    | None => (Err FileNotFoundError, st)
    end.

(** [random.random() > fail_pct] *)
Definition draw_above (fail_pct : float) : St bool :=
  fun st =>
    let (r, g) := random_random (seed st) in
    (Ok (PrimFloat.ltb fail_pct r), State (files st) g).

(** [random.choice(["neutral", "contradiction"])] *)
Definition choose_neutral_or_contradiction : St string :=
  fun st =>
    let (first, g) := random_choice (seed st) in
    (Ok (if first then "neutral" else "contradiction"), State (files st) g).

Definition idfy_article (article : dict) : dict :=
  dict_set "article_id" (generate_id article) article.

Definition idfy_news_articles (storyline_dir : string) : St string :=
  let news_path := path_join storyline_dir "news-articles.json" in
  let idfy_path := path_join storyline_dir "news-articles-idfy.json" in
  bind (read_news news_path) (fun articles =>
  let events :=
    map (fun ev => (fst ev, map idfy_article (snd ev))) (snd articles) in
  bind (write_file idfy_path (NewsArticles (fst articles) events)) (fun _ =>
  ret idfy_path)).

(** The body of the innermost loop of [mock_nli]. *)
Definition nli_sentence (fail_pct : float) (art : dict) (preds : list dict)
    (sent_id : json) : St (list dict) :=
  bind (draw_above fail_pct) (fun above =>
  bind (if above then ret "entailment" else choose_neutral_or_contradiction)
    (fun nli_pred =>
  bind (lift (getitem art "article_id")) (fun article_id =>
  ret (preds ++ [[("article_id", article_id);
                  ("sentence_id", sent_id);
                  ("label", JStr "entailment");
                  ("nli_prediction", JStr nli_pred)]])))).

Definition nli_article (fail_pct : float) (preds : list dict) (art : dict)
    : St (list dict) :=
  bind (lift (getitem art "used_items")) (fun used_items =>
  bind (lift (py_iter used_items)) (fun sent_ids =>
  for_each sent_ids (nli_sentence fail_pct art) preds)).

Definition mock_nli (storyline_dir : string) (fail_pct : float) : St (option string) :=
  let news_path := path_join storyline_dir "news-articles-idfy.json" in
  bind (path_exists news_path) (fun there =>
  if negb there then ret None
  else
    bind (read_news news_path) (fun articles =>
    bind (for_each (snd articles)
            (fun preds ev => for_each (snd ev) (nli_article fail_pct) preds) [])
      (fun preds =>
    let out_path := path_join storyline_dir "nli-predictions.jsonl" in
    bind (write_file out_path (JsonLines preds)) (fun _ =>
    bind (match preds with
          | [] => raise ZeroDivisionError
          | _ => ret tt
          end) (fun _ =>
    ret (Some out_path)))))).

Definition raw_files : list string :=
  ["multiv2-bridge-series.json"; "timespan-questions_v2complete.json"].

Definition filter_question (fail_pct : float) (done : list dict) (q : dict)
    : St (list dict) :=
  bind (draw_above fail_pct) (fun is_success =>
  let q := dict_set "filtered" (JStr (if is_success then "success" else "fail")) q in
  let q :=
    dict_set "filter_reason"
      (JStr (if is_success then "Mock: Valid"
             else "Mock: Invalid (e.g., incoherent)")) q in
  ret (done ++ [q])).

Definition mock_question_filter (q_dir : string) (fail_pct : float)
    : St (option string) :=
  bind (for_each raw_files
          (fun questions f_name =>
             let f_path := path_join q_dir f_name in
             bind (path_exists f_path) (fun there =>
             if there then
               bind (read_questions f_path) (fun data =>
               ret (questions ++ default [] data))
             else ret questions))
          [])
    (fun questions =>
  match questions with
  | [] => ret None
  | _ =>
      bind (for_each questions (filter_question fail_pct) []) (fun questions =>
      let out_path := path_join q_dir "filter-evaluated-outputs.jsonl" in
      bind (write_file out_path (JsonLines questions)) (fun _ =>
      ret (Some out_path)))
  end).

Definition main (storyline_dir : string) (fail_pct : float) : St unit :=
  bind (idfy_news_articles (path_join storyline_dir "news")) (fun idfy_path =>
  bind (mock_nli (path_join storyline_dir "news") fail_pct) (fun nli_path =>
  bind (mock_question_filter (path_join storyline_dir "questions") fail_pct)
    (fun q_path =>
  ret tt))).

(** The sentences [mock_nli] predicts for, in its order: each used item of
    each article of each event, with the id of the article. *)
Definition article_sentences (art : dict) : list (json * json) :=
  match dict_get "article_id" art, dict_get "used_items" art with
  | Some article_id, Some used_items =>
      match py_iter used_items with
      | Ok sent_ids => map (fun sent_id => (article_id, sent_id)) sent_ids
      | Err _ => []
      end
  | _, _ => []
  end.

Definition event_sentences (events : list (string * list dict)) : list (json * json) :=
  flat_map (fun ev => flat_map article_sentences (snd ev)) events.

(** An article [mock_nli] can read: its used items can be iterated, and it
    has an id unless there is no used item. *)
Definition readable_article (art : dict) : Prop :=
  exists used_items sent_ids,
    dict_get "used_items" art = Some used_items /\
    py_iter used_items = Ok sent_ids /\
    (sent_ids = [] \/ is_Some (dict_get "article_id" art)).

Definition readable_events (events : list (string * list dict)) : Prop :=
  Forall (fun ev => Forall readable_article (snd ev)) events.

(** A record of the predictions file for the sentence [s]. *)
Definition prediction_for (s : json * json) (p : dict) : Prop :=
  exists nli_pred,
    p = [("article_id", fst s); ("sentence_id", snd s);
         ("label", JStr "entailment"); ("nli_prediction", JStr nli_pred)] /\
    (nli_pred = "entailment" \/ nli_pred = "neutral" \/ nli_pred = "contradiction").

(** A record of the filter output for the question [q]. *)
Definition verdict_for (q q' : dict) : Prop :=
  (forall k, k <> "filtered" -> k <> "filter_reason" -> dict_get k q' = dict_get k q) /\
  ((dict_get "filtered" q' = Some (JStr "success") /\
    dict_get "filter_reason" q' = Some (JStr "Mock: Valid")) \/
   (dict_get "filtered" q' = Some (JStr "fail") /\
    dict_get "filter_reason" q' = Some (JStr "Mock: Invalid (e.g., incoherent)"))).

(** A raw question file the filter can read, or none at all. *)
Definition readable_raw (c : option content) : Prop :=
  c = None \/ exists top questions, c = Some (RawQuestions top questions).

(** An article whose used items can be iterated. *)
Definition iterable_article (art : dict) : Prop :=
  exists used_items sent_ids,
    dict_get "used_items" art = Some used_items /\ py_iter used_items = Ok sent_ids.

(** The questions a raw file contributes. *)
Definition questions_in (c : option content) : list dict :=
  match c with
  | Some (RawQuestions _ (Some questions)) => questions
  | _ => []
  end.

End Script.

End MockPrereqs.

(** ** A concrete storyline for the mocked prerequisites *)

(** A substitute generator for the mocked prerequisites, counting its
    draws: every second draw falls below one half.  The substitute for
    [generate_id] answers with the number of keys of the article. *)
Definition toy_random (n : nat) : float * nat :=
  (if Nat.even n then 0.75%float else 0.25%float, S n).

Definition toy_choice (n : nat) : bool * nat := (Nat.even n, S n).

Definition toy_generate_id (article : MockPrereqs.dict) : MockPrereqs.json :=
  MockPrereqs.JInt (Z.of_nat (length article)).

(** A storyline with one event of one article with two used items, and one
    raw question file with one question. *)
Definition storyline : MockPrereqs.state (rng := nat) :=
  MockPrereqs.State
    (<["s/news/news-articles.json" :=
         MockPrereqs.NewsArticles []
           [("e1", [[("title", MockPrereqs.JStr "t");
                     ("used_items",
                      MockPrereqs.JArr [MockPrereqs.JStr "s1"; MockPrereqs.JStr "s2"])]])]]>
       (<["s/questions/multiv2-bridge-series.json" :=
            MockPrereqs.RawQuestions []
              (Some [[("question", MockPrereqs.JStr "who?")]])]> ∅))
    0%nat.

(** The events of a storyline whose only article, already given an id, has
    two used items. *)
Definition told_events : list (string * list MockPrereqs.dict) :=
  [("e1", [[("article_id", MockPrereqs.JInt 1);
            ("used_items",
             MockPrereqs.JArr [MockPrereqs.JStr "s1"; MockPrereqs.JStr "s2"])]])].

Definition told_storyline : MockPrereqs.state (rng := nat) :=
  MockPrereqs.State
    (<["s/news/news-articles-idfy.json" := MockPrereqs.NewsArticles [] told_events]> ∅)
    0%nat.

(** A storyline whose only article, already given an id, has no used item. *)
Definition silent_storyline : MockPrereqs.state (rng := nat) :=
  MockPrereqs.State
    (<["s/news/news-articles-idfy.json" :=
         MockPrereqs.NewsArticles []
           [("e1", [[("article_id", MockPrereqs.JInt 1);
                     ("used_items", MockPrereqs.JArr [])]])]]> ∅)
    0%nat.

(** * Properties *)

(** ** Counting over traces *)

Lemma network_calls_app t1 t2 :
  network_calls (t1 ++ t2) = (network_calls t1 + network_calls t2)%nat.
Proof. induction t1 as [|[] t1 IH]; simpl; auto. Qed.

Lemma invocations_app t1 t2 :
  invocations (t1 ++ t2) = (invocations t1 + invocations t2)%nat.
Proof. induction t1 as [|[] t1 IH]; simpl; auto. Qed.

Lemma requests_app t1 t2 : requests (t1 ++ t2) = requests t1 ++ requests t2.
Proof. induction t1 as [|[] t1 IH]; simpl; auto. now rewrite IH. Qed.

Lemma sleeps_app t1 t2 : sleeps (t1 ++ t2) = sleeps t1 ++ sleeps t2.
Proof. induction t1 as [|[] t1 IH]; simpl; auto. now rewrite IH. Qed.


Lemma network_calls_requests t : network_calls t = length (requests t).
Proof. induction t as [|[] t IH]; simpl; auto. Qed.

Lemma loop_steps_invocations s msgs mgl tmp t :
  Forall (loop_step s msgs mgl tmp) t -> invocations t = O.
Proof. induction 1 as [|[] t Hx _ IH]; simpl in *; auto; contradiction. Qed.


Lemma loop_steps_requests s msgs mgl tmp t :
  Forall (loop_step s msgs mgl tmp) t ->
  Forall (fun r => r = Request (model s) msgs tmp mgl) (requests t).
Proof.
  induction 1 as [|[] t Hx _ IH]; simpl in *; auto; contradiction.
Qed.

Lemma loop_steps_sleeps s msgs mgl tmp t :
  Forall (loop_step s msgs mgl tmp) t -> Forall (fun n => n = 5) (sleeps t).
Proof.
  induction 1 as [|[] t Hx _ IH]; simpl in *; auto; contradiction.
Qed.

Lemma network_calls_snoc_create t r :
  network_calls (t ++ [Create r]) = S (network_calls t).
Proof. rewrite network_calls_app. simpl. lia. Qed.

Lemma network_calls_snoc_sleep t n : network_calls (t ++ [Sleep n]) = network_calls t.
Proof. rewrite network_calls_app. simpl. lia. Qed.

Lemma network_calls_snoc_invoke t sp msgs :
  network_calls (t ++ [Invoke sp msgs]) = network_calls t.
Proof. rewrite network_calls_app. simpl. lia. Qed.

Lemma network_calls_snoc_append t path text :
  network_calls (t ++ [FileAppend path text]) = network_calls t.
Proof. rewrite network_calls_app. simpl. lia. Qed.

(** ** The log block *)

Lemma appends_count t :
  appends t ->
  network_calls t = O /\ sleeps t = [] /\ invocations t = O /\ requests t = [] /\
  fingerprints t = [].
Proof. induction 1 as [|[] t Hx _ IH]; simpl in *; auto; contradiction. Qed.

Lemma appends_loop_steps s msgs mgl tmp t :
  appends t -> Forall (loop_step s msgs mgl tmp) t.
Proof.
  intros Happ. eapply Forall_impl; [exact Happ|]. intros []; simpl; auto; contradiction.
Qed.

Lemma log_steps_appends h calls content : appends (log_steps h calls content).
Proof.
  unfold log_steps, appends.
  destruct (file_op h calls 0 && file_op h calls 1); [|constructor].
  destruct content as [text|]; [|repeat constructor].
  destruct (file_op h calls 2); [|repeat constructor].
  destruct (file_op h calls 3); repeat constructor.
Qed.

Lemma network_calls_log_steps t h calls content :
  network_calls (t ++ log_steps h calls content) = network_calls t.
Proof.
  rewrite network_calls_app.
  destruct (appends_count _ (log_steps_appends h calls content)) as (-> & _). lia.
Qed.

Lemma log_completion_run content w :
  OPENROUTERWrapper.log_completion content w =
    (Return (logged (host w) (network_calls (trace w)) content),
     World (self w) (cache w)
       (trace w ++ log_steps (host w) (network_calls (trace w)) content) (host w)).
Proof.
  destruct w as [s c t h].
  unfold OPENROUTERWrapper.log_completion, log_steps, logged.
  cbv beta iota zeta delta [bind log_op write now_strftime emit ret].
  cbn [self cache trace host].
  destruct (file_op h (network_calls t) 0); cbv beta iota zeta;
    cbn [self cache trace host negb andb].
  2:{ rewrite app_nil_r. now destruct content. }
  destruct (file_op h (network_calls t) 1); cbv beta iota zeta;
    cbn [self cache trace host negb andb].
  2:{ rewrite app_nil_r. now destruct content. }
  destruct content as [text|]; [|reflexivity].
  cbn [self cache trace host]. rewrite !network_calls_snoc_append.
  destruct (file_op h (network_calls t) 2); cbv beta iota zeta;
    cbn [self cache trace host negb andb]; [|reflexivity].
  rewrite !network_calls_snoc_append.
  destruct (file_op h (network_calls t) 3); cbv beta iota zeta;
    cbn [self cache trace host negb andb].
  2:{ rewrite <- app_assoc. reflexivity. }
  rewrite !network_calls_snoc_append, <- !app_assoc. reflexivity.
Qed.

(** ** The retry loops against their attempt-by-attempt description *)

Lemma openrouter_loop_run fuel sp msgs mgl t ma a w :
  (Z.to_nat (ma - a) <= fuel)%nat ->
  let r := Request (model (self w)) msgs t mgl in
  let n := Z.to_nat (ma - a) in
  OPENROUTERWrapper.attempt_loop fuel sp msgs mgl t ma a w =
    (retry_result n (client (self w)) (host w) (network_calls (trace w)) r,
     World (self w) (cache w)
       (trace w ++ retry_steps n (client (self w)) (host w) (network_calls (trace w)) r)
       (host w)).
Proof.
  revert a w. induction fuel as [|fuel IH]; intros a w Hfuel; simpl.
  - destruct (Z.ltb_spec a ma) as [Hlt|Hge]; [lia|].
    replace (Z.to_nat (ma - a)) with O by lia. simpl. rewrite app_nil_r.
    destruct w; reflexivity.
  - destruct (Z.ltb_spec a ma) as [Hlt|Hge].
    2:{ replace (Z.to_nat (ma - a)) with O by lia. simpl. rewrite app_nil_r.
        destruct w; reflexivity. }
    replace (Z.to_nat (ma - a)) with (S (Z.to_nat (ma - (a + 1)))) by lia.
    cbv beta iota zeta delta [bind attr create sleep emit ret]. cbn [self cache trace host].
    cbn [retry_result retry_steps].
    destruct (client (self w) (network_calls (trace w)) _) as [text|err|err|];
      cbv beta iota zeta delta [bind attr create sleep emit ret];
      cbn [self cache trace host].
    + rewrite log_completion_run. cbn [self cache trace host].
      rewrite network_calls_snoc_create.
      destruct (logged (host w) (S (network_calls (trace w))) (Some text)).
      * rewrite app_nil_r, <- app_assoc. reflexivity.
      * rewrite IH by (cbn [self cache trace host]; lia). cbn [self cache trace host].
        rewrite network_calls_log_steps, network_calls_snoc_create, <- !app_assoc.
        reflexivity.
    + rewrite IH by (cbn [self cache trace host]; lia). cbn [self cache trace host].
      rewrite network_calls_snoc_sleep, network_calls_snoc_create, <- !app_assoc.
      reflexivity.
    + rewrite IH by (cbn [self cache trace host]; lia). cbn [self cache trace host].
      rewrite network_calls_snoc_create, <- !app_assoc. reflexivity.
    + rewrite log_completion_run. cbn [self cache trace host].
      rewrite IH by (cbn [self cache trace host]; lia). cbn [self cache trace host].
      rewrite network_calls_log_steps, !network_calls_snoc_create, <- !app_assoc.
      reflexivity.
Qed.

Lemma vllm_loop_run fuel sp msgs mgl t a w :
  (Z.to_nat (10 - a) <= fuel)%nat ->
  let r := Request (model (self w)) msgs t mgl in
  let n := Z.to_nat (10 - a) in
  VLLMWrapper.attempt_loop fuel sp msgs mgl t a w =
    (vllm_result n (client (self w)) (network_calls (trace w)) r,
     World (self w) (cache w)
       (trace w ++ vllm_steps n (client (self w)) (network_calls (trace w)) r) (host w)).
Proof.
  revert a w. induction fuel as [|fuel IH]; intros a w Hfuel; simpl.
  - destruct (Z.ltb_spec a 10) as [Hlt|Hge]; [lia|].
    replace (Z.to_nat (10 - a)) with O by lia. simpl. rewrite app_nil_r.
    destruct w; reflexivity.
  - destruct (Z.ltb_spec a 10) as [Hlt|Hge].
    2:{ replace (Z.to_nat (10 - a)) with O by lia. simpl. rewrite app_nil_r.
        destruct w; reflexivity. }
    replace (Z.to_nat (10 - a)) with (S (Z.to_nat (10 - (a + 1)))) by lia.
    cbv beta iota zeta delta [bind attr create sleep emit ret raise].
    cbn [self cache trace host].
    cbn [vllm_result vllm_steps].
    destruct (client (self w) (network_calls (trace w)) _) as [text|err|err|];
      cbv beta iota zeta delta [bind attr create sleep emit ret raise];
      cbn [self cache trace host].
    + rewrite IH by (cbn [self cache trace host]; lia). cbn [self cache trace host].
      rewrite network_calls_snoc_create, <- !app_assoc. reflexivity.
    + rewrite IH by (cbn [self cache trace host]; lia). cbn [self cache trace host].
      rewrite network_calls_snoc_sleep, network_calls_snoc_create, <- !app_assoc.
      reflexivity.
    + reflexivity.
    + rewrite IH by (cbn [self cache trace host]; lia). cbn [self cache trace host].
      rewrite network_calls_snoc_create, <- !app_assoc. reflexivity.
Qed.

(** The two methods, as one entry followed by the attempts. *)
Lemma openrouter_invoke_run sp msgs mgl t ma w :
  let r := Request (model (self w)) msgs t mgl in
  let n := Z.to_nat ma in
  OPENROUTERWrapper.invoke_model_with_messages sp msgs mgl t ma w =
    (retry_result n (client (self w)) (host w) (network_calls (trace w)) r,
     World (self w) (cache w)
       (trace w ++ Invoke sp msgs ::
          retry_steps n (client (self w)) (host w) (network_calls (trace w)) r)
       (host w)).
Proof.
  cbv beta iota zeta delta [OPENROUTERWrapper.invoke_model_with_messages bind emit].
  rewrite openrouter_loop_run by (cbn [self cache trace host]; lia).
  cbn [self cache trace host]. rewrite network_calls_snoc_invoke, <- app_assoc.
  replace (ma - 0) with ma by lia. reflexivity.
Qed.

Lemma vllm_invoke_run sp msgs mgl t w :
  let r := Request (model (self w)) msgs t mgl in
  VLLMWrapper.invoke_model_with_messages sp msgs mgl t w =
    (vllm_result 10 (client (self w)) (network_calls (trace w)) r,
     World (self w) (cache w)
       (trace w ++ Invoke sp msgs ::
          vllm_steps 10 (client (self w)) (network_calls (trace w)) r) (host w)).
Proof.
  cbv beta iota zeta delta [VLLMWrapper.invoke_model_with_messages bind emit].
  rewrite vllm_loop_run by (cbn [self cache trace host]; simpl; lia).
  cbn [self cache trace host]. rewrite network_calls_snoc_invoke, <- app_assoc.
  reflexivity.
Qed.

(** ** Frame facts about the retry loops *)

Lemma retry_steps_loop_steps s msgs mgl t n h k :
  Forall (loop_step s msgs mgl t)
    (retry_steps n (client s) h k (Request (model s) msgs t mgl)).
Proof.
  revert k. induction n as [|n IH]; intros k; cbn [retry_steps]; [constructor|].
  constructor; [reflexivity|].
  destruct (client s k _) as [text|err|err|].
  - apply Forall_app. split; [apply appends_loop_steps, log_steps_appends|].
    destruct (logged h (S k) (Some text)); [constructor|apply IH].
  - constructor; [reflexivity|apply IH].
  - apply IH.
  - apply Forall_app. split; [apply appends_loop_steps, log_steps_appends|apply IH].
Qed.

Lemma vllm_steps_loop_steps s msgs mgl t n k :
  Forall (loop_step s msgs mgl t) (vllm_steps n (client s) k (Request (model s) msgs t mgl)).
Proof.
  revert k. induction n as [|n IH]; intros k; cbn [vllm_steps]; [constructor|].
  constructor; [reflexivity|].
  destruct (client s k _) as [text|err|err|].
  - apply IH.
  - constructor; [reflexivity|apply IH].
  - constructor.
  - apply IH.
Qed.

(** An invocation enters once, then only takes loop steps; it leaves the
    wrapper object, the cache and the machine as they were. *)
Lemma invoke_frame v sp msgs mgl t w :
  let w' := snd (invoke_model_with_messages v sp msgs mgl t w) in
  self w' = self w /\ cache w' = cache w /\ host w' = host w /\
  exists t', trace w' = trace w ++ Invoke sp msgs :: t' /\
             Forall (loop_step (self w) msgs mgl t) t'.
Proof.
  destruct v; cbn [invoke_model_with_messages].
  - rewrite vllm_invoke_run. cbn [snd self cache trace host].
    repeat split. eexists. split; [reflexivity|]. apply vllm_steps_loop_steps.
  - rewrite openrouter_invoke_run. cbn [snd self cache trace host].
    repeat split. eexists. split; [reflexivity|]. apply retry_steps_loop_steps.
Qed.

(** *** The attempts of the OpenRouter loop *)

Lemma network_calls_log_prefix h calls content t :
  network_calls (log_steps h calls content ++ t) = network_calls t.
Proof.
  rewrite network_calls_app.
  now destruct (appends_count _ (log_steps_appends h calls content)) as (-> & _).
Qed.

Lemma sleeps_log_prefix h calls content t :
  sleeps (log_steps h calls content ++ t) = sleeps t.
Proof.
  rewrite sleeps_app.
  now destruct (appends_count _ (log_steps_appends h calls content)) as (_ & -> & _).
Qed.

Lemma failed_call_attempt service h k r :
  succeeds (service k r) = false -> attempt_returns service h k r = false.
Proof. unfold attempt_returns. now destruct (service k r). Qed.

Lemma retry_steps_bound n service h k r :
  (network_calls (retry_steps n service h k r) <= n)%nat.
Proof.
  revert k. induction n as [|n IH]; intros k; cbn [retry_steps network_calls]; [lia|].
  specialize (IH (S k)).
  destruct (service k r) as [text|err|err|]; cbn [network_calls];
    rewrite ?network_calls_log_prefix; try lia.
  destruct (logged h (S k) (Some text)); cbn [network_calls]; lia.
Qed.

Lemma retry_first_success n service h k r j text :
  (j < n)%nat ->
  (forall i, (i < j)%nat -> attempt_returns service h (k + i)%nat r = false) ->
  service (k + j)%nat r = Completion text ->
  logged h (S (k + j)) (Some text) = true ->
  retry_result n service h k r = Return text /\
  network_calls (retry_steps n service h k r) = S j /\
  sleeps (retry_steps n service h k r) = repeat 5 (rate_limited j service k r) /\
  exists t', retry_steps n service h k r = t' ++ log_steps h (S (k + j)) (Some text).
Proof.
  revert n k. induction j as [|j IH]; intros n k Hlt Hfail Hok Hlog.
  - destruct n as [|n]; [lia|]. cbn [retry_result retry_steps network_calls sleeps].
    rewrite Nat.add_0_r in Hok, Hlog |- *. rewrite Hok, Hlog.
    rewrite network_calls_log_prefix, sleeps_log_prefix. repeat split.
    exists [Create r]. rewrite app_nil_r. reflexivity.
  - destruct n as [|n]; [lia|].
    cbn [retry_result retry_steps network_calls sleeps rate_limited].
    pose proof (Hfail O ltac:(lia)) as H0. rewrite Nat.add_0_r in H0.
    unfold attempt_returns in H0.
    destruct (IH n (S k)) as (Hr & Hc & Hs & t' & Ht).
    + lia.
    + intros i Hi. replace (S k + i)%nat with (k + S i)%nat by lia. apply Hfail. lia.
    + replace (S k + j)%nat with (k + S j)%nat by lia. exact Hok.
    + replace (S k + j)%nat with (k + S j)%nat by lia. exact Hlog.
    + replace (S k + j)%nat with (k + S j)%nat in Ht by lia.
      destruct (service k r) as [text0|err|err|]; cbn [network_calls sleeps repeat];
        rewrite ?H0, ?network_calls_log_prefix, ?sleeps_log_prefix, ?Hr, ?Hc, ?Hs, Ht;
        repeat split.
      * exists (Create r :: log_steps h (S k) (Some text0) ++ t').
        cbn [app]. now rewrite <- app_assoc.
      * exists (Create r :: Sleep 5 :: t'). reflexivity.
      * exists (Create r :: t'). reflexivity.
      * exists (Create r :: log_steps h (S k) None ++ t').
        cbn [app]. now rewrite <- app_assoc.
Qed.

Lemma log_steps_logged h calls text :
  logged h calls (Some text) = true ->
  log_steps h calls (Some text) =
    [FileAppend "temp2.txt"
       (strftime_now h calls +:+ OPENROUTERWrapper.nl +:+ OPENROUTERWrapper.nl);
     FileAppend "temp2.txt" text;
     FileAppend "temp2.txt" OPENROUTERWrapper.separator].
Proof.
  unfold logged, log_steps. intros Hall.
  repeat (apply andb_true_iff in Hall; destruct Hall as [Hall ?]).
  repeat match goal with Hop : file_op _ _ _ = true |- _ => rewrite Hop; clear Hop end.
  reflexivity.
Qed.

Lemma retry_all_fail n service h k r :
  (forall i, (i < n)%nat -> attempt_returns service h (k + i)%nat r = false) ->
  retry_result n service h k r = Raise (ValueError "Ratelimit exceeded too many times!") /\
  network_calls (retry_steps n service h k r) = n /\
  sleeps (retry_steps n service h k r) = repeat 5 (rate_limited n service k r).
Proof.
  revert k. induction n as [|n IH]; intros k Hfail;
    cbn [retry_result retry_steps network_calls sleeps rate_limited repeat]; [auto|].
  pose proof (Hfail O ltac:(lia)) as H0. rewrite Nat.add_0_r in H0.
  unfold attempt_returns in H0.
  destruct (IH (S k)) as (Hr & Hc & Hs).
  { intros i Hi. replace (S k + i)%nat with (k + S i)%nat by lia. apply Hfail. lia. }
  destruct (service k r) as [text0|err|err|]; cbn [network_calls sleeps repeat];
    rewrite ?H0, ?network_calls_log_prefix, ?sleeps_log_prefix, ?Hr, ?Hc, ?Hs; auto.
Qed.

(** *** The attempts of the vLLM loop *)

Lemma vllm_steps_bound n service k r :
  (network_calls (vllm_steps n service k r) <= n)%nat.
Proof.
  revert k. induction n as [|n IH]; intros k; simpl; [lia|].
  destruct (service k r); simpl; specialize (IH (S k)); lia.
Qed.

Lemma vllm_result_raises n service k r :
  vllm_result n service k r = Raise (ValueError "Ratelimit exceeded too many times!") \/
  vllm_result n service k r = Raise (NameError "max_attempts").
Proof.
  revert k. induction n as [|n IH]; intros k; simpl; [auto|].
  destruct (service k r); auto.
Qed.

Lemma vllm_all_rate_limited n service k r :
  (forall i, (i < n)%nat -> exists err, service (k + i)%nat r = RateLimitError err) ->
  vllm_result n service k r = Raise (ValueError "Ratelimit exceeded too many times!") /\
  network_calls (vllm_steps n service k r) = n /\
  sleeps (vllm_steps n service k r) = repeat 5 n.
Proof.
  revert k. induction n as [|n IH]; intros k Hrl; simpl; [auto|].
  destruct (Hrl O ltac:(lia)) as [err H0]. rewrite Nat.add_0_r in H0. rewrite H0.
  destruct (IH (S k)) as (Hr & Hc & Hs).
  { intros i Hi. replace (S k + i)%nat with (k + S i)%nat by lia. apply Hrl. lia. }
  simpl. rewrite Hr, Hc, Hs. auto.
Qed.

(** ** The three ways a call can go *)

Lemma vllm_history_messages p h :
  VLLMWrapper.history_messages p h = OPENROUTERWrapper.history_messages p h.
Proof. reflexivity. Qed.

(** A rejected call stops at the assertion. *)
Lemma run_rejected `{HashMessages} v c w :
  accepted c = false ->
  run v c w =
    (Raise AssertionError, World (bumped (self w)) (cache w) (trace w) (host w)).
Proof.
  destruct c as [sp p|sp p h]; simpl; [|discriminate].
  intros Hno. destruct v; simpl;
    unfold VLLMWrapper.query, OPENROUTERWrapper.query;
    cbv beta iota zeta delta [bind incr_count_queries assert];
    rewrite Hno; reflexivity.
Qed.

(** A call that finds its fingerprint returns the stored response after one
    lookup and one read. *)
Lemma run_hit `{HashMessages} v c w payload stored :
  accepted c = true ->
  cache w !! (model (self w), call_fingerprint c) = Some (payload, stored) ->
  run v c w =
    (Return (Reply None stored),
     World (bumped (self w)) (cache w)
       (trace w ++ [HasHash (call_fingerprint c) (model (self w));
                    GetResult (call_fingerprint c) (model (self w))]) (host w)).
Proof.
  intros Hacc Hhit.
  destruct c as [sp p|sp p h]; simpl in *; destruct v; simpl;
    unfold VLLMWrapper.query, OPENROUTERWrapper.query,
      VLLMWrapper.query_history, OPENROUTERWrapper.query_history;
    cbv beta iota zeta delta [bind incr_count_queries assert attr has_hash ret
      get_result];
    rewrite ?Hacc; cbv beta iota zeta delta [ret];
    cbn [self cache trace host bumped model];
    change VLLMWrapper.history_messages with OPENROUTERWrapper.history_messages;
    rewrite Hhit; rewrite bool_decide_eq_true_2 by eauto;
    cbv beta iota zeta delta [negb ret]; cbn [self cache trace host bumped model];
    rewrite Hhit, <- app_assoc; reflexivity.
Qed.

(** A call that misses makes the invocation; a returned text is stored under
    the fingerprint and read back, a raised exception leaves the method. *)
Lemma run_miss `{HashMessages} v c w :
  accepted c = true ->
  cache w !! (model (self w), call_fingerprint c) = None ->
  run v c w =
    match invocation_of v c w with
    | (Return text, w1) =>
        (Return (Reply None text),
         World (bumped (self w))
           (<[(model (self w), call_fingerprint c) := (call_messages c, text)]> (cache w))
           (trace w1 ++
              [AddResult (call_fingerprint c) (call_messages c) text (model (self w));
               GetResult (call_fingerprint c) (model (self w))])
           (host w))
    | (Raise e, w1) => (Raise e, w1)
    end.
Proof.
  intros Hacc Hmiss. unfold invocation_of.
  pose proof (invoke_frame v (Some (or_empty (call_system_prompt c))) (call_messages c)
                (max_tokens (self w)) (temperature (self w))
                (entering w (call_fingerprint c))) as Hframe.
  cbv zeta in Hframe.
  destruct (invoke_model_with_messages v _ _ _ _ _) as [r w1] eqn:Hinv.
  destruct Hframe as (Hs & Hc & Hh & _). cbn [snd entering self cache host] in Hs, Hc, Hh.
  revert Hinv.
  destruct c as [sp p|sp p h]; simpl in *; destruct v; simpl;
    unfold VLLMWrapper.query, OPENROUTERWrapper.query,
      VLLMWrapper.query_history, OPENROUTERWrapper.query_history, entering;
    cbv beta iota zeta delta [bind incr_count_queries assert attr has_hash ret
      get_result add_result];
    rewrite ?Hacc; cbv beta iota zeta delta [ret];
    cbn [self cache trace host bumped model max_tokens temperature];
    change VLLMWrapper.history_messages with OPENROUTERWrapper.history_messages;
    rewrite Hmiss; rewrite bool_decide_eq_false_2 by (intros [? ?]; discriminate);
    cbv beta iota zeta delta [negb ret];
    cbn [self cache trace host bumped model max_tokens temperature];
    intros ->; (destruct r as [text|e]; [|reflexivity]);
    cbn [self cache trace host]; rewrite Hs, Hc, Hh; cbn [model bumped];
    rewrite lookup_insert_eq, <- app_assoc; reflexivity.
Qed.

(** The three ways a call can go, with the world it leaves behind. *)
Lemma run_cases `{HashMessages} v c w :
  let fp := call_fingerprint c in
  let m := model (self w) in
  (accepted c = false /\
   run v c w =
     (Raise AssertionError, World (bumped (self w)) (cache w) (trace w) (host w)))
  \/
  (accepted c = true /\ exists payload stored,
   cache w !! (m, fp) = Some (payload, stored) /\
   run v c w =
     (Return (Reply None stored),
      World (bumped (self w)) (cache w) (trace w ++ [HasHash fp m; GetResult fp m])
        (host w)))
  \/
  (accepted c = true /\ cache w !! (m, fp) = None /\ exists t',
   Forall (loop_step (self w) (call_messages c) (max_tokens (self w))
             (temperature (self w))) t' /\
   let entered :=
     trace w ++ HasHash fp m :: Invoke (Some (or_empty (call_system_prompt c)))
                                  (call_messages c) :: t' in
   ((exists text,
       invocation_of v c w =
         (Return text, World (bumped (self w)) (cache w) entered (host w)) /\
       run v c w =
         (Return (Reply None text),
          World (bumped (self w)) (<[(m, fp) := (call_messages c, text)]> (cache w))
            (entered ++ [AddResult fp (call_messages c) text m; GetResult fp m])
            (host w)))
    \/
    (exists e,
       invocation_of v c w = (Raise e, World (bumped (self w)) (cache w) entered (host w)) /\
       run v c w = (Raise e, World (bumped (self w)) (cache w) entered (host w))))).
Proof.
  intros fp m. destruct (accepted c) eqn:Hacc.
  2:{ left. split; [reflexivity|]. now apply run_rejected. }
  right. destruct (cache w !! (m, fp)) as [[payload stored]|] eqn:Hlook.
  { left. split; [reflexivity|]. exists payload, stored. split; [reflexivity|].
    now apply run_hit with (payload := payload). }
  right. split; [reflexivity|]. split; [reflexivity|].
  rewrite (run_miss v c w Hacc Hlook).
  pose proof (invoke_frame v (Some (or_empty (call_system_prompt c))) (call_messages c)
                (max_tokens (self w)) (temperature (self w)) (entering w fp)) as Hframe.
  cbv zeta in Hframe. unfold invocation_of. fold fp.
  destruct (invoke_model_with_messages v _ _ _ _ _) as [r w1].
  destruct Hframe as (Hs & Hc & Hh & t' & Ht & Hall).
  cbn [snd entering self cache trace host] in Hs, Hc, Hh, Ht, Hall.
  rewrite <- app_assoc in Ht. cbn [app] in Ht.
  exists t'. split; [exact Hall|].
  assert (w1 = World (bumped (self w)) (cache w)
                 (trace w ++ HasHash fp m :: Invoke (Some (or_empty (call_system_prompt c)))
                                              (call_messages c) :: t')
                 (host w)) as ->.
  { destruct w1 as [s1 c1 t1 h1]; cbn [self cache trace host] in *. subst. reflexivity. }
  destruct r as [text|e]; [left; exists text|right; exists e]; split; reflexivity.
Qed.

(** ** What every call does *)

Lemma run_self `{HashMessages} v c w : self (snd (run v c w)) = bumped (self w).
Proof.
  destruct (run_cases v c w) as
    [[_ ->]|[(_ & ? & ? & _ & ->)|(_ & _ & t' & _ & [(? & _ & ->)|(? & _ & ->)])]];
    reflexivity.
Qed.


(** C10: a call to [query] whose system prompt is neither [None] nor the
    empty string raises AssertionError, for the vLLM and the OpenRouter
    wrapper alike.  The counter has been incremented; the cache and the
    trace are as before, so no cache operation, invocation or network call
    has taken place. *)
Theorem query_asserts_empty_system_prompt `{HashMessages} (v : variant)
    (system_prompt : option string) (user_prompt : string) (w : world) :
  system_prompt <> None -> system_prompt <> Some "" ->
  query v system_prompt user_prompt w =
    (Raise AssertionError, World (bumped (self w)) (cache w) (trace w) (host w)).
Proof.
  intros Hnone Hempty.
  apply (run_rejected v (Query system_prompt user_prompt) w).
  destruct system_prompt as [s|]; [|congruence]. simpl.
  apply bool_decide_eq_false_2. congruence.
Qed.

Lemma run_all_self `{HashMessages} v cs w :
  count_queries (self (run_all v cs w)) = count_queries (self w) + Z.of_nat (length cs) /\
  model (self (run_all v cs w)) = model (self w) /\
  temperature (self (run_all v cs w)) = temperature (self w) /\
  max_tokens (self (run_all v cs w)) = max_tokens (self w).
Proof.
  revert w. induction cs as [|c cs IH]; intros w; cbn [run_all length].
  - repeat split. lia.
  - destruct (IH (snd (run v c w))) as (Hn & Hm & Ht & Hx).
    rewrite run_self in Hn, Hm, Ht, Hx. cbn [bumped count_queries model temperature
      max_tokens] in Hn, Hm, Ht, Hx.
    repeat split; try assumption. lia.
Qed.

(** C9: every call to [query] or [query_history], whatever its outcome (a
    reply from the cache, a reply from the service, or an exception),
    leaves [count_queries] one higher and [model], [temperature] and
    [max_tokens] as they were; after any series of calls the counter has
    grown by their number and the three fields still hold their first
    values. *)
Theorem every_call_counts_once `{HashMessages} (v : variant)
    (system_prompt : option string) (prompt : string)
    (history : list (string * string)) (cs : list call) (w : world) :
  counted_once (self w) (self (snd (query v system_prompt prompt w))) /\
  counted_once (self w) (self (snd (query_history v system_prompt prompt history w))) /\
  count_queries (self (run_all v cs w)) = count_queries (self w) + Z.of_nat (length cs) /\
  model (self (run_all v cs w)) = model (self w) /\
  temperature (self (run_all v cs w)) = temperature (self w) /\
  max_tokens (self (run_all v cs w)) = max_tokens (self w).
Proof.
  pose proof (run_self v (Query system_prompt prompt) w) as Hq.
  pose proof (run_self v (QueryHistory system_prompt prompt history) w) as Hh.
  cbn [run] in Hq, Hh. rewrite Hq, Hh.
  split; [repeat split|]. split; [repeat split|]. apply run_all_self.
Qed.

(** C5: when the invocation made by [query] or [query_history] on a cache
    miss raises an exception (the one of exhausted retries among them), the
    method raises that same exception and the cache is exactly as before
    the call: nothing is stored under the fingerprint. *)
Theorem failed_invocation_leaves_cache `{HashMessages} (v : variant) (c : call)
    (w : world) (e : exn) :
  accepted c = true ->
  cache w !! (model (self w), call_fingerprint c) = None ->
  fst (invocation_of v c w) = Raise e ->
  fst (run v c w) = Raise e /\
  cache (snd (run v c w)) = cache w /\
  cache (snd (run v c w)) !! (model (self w), call_fingerprint c) = None.
Proof.
  intros Hacc Hmiss Hraise.
  rewrite (run_miss v c w Hacc Hmiss).
  destruct (invocation_of v c w) as [r w1] eqn:Hinv. simpl in Hraise. subst r.
  pose proof (invoke_frame v (Some (or_empty (call_system_prompt c))) (call_messages c)
                (max_tokens (self w)) (temperature (self w))
                (entering w (call_fingerprint c))) as (_ & Hc & _).
  fold (invocation_of v c w) in Hc. rewrite Hinv in Hc. simpl in Hc |- *.
  rewrite Hc. auto.
Qed.

(** C1 (amended): for a call the assertion lets through.  On a hit the
    stored response is returned with no invocation and no network call, and
    the cache is unchanged.  On a miss exactly one invocation of
    [invoke_model_with_messages] is made, and when it returns a text, that
    text is stored under (model, fingerprint) and returned. *)
Theorem accepted_call_hits_or_invokes_once `{HashMessages} (v : variant) (c : call)
    (w : world) :
  accepted c = true ->
  (forall payload stored,
     cache w !! (model (self w), call_fingerprint c) = Some (payload, stored) ->
     fst (run v c w) = Return (Reply None stored) /\
     invocations (trace (snd (run v c w))) = invocations (trace w) /\
     network_calls (trace (snd (run v c w))) = network_calls (trace w) /\
     cache (snd (run v c w)) = cache w)
  /\
  (cache w !! (model (self w), call_fingerprint c) = None ->
     invocations (trace (snd (run v c w))) = S (invocations (trace w)) /\
     forall text, fst (invocation_of v c w) = Return text ->
       fst (run v c w) = Return (Reply None text) /\
       cache (snd (run v c w)) =
         <[(model (self w), call_fingerprint c) := (call_messages c, text)]> (cache w)).
Proof.
  intros Hacc. split.
  - intros payload stored Hhit.
    rewrite (run_hit v c w payload stored Hacc Hhit). cbn [fst snd trace cache].
    rewrite invocations_app, network_calls_app. simpl. repeat split; lia.
  - intros Hmiss.
    destruct (run_cases v c w) as
      [[Hno _]|[(_ & ? & ? & Hhit & _)|(_ & _ & t' & Hall & Hrun)]];
      [congruence|congruence|].
    cbv zeta in Hrun.
    destruct Hrun as [(text & Hinv & ->)|(e & Hinv & ->)]; cbn [fst snd trace cache].
    + split.
      * rewrite !invocations_app. cbn [invocations].
        rewrite (loop_steps_invocations _ _ _ _ _ Hall). lia.
      * intros text' Htext. rewrite Hinv in Htext. simpl in Htext.
        injection Htext as ->. auto.
    + split.
      * rewrite !invocations_app. cbn [invocations].
        rewrite (loop_steps_invocations _ _ _ _ _ Hall). lia.
      * intros text' Htext. rewrite Hinv in Htext. discriminate.
Qed.


(** ** Characters *)

Lemma str_join_cons ch chs : str_join (ch :: chs) = ch +:+ str_join chs.
Proof. reflexivity. Qed.

Lemma str_join_characters pending s : str_join (characters pending s) = s.
Proof.
  revert pending. induction s as [|c s IH]; intros pending; [reflexivity|].
  cbn [characters].
  set (left := match pending with O => (width c - 1)%nat | S p => p end).
  specialize (IH left).
  destruct left as [|left'].
  - rewrite str_join_cons, IH. reflexivity.
  - destruct (characters (S left') s) as [|ch chs].
    + rewrite str_join_cons, IH. reflexivity.
    + rewrite str_join_cons in *. rewrite <- IH. reflexivity.
Qed.

Lemma characters_ascii c s :
  (N_of_ascii c <? 192)%N = true ->
  characters 0 (String c s) = String c "" :: characters 0 s.
Proof. intros Hc. cbn [characters]. unfold width. rewrite Hc. reflexivity. Qed.

Lemma drop_prefix_vllm m : drop_prefix 5 ("vllm/" +:+ m) = m.
Proof.
  unfold drop_prefix, chars.
  change ("vllm/" +:+ m) with (String "v" (String "l" (String "l" (String "m" (String "/" (m)))))).
  rewrite !characters_ascii by reflexivity. cbn [skipn].
  apply str_join_characters.
Qed.

Lemma drop_prefix_openrouter m : drop_prefix 11 ("openrouter/" +:+ m) = m.
Proof.
  unfold drop_prefix, chars.
  change ("openrouter/" +:+ m) with (String "o" (String "p" (String "e" (String "n" (String "r" (String "o" (String "u" (String "t" (String "e" (String "r" (String "/" (m)))))))))))).
  rewrite !characters_ascii by reflexivity. cbn [skipn].
  apply str_join_characters.
Qed.

Lemma drop_prefix_outer m : drop_prefix 5 ("openrouter/" +:+ m) = "outer/" +:+ m.
Proof.
  unfold drop_prefix, chars.
  change ("openrouter/" +:+ m) with (String "o" (String "p" (String "e" (String "n" (String "r" (String "o" (String "u" (String "t" (String "e" (String "r" (String "/" (m)))))))))))).
  rewrite !characters_ascii by reflexivity. cbn [skipn].
  rewrite !str_join_cons, str_join_characters. reflexivity.
Qed.

(** Characters outside ASCII count as one each, and the whitespace among
    them is whitespace for [strip]. *)
Example characters_outside_ascii :
  chars (e_acute +:+ "/vllm/x") = [e_acute; "/"; "v"; "l"; "l"; "m"; "/"; "x"] /\
  len (e_acute +:+ "/vllm/x") = 8%nat /\
  drop_prefix 5 (e_acute +:+ "/vllm/x") = "m/x" /\
  ord e_acute = 233%N /\ ord no_break_space = 160%N /\ ord em_space = 8195%N /\
  strip_nonempty no_break_space = false /\
  strip_nonempty (" " +:+ em_space +:+ no_break_space) = false /\
  strip_nonempty (no_break_space +:+ e_acute) = true /\
  strip_nonempty "" = false.
Proof. vm_compute. repeat split. Qed.

(** ** get_llm *)

Lemma contains_append sub p s :
  contains sub s = true -> contains sub (p +:+ s) = true.
Proof.
  intros Hs. induction p as [|ch p IH]; [exact Hs|].
  change (contains sub (String ch p +:+ s))
    with (String.prefix sub (String ch (p +:+ s)) || contains sub (p +:+ s)).
  rewrite IH. apply orb_true_r.
Qed.

(** The vLLM constructor always finds a key; the OpenRouter constructor
    needs one in the environment. *)
Lemma vllm_init p model_version temp mt :
  VLLMWrapper.__init__ p model_version temp mt None None =
    Return (Wrapper model_version temp mt (base_count_queries p) (service p)).
Proof.
  unfold VLLMWrapper.__init__, OpenAI, py_or. cbn [opt_truthy].
  destruct (getenv p "OPENAI_API_KEY") as [key|]; cbn [opt_truthy]; [|reflexivity].
  destruct (truthy key); reflexivity.
Qed.

Lemma openrouter_init p model_version temp mt :
  OPENROUTERWrapper.__init__ p model_version temp mt =
    if keyed p then
      Return (Wrapper model_version temp mt (base_count_queries p) (service p))
    else Raise OpenAIError.
Proof.
  unfold OPENROUTERWrapper.__init__, OpenAI, keyed.
  destruct (getenv p "OPENROUTER_API_KEY") as [key|].
  - rewrite bool_decide_eq_true_2 by eauto. reflexivity.
  - rewrite (bool_decide_eq_false_2 (is_Some None)) by (intros [? ?]; discriminate).
    destruct (getenv p "OPENAI_API_KEY") as [key|].
    + rewrite bool_decide_eq_true_2 by eauto. reflexivity.
    + rewrite bool_decide_eq_false_2 by (intros [? ?]; discriminate). reflexivity.
Qed.

Lemma get_llm_selected p model_name temp requested :
  contains "vllm/" model_name = true \/ contains "openrouter/" model_name = true ->
  get_llm p model_name temp requested =
    if contains "vllm/" model_name then
      Return (Adapter vllm (Wrapper (drop_prefix 5 model_name) temp
                              (Z.min requested 40960) (base_count_queries p) (service p)))
    else if keyed p then
      Return (Adapter openrouter (Wrapper (drop_prefix 11 model_name) temp
                                    (Z.min requested 40960) (base_count_queries p)
                                    (service p)))
    else Raise OpenAIError.
Proof.
  intros Hname.
  assert (model_name <> "claude-35" /\ model_name <> "gpt4-turbo" /\ model_name <> "gpt4-o")
    as (H1 & H2 & H3).
  { repeat split; intros ->; destruct Hname as [Hc|Hc]; vm_compute in Hc; discriminate. }
  unfold get_llm. rewrite !bool_decide_eq_false_2 by assumption.
  destruct (contains "vllm/" model_name).
  - rewrite vllm_init. reflexivity.
  - destruct Hname as [Hc|Hc]; [discriminate|]. rewrite Hc, openrouter_init.
    destruct (keyed p); reflexivity.
Qed.

Lemma retry_steps_head n service h k r :
  exists t', retry_steps (S n) service h k r = Create r :: t'.
Proof. eexists. reflexivity. Qed.

Lemma vllm_steps_head n service k r :
  exists t', vllm_steps (S n) service k r = Create r :: t'.
Proof. eexists. reflexivity. Qed.

(** A call that misses the cache sends a request at once. *)
Lemma invocation_first_request `{HashMessages} v c w :
  exists t',
    trace (snd (invocation_of v c w)) =
      trace (entering w (call_fingerprint c)) ++
      Invoke (Some (or_empty (call_system_prompt c))) (call_messages c) ::
      Create (Request (model (self w)) (call_messages c) (temperature (self w))
                (max_tokens (self w))) :: t'.
Proof.
  unfold invocation_of. destruct v; cbn [invoke_model_with_messages].
  - rewrite vllm_invoke_run. cbn [snd trace].
    match goal with
    | |- context [vllm_steps 10 ?service ?k ?r] =>
        destruct (vllm_steps_head 9 service k r) as [t' ->]
    end.
    exists t'. reflexivity.
  - rewrite openrouter_invoke_run.
    change (Z.to_nat OPENROUTERWrapper.default_max_attempts) with 10%nat.
    cbn [snd trace].
    match goal with
    | |- context [retry_steps 10 ?service ?h ?k ?r] =>
        destruct (retry_steps_head 9 service h k r) as [t' ->]
    end.
    exists t'. reflexivity.
Qed.

(** Every request a call sends carries the configuration of the wrapper,
    and a call that misses the cache sends at least one. *)
Lemma run_requests `{HashMessages} v c w :
  exists rs,
    requests (trace (snd (run v c w))) = requests (trace w) ++ rs /\
    Forall (fun r => r = Request (model (self w)) (call_messages c)
                           (temperature (self w)) (max_tokens (self w))) rs /\
    (accepted c = true -> cache w !! (model (self w), call_fingerprint c) = None ->
     exists r rs', rs = r :: rs').
Proof.
  destruct (run_cases v c w) as
    [[Hno ->]|[(_ & ? & ? & Hhit & ->)|
               (_ & Hmiss & t' & Hall & [(? & Hinv & ->)|(? & Hinv & ->)])]];
    cbn [snd trace].
  - exists []. rewrite app_nil_r. repeat split; [constructor|congruence].
  - exists []. rewrite requests_app. simpl. repeat split; [constructor|congruence].
  - destruct (invocation_first_request v c w) as (t'' & Hfirst).
    rewrite Hinv in Hfirst. cbn [snd trace entering] in Hfirst.
    rewrite <- app_assoc in Hfirst. cbn [app] in Hfirst.
    apply app_inv_head in Hfirst. injection Hfirst as ->.
    exists (requests (Create (Request (model (self w)) (call_messages c)
                                (temperature (self w)) (max_tokens (self w))) :: t'')).
    rewrite !requests_app. cbn [requests].
    rewrite <- ?app_assoc, ?app_nil_r. split; [reflexivity|].
    split; [now apply loop_steps_requests in Hall|]. eauto.
  - destruct (invocation_first_request v c w) as (t'' & Hfirst).
    rewrite Hinv in Hfirst. cbn [snd trace entering] in Hfirst.
    rewrite <- app_assoc in Hfirst. cbn [app] in Hfirst.
    apply app_inv_head in Hfirst. injection Hfirst as ->.
    exists (requests (Create (Request (model (self w)) (call_messages c)
                                (temperature (self w)) (max_tokens (self w))) :: t'')).
    rewrite !requests_app. cbn [requests].
    split; [reflexivity|].
    split; [now apply loop_steps_requests in Hall|]. eauto.
Qed.

(** C7: for a model name that selects the vLLM wrapper, or the OpenRouter
    wrapper when the environment holds a key for it, [get_llm] builds a
    wrapper whose [max_tokens] is the minimum of the requested value and
    40960.  Every request a call on that wrapper sends carries that value,
    and a call that misses the cache sends at least one such request. *)
Theorem get_llm_clamps_max_tokens (p : platform) (model_name : string) (temp : float)
    (requested : Z) :
  contains "vllm/" model_name = true \/
  (contains "openrouter/" model_name = true /\ keyed p = true) ->
  exists v s,
    get_llm p model_name temp requested = Return (Adapter v s) /\
    max_tokens s = Z.min requested 40960 /\
    forall (H : HashMessages) (c : call) (stored : LLMHashCache) (past : list event)
           (h : machine),
    exists rs,
      requests (trace (snd (run v c (World s stored past h)))) = requests past ++ rs /\
      Forall (fun r => req_max_tokens r = Z.min requested 40960) rs /\
      (accepted c = true -> stored !! (model s, call_fingerprint c) = None ->
       exists r rs', rs = r :: rs').
Proof.
  intros Hname.
  assert (forall v s, max_tokens s = Z.min requested 40960 ->
            forall (H : HashMessages) (c : call) (stored : LLMHashCache) (past : list event)
                   (h : machine),
            exists rs,
              requests (trace (snd (run v c (World s stored past h)))) = requests past ++ rs /\
              Forall (fun r => req_max_tokens r = Z.min requested 40960) rs /\
              (accepted c = true -> stored !! (model s, call_fingerprint c) = None ->
               exists r rs', rs = r :: rs')) as Hdown.
  { intros v s Hs H c stored past h.
    destruct (run_requests v c (World s stored past h)) as (rs & Hrs & Hall & Hfirst).
    exists rs. split; [exact Hrs|]. split; [|exact Hfirst].
    eapply Forall_impl; [exact Hall|]. cbn. intros r ->. cbn. exact Hs. }
  rewrite get_llm_selected by tauto.
  destruct (contains "vllm/" model_name).
  - eexists _, _. split; [reflexivity|]. split; [reflexivity|].
    apply Hdown. reflexivity.
  - destruct Hname as [Hc|[_ Hkey]]; [discriminate|]. rewrite Hkey.
    eexists _, _. split; [reflexivity|]. split; [reflexivity|].
    apply Hdown. reflexivity.
Qed.

(** ** The retry policy *)

(** The fuel given to the loops is enough: no invocation and no call ends
    on the marker of exhausted fuel. *)
Lemma retry_result_not_fuel n service h k r :
  retry_result n service h k r <> Raise FuelExhausted.
Proof.
  revert k. induction n as [|n IH]; intros k; cbn [retry_result]; [discriminate|].
  destruct (service k r) as [text|err|err|]; try apply IH.
  destruct (logged h (S k) (Some text)); [discriminate|apply IH].
Qed.

Lemma invoke_fuel_suffices v sp msgs mgl t w :
  fst (invoke_model_with_messages v sp msgs mgl t w) <> Raise FuelExhausted.
Proof.
  destruct v; cbn [invoke_model_with_messages].
  - rewrite vllm_invoke_run. cbn [fst].
    destruct (vllm_result_raises 10 (client (self w)) (network_calls (trace w))
                (Request (model (self w)) msgs t mgl)) as [-> | ->]; discriminate.
  - rewrite openrouter_invoke_run. cbn [fst]. apply retry_result_not_fuel.
Qed.

Lemma run_fuel_suffices `{HashMessages} v c w : fst (run v c w) <> Raise FuelExhausted.
Proof.
  destruct (run_cases v c w) as
    [[_ ->]|[(_ & ? & ? & _ & ->)|(_ & _ & t' & _ & [(? & _ & ->)|(e & Hinv & ->)])]];
    cbn [fst]; try discriminate.
  intros [= ->].
  apply (invoke_fuel_suffices v (Some (or_empty (call_system_prompt c))) (call_messages c)
           (max_tokens (self w)) (temperature (self w)) (entering w (call_fingerprint c))).
  fold (invocation_of v c w). rewrite Hinv. reflexivity.
Qed.

(** On the OpenRouter wrapper the invocation returns the text of the first
    attempt that gets through.  An attempt gets through when its call gives
    a text and the block that logs it runs to its end; a call that fails,
    a completion without a text and an error of the log file all lead to
    the next attempt.  When the next [j] attempts do not get through and the
    one after them does, with the text [text] and within the bound
    [max_attempts], the result is [text] after [j + 1] network calls, with
    one sleep of 5 for each rate-limited call among the [j]; the last
    three steps are the appends of the time stamp, the text and the
    separator to temp2.txt. *)
Theorem openrouter_returns_first_success (system_prompt : option string)
    (messages : list message) (max_gen_len : Z) (temp : float) (max_attempts : Z)
    (w : world) (j : nat) (text : string) :
  Z.of_nat j < max_attempts ->
  (forall i, (i < j)%nat ->
     attempt_returns (client (self w)) (host w) (network_calls (trace w) + i)%nat
       (Request (model (self w)) messages temp max_gen_len) = false) ->
  client (self w) (network_calls (trace w) + j)%nat
    (Request (model (self w)) messages temp max_gen_len) = Completion text ->
  logged (host w) (S (network_calls (trace w) + j)) (Some text) = true ->
  fst (OPENROUTERWrapper.invoke_model_with_messages system_prompt messages max_gen_len
         temp max_attempts w) = Return text /\
  network_calls
    (trace (snd (OPENROUTERWrapper.invoke_model_with_messages system_prompt messages
                   max_gen_len temp max_attempts w))) =
    (network_calls (trace w) + S j)%nat /\
  sleeps
    (trace (snd (OPENROUTERWrapper.invoke_model_with_messages system_prompt messages
                   max_gen_len temp max_attempts w))) =
    sleeps (trace w) ++
    repeat 5 (rate_limited j (client (self w)) (network_calls (trace w))
                (Request (model (self w)) messages temp max_gen_len)) /\
  exists before,
    trace (snd (OPENROUTERWrapper.invoke_model_with_messages system_prompt messages
                  max_gen_len temp max_attempts w)) =
      before ++
      [FileAppend "temp2.txt"
         (strftime_now (host w) (S (network_calls (trace w) + j)) +:+
          OPENROUTERWrapper.nl +:+ OPENROUTERWrapper.nl);
       FileAppend "temp2.txt" text;
       FileAppend "temp2.txt" OPENROUTERWrapper.separator].
Proof.
  intros Hj Hfail Hok Hlog. rewrite openrouter_invoke_run. cbn [fst snd trace].
  destruct (retry_first_success (Z.to_nat max_attempts) (client (self w)) (host w)
              (network_calls (trace w))
              (Request (model (self w)) messages temp max_gen_len) j text)
    as (Hr & Hc & Hs & t' & Ht); [lia|assumption|assumption|assumption|].
  rewrite network_calls_app, sleeps_app. cbn [network_calls sleeps].
  rewrite Hr, Hc, Hs. repeat split.
  exists (trace w ++ Invoke system_prompt messages :: t').
  rewrite Ht, (log_steps_logged _ _ _ Hlog), <- app_assoc. reflexivity.
Qed.

(** On the OpenRouter wrapper, when none of the next [max_attempts] calls
    succeeds, the invocation raises the error of exhausted retries after
    exactly [max_attempts] network calls, with one sleep of 5 for each
    rate-limited call and none for the others; the cache is untouched. *)
Theorem openrouter_exhausts_after_max_attempts (system_prompt : option string)
    (messages : list message) (max_gen_len : Z) (temp : float) (max_attempts : Z)
    (w : world) :
  (forall i, (i < Z.to_nat max_attempts)%nat ->
     succeeds (client (self w) (network_calls (trace w) + i)%nat
                 (Request (model (self w)) messages temp max_gen_len)) = false) ->
  fst (OPENROUTERWrapper.invoke_model_with_messages system_prompt messages max_gen_len
         temp max_attempts w) = Raise (ValueError "Ratelimit exceeded too many times!") /\
  network_calls
    (trace (snd (OPENROUTERWrapper.invoke_model_with_messages system_prompt messages
                   max_gen_len temp max_attempts w))) =
    (network_calls (trace w) + Z.to_nat max_attempts)%nat /\
  sleeps
    (trace (snd (OPENROUTERWrapper.invoke_model_with_messages system_prompt messages
                   max_gen_len temp max_attempts w))) =
    sleeps (trace w) ++
    repeat 5 (rate_limited (Z.to_nat max_attempts) (client (self w))
                (network_calls (trace w))
                (Request (model (self w)) messages temp max_gen_len)) /\
  cache (snd (OPENROUTERWrapper.invoke_model_with_messages system_prompt messages
                max_gen_len temp max_attempts w)) = cache w.
Proof.
  intros Hfail. rewrite openrouter_invoke_run. cbn [fst snd trace cache].
  destruct (retry_all_fail (Z.to_nat max_attempts) (client (self w)) (host w)
              (network_calls (trace w))
              (Request (model (self w)) messages temp max_gen_len))
    as (Hr & Hc & Hs).
  { intros i Hi. apply failed_call_attempt, Hfail, Hi. }
  rewrite network_calls_app, sleeps_app. cbn [network_calls sleeps].
  rewrite Hr, Hc, Hs. auto.
Qed.

(** Neither wrapper ever makes more network calls in one invocation than
    its bound: [max_attempts] for OpenRouter, 10 for vLLM. *)
Theorem invocation_attempts_bounded (system_prompt : option string)
    (messages : list message) (max_gen_len : Z) (temp : float) (max_attempts : Z)
    (w : world) :
  (network_calls
     (trace (snd (OPENROUTERWrapper.invoke_model_with_messages system_prompt messages
                    max_gen_len temp max_attempts w)))
   <= network_calls (trace w) + Z.to_nat max_attempts)%nat /\
  (network_calls
     (trace (snd (VLLMWrapper.invoke_model_with_messages system_prompt messages
                    max_gen_len temp w)))
   <= network_calls (trace w) + 10)%nat.
Proof.
  rewrite openrouter_invoke_run, vllm_invoke_run. cbn [snd trace].
  rewrite !network_calls_app. cbn [network_calls].
  pose proof (retry_steps_bound (Z.to_nat max_attempts) (client (self w)) (host w)
                (network_calls (trace w))
                (Request (model (self w)) messages temp max_gen_len)).
  pose proof (vllm_steps_bound 10 (client (self w)) (network_calls (trace w))
                (Request (model (self w)) messages temp max_gen_len)).
  lia.
Qed.

(** The vLLM invocation never returns a text: whatever the service
    answers, it ends on the error of exhausted retries or on NameError.  A
    reply from a call on the vLLM wrapper therefore comes from the cache. *)
Theorem vllm_invocation_never_returns `{HashMessages} (system_prompt : option string)
    (messages : list message) (max_gen_len : Z) (temp : float) (w : world)
    (c : call) (answer : reply) :
  (fst (VLLMWrapper.invoke_model_with_messages system_prompt messages max_gen_len temp w)
     = Raise (ValueError "Ratelimit exceeded too many times!") \/
   fst (VLLMWrapper.invoke_model_with_messages system_prompt messages max_gen_len temp w)
     = Raise (NameError "max_attempts")) /\
  (fst (run vllm c w) = Return answer ->
   exists payload,
     cache w !! (model (self w), call_fingerprint c) = Some (payload, response answer)).
Proof.
  split.
  - rewrite vllm_invoke_run. cbn [fst]. apply vllm_result_raises.
  - destruct (run_cases vllm c w) as
      [[_ ->]|[(_ & payload & stored & Hhit & ->)|
               (_ & _ & t' & _ & [(text & Hinv & _)|(e & _ & ->)])]];
      cbn [fst]; try discriminate.
    + intros [= <-]. exists payload. exact Hhit.
    + unfold invocation_of in Hinv. cbn [invoke_model_with_messages] in Hinv.
      rewrite vllm_invoke_run in Hinv.
      apply (f_equal fst) in Hinv. cbn [fst] in Hinv. rename Hinv into Hres.
      match type of Hres with
      | vllm_result ?n ?service ?k ?r = _ =>
          destruct (vllm_result_raises n service k r) as [Hv|Hv];
          rewrite Hv in Hres; discriminate
      end.
Qed.

(** On the vLLM wrapper, when each of the next ten calls is rate-limited,
    the invocation raises the error of exhausted retries after exactly ten
    network calls and ten sleeps of 5. *)
Theorem vllm_exhausts_when_rate_limited (system_prompt : option string)
    (messages : list message) (max_gen_len : Z) (temp : float) (w : world) :
  (forall i, (i < 10)%nat ->
     exists err,
       client (self w) (network_calls (trace w) + i)%nat
         (Request (model (self w)) messages temp max_gen_len) = RateLimitError err) ->
  fst (VLLMWrapper.invoke_model_with_messages system_prompt messages max_gen_len temp w)
    = Raise (ValueError "Ratelimit exceeded too many times!") /\
  network_calls
    (trace (snd (VLLMWrapper.invoke_model_with_messages system_prompt messages
                   max_gen_len temp w))) = (network_calls (trace w) + 10)%nat /\
  sleeps
    (trace (snd (VLLMWrapper.invoke_model_with_messages system_prompt messages
                   max_gen_len temp w))) = sleeps (trace w) ++ repeat 5 10.
Proof.
  intros Hrl. rewrite vllm_invoke_run. cbn [fst snd trace].
  destruct (vllm_all_rate_limited 10 (client (self w)) (network_calls (trace w))
              (Request (model (self w)) messages temp max_gen_len) Hrl)
    as (Hr & Hc & Hs).
  rewrite network_calls_app, sleeps_app. cbn [network_calls sleeps].
  rewrite Hr, Hc, Hs. auto.
Qed.


Lemma rate_limited_all n service k r :
  (forall i, (i < n)%nat -> exists err, service (k + i)%nat r = RateLimitError err) ->
  rate_limited n service k r = n.
Proof.
  revert k. induction n as [|n IH]; intros k Hrl; simpl; [reflexivity|].
  destruct (Hrl O ltac:(lia)) as [err H0]. rewrite Nat.add_0_r in H0. rewrite H0.
  f_equal. apply IH. intros i Hi.
  replace (S k + i)%nat with (k + S i)%nat by lia. apply Hrl. lia.
Qed.

(** In front of a service that only ever answers with the rate-limit
    error, a call that misses the cache ends, on either wrapper, on the
    error of exhausted retries after exactly ten network calls and ten
    sleeps of 5, and the cache is left as it was. *)
Theorem rate_limited_service_exhausts_uncached `{HashMessages} (v : variant) (c : call)
    (w : world) :
  accepted c = true ->
  cache w !! (model (self w), call_fingerprint c) = None ->
  (forall calls r, exists err, client (self w) calls r = RateLimitError err) ->
  fst (run v c w) = Raise (ValueError "Ratelimit exceeded too many times!") /\
  cache (snd (run v c w)) = cache w /\
  network_calls (trace (snd (run v c w))) = (network_calls (trace w) + 10)%nat /\
  sleeps (trace (snd (run v c w))) = sleeps (trace w) ++ repeat 5 10.
Proof.
  intros Hacc Hmiss Hrl. rewrite (run_miss v c w Hacc Hmiss). unfold invocation_of.
  destruct v; cbn [invoke_model_with_messages].
  - rewrite vllm_invoke_run. cbn [entering self cache trace bumped client model].
    match goal with
    | |- context [vllm_result ?n ?service ?k ?r] =>
        destruct (vllm_all_rate_limited n service k r) as (Hr & Hc & Hs);
        [intros; apply Hrl|rewrite Hr]
    end.
    cbn [fst snd cache trace].
    rewrite (network_calls_app (trace w ++ _)), (sleeps_app (trace w ++ _)).
    cbn [network_calls sleeps]. rewrite Hc, Hs.
    rewrite network_calls_app, sleeps_app. cbn [network_calls sleeps].
    rewrite Nat.add_0_r, app_nil_r. auto.
  - rewrite openrouter_invoke_run. cbn [entering self cache trace bumped client model].
    match goal with
    | |- context [retry_result ?n ?service ?h ?k ?r] =>
        destruct (retry_all_fail n service h k r) as (Hr & Hc & Hs);
        [intros i _; unfold attempt_returns;
         destruct (Hrl (k + i)%nat r) as [err ->]; reflexivity
        |rewrite Hr;
         rewrite (rate_limited_all n service k r) in Hs by (intros; apply Hrl)]
    end.
    cbn [fst snd cache trace].
    rewrite (network_calls_app (trace w ++ _)), (sleeps_app (trace w ++ _)).
    cbn [network_calls sleeps]. rewrite Hc, Hs.
    rewrite network_calls_app, sleeps_app. cbn [network_calls sleeps].
    rewrite Nat.add_0_r, app_nil_r. auto.
Qed.

(** ** The claims on concrete runs *)

Lemma query_asserts_empty_system_prompt_witness :
  (Some "be brief" <> None /\ Some "be brief" <> Some "") /\
  query (H := canonical_fingerprint) vllm (Some "be brief") "hi" (scenario vllm) =
    (Raise AssertionError,
     World (bumped (self (scenario vllm))) (cache (scenario vllm)) (trace (scenario vllm))
       (host (scenario vllm))).
Proof.
  split; [split; discriminate|].
  apply (query_asserts_empty_system_prompt (H := canonical_fingerprint));
    discriminate.
Defined.

Lemma failed_invocation_leaves_cache_witness :
  fst (run (H := canonical_fingerprint) openrouter (Query (Some "") "hi")
         (failing openrouter (always (RateLimitError "429")))) =
    Raise (ValueError "Ratelimit exceeded too many times!") /\
  cache (snd (run (H := canonical_fingerprint) openrouter (Query (Some "") "hi")
                (failing openrouter (always (RateLimitError "429"))))) =
    cache (failing openrouter (always (RateLimitError "429"))) /\
  cache (snd (run (H := canonical_fingerprint) openrouter (Query (Some "") "hi")
                (failing openrouter (always (RateLimitError "429")))))
    !! (model (self (failing openrouter (always (RateLimitError "429")))),
        call_fingerprint (H := canonical_fingerprint) (Query (Some "") "hi")) = None.
Proof.
  apply (failed_invocation_leaves_cache (H := canonical_fingerprint) openrouter
           (Query (Some "") "hi") (failing openrouter (always (RateLimitError "429")))
           (ValueError "Ratelimit exceeded too many times!"));
    vm_compute; reflexivity.
Defined.

Lemma accepted_call_hits_or_invokes_once_witness :
  fst (run (H := canonical_fingerprint) openrouter (Query (Some "") "What is 2+2?")
         (scenario openrouter)) = Return (Reply None "4") /\
  fst (run (H := canonical_fingerprint) openrouter (Query (Some "") "What is 2+2?")
         (snd (run (H := canonical_fingerprint) openrouter
                 (Query (Some "") "What is 2+2?") (scenario openrouter)))) =
    Return (Reply None "4").
Proof.
  split.
  - apply (proj2 (accepted_call_hits_or_invokes_once (H := canonical_fingerprint)
                    openrouter (Query (Some "") "What is 2+2?") (scenario openrouter)
                    eq_refl));
      vm_compute; reflexivity.
  - apply (proj1 (accepted_call_hits_or_invokes_once (H := canonical_fingerprint)
                    openrouter (Query (Some "") "What is 2+2?")
                    (snd (run (H := canonical_fingerprint) openrouter
                            (Query (Some "") "What is 2+2?") (scenario openrouter)))
                    eq_refl)
             [Message "user" "What is 2+2?"] "4");
      vm_compute; reflexivity.
Defined.

Lemma get_llm_clamps_max_tokens_witness :
  (contains "vllm/" "vllm/Qwen3-8B" = true \/
   (contains "openrouter/" "vllm/Qwen3-8B" = true /\
    keyed (lab (always (Completion "4"))) = true)) /\
  exists v s,
    get_llm (lab (always (Completion "4"))) "vllm/Qwen3-8B" 0%float 100000 =
      Return (Adapter v s) /\
    max_tokens s = 40960 /\
    exists r rs,
      requests (trace (snd (run (H := canonical_fingerprint) v (Query None "hi")
                             (World s ∅ [] calm)))) = r :: rs /\
      Forall (fun r => req_max_tokens r = 40960) (r :: rs).
Proof.
  split; [left; reflexivity|].
  destruct (get_llm_clamps_max_tokens (lab (always (Completion "4"))) "vllm/Qwen3-8B"
              0%float 100000) as (v & s & Hbuilt & Hmax & Hsent); [left; reflexivity|].
  exists v, s. split; [exact Hbuilt|]. split; [exact Hmax|].
  destruct (Hsent canonical_fingerprint (Query None "hi") ∅ [] calm)
    as (rs & Hrs & Hall & Hfirst).
  destruct Hfirst as (r & rs' & ->); [reflexivity|apply lookup_empty|].
  exists r, rs'. split; [exact Hrs|exact Hall].
Defined.

(** The claim C1 as stated fails twice.  A call to [query] with a system
    prompt raises AssertionError although the cache holds a response for
    the conversation (the same call through [query_history] returns it);
    and on a miss in front of a service that never answers, the one
    invocation stores and returns nothing. *)
Lemma stored_response_withheld_by_assertion :
  cache primed !! ("gpt-oss", canonical_hash [Message "user" "hi"] None) =
    Some ([Message "user" "hi"], "hello") /\
  cache primed !! ("gpt-oss", canonical_hash [Message "user" "hi"] (Some "be brief")) =
    Some ([Message "user" "hi"], "hello") /\
  fst (query (H := canonical_fingerprint) openrouter (Some "be brief") "hi" primed) =
    Raise AssertionError /\
  fst (query_history (H := canonical_fingerprint) openrouter (Some "be brief") "hi" [] primed) =
    Return (Reply None "hello") /\
  fst (query (H := canonical_fingerprint) openrouter (Some "") "hi"
         (failing openrouter (always (RateLimitError "429")))) =
    Raise (ValueError "Ratelimit exceeded too many times!") /\
  invocations (trace (snd (query (H := canonical_fingerprint) openrouter (Some "") "hi"
                             (failing openrouter (always (RateLimitError "429")))))) = 1%nat /\
  cache (snd (query (H := canonical_fingerprint) openrouter (Some "") "hi"
                (failing openrouter (always (RateLimitError "429"))))) = ∅.
Proof. vm_compute. repeat split. Qed.


(** ** Where the code departs from the claims *)

(** C2 (failing input): the vLLM wrapper in front of a service that answers
    "4" at once, and in front of one that is rate-limited twice and then
    answers.  The loop has no [return]: it calls the service ten times and
    raises the error of exhausted retries.  The OpenRouter wrapper returns
    the answer in both cases. *)
Theorem vllm_invocation_discards_the_answer :
  fst (VLLMWrapper.invoke_model_with_messages (Some "") [Message "user" "What is 2+2?"]
         50 0%float (scenario vllm)) =
    Raise (ValueError "Ratelimit exceeded too many times!") /\
  network_calls
    (trace (snd (VLLMWrapper.invoke_model_with_messages (Some "")
                   [Message "user" "What is 2+2?"] 50 0%float (scenario vllm)))) = 10%nat /\
  fst (VLLMWrapper.invoke_model_with_messages (Some "") [Message "user" "What is 2+2?"]
         50 0%float (failing vllm (rate_limited_then 2 (Completion "4")))) =
    Raise (ValueError "Ratelimit exceeded too many times!") /\
  fst (OPENROUTERWrapper.invoke_model_with_messages (Some "")
         [Message "user" "What is 2+2?"] 50 0%float 10 (scenario openrouter)) =
    Return "4" /\
  fst (OPENROUTERWrapper.invoke_model_with_messages (Some "")
         [Message "user" "What is 2+2?"] 50 0%float 10
         (failing openrouter (rate_limited_then 2 (Completion "4")))) =
    Return "4".
Proof. vm_compute. repeat split. Qed.

(** C3 (failing input): the system prompt "You are terse." and the turn
    "hi".  Both wrappers build the list with the system turn in front and
    then send the list they were given, without it. *)
Theorem system_turn_is_built_but_not_sent :
  build_new_messages (Some "You are terse.") [Message "user" "hi"] =
    [Message "system" "You are terse."; Message "user" "hi"] /\
  requests
    (trace (snd (OPENROUTERWrapper.invoke_model_with_messages (Some "You are terse.")
                   [Message "user" "hi"] 50 0%float 10 (scenario openrouter)))) =
    [Request "gpt-oss" [Message "user" "hi"] 0%float 50] /\
  requests
    (trace (snd (VLLMWrapper.invoke_model_with_messages (Some "You are terse.")
                   [Message "user" "hi"] 50 0%float
                   (failing vllm (always (OtherError "boom")))))) =
    [Request "qwen3" [Message "user" "hi"] 0%float 50].
Proof. vm_compute. repeat split. Qed.

(** C4 (failing input): the vLLM wrapper in front of a service whose every
    call raises an exception other than the rate-limit error.  The handler
    formats the unbound name [max_attempts]: NameError leaves the method
    after one network call. *)
Theorem vllm_other_error_raises_name_error :
  fst (VLLMWrapper.invoke_model_with_messages (Some "") [Message "user" "hi"] 50 0%float
         (failing vllm (always (OtherError "connection refused")))) =
    Raise (NameError "max_attempts") /\
  network_calls
    (trace (snd (VLLMWrapper.invoke_model_with_messages (Some "") [Message "user" "hi"]
                   50 0%float (failing vllm (always (OtherError "connection refused"))))))
    = 1%nat.
Proof. vm_compute. repeat split. Qed.

(** C6 (failing input): the vLLM wrapper in front of a service that is
    rate-limited once and then raises another exception.  The rate-limited
    attempt is followed by a sleep of 5 and a second attempt; the other
    exception is not retried: NameError leaves the loop at attempt 2 of 10. *)
Theorem vllm_other_error_is_not_retried :
  VLLMWrapper.invoke_model_with_messages (Some "") [Message "user" "hi"] 50 0%float
    (failing vllm (rate_limited_then 1 (OtherError "connection refused"))) =
    (Raise (NameError "max_attempts"),
     World (self (failing vllm (rate_limited_then 1 (OtherError "connection refused")))) ∅
       [Invoke (Some "") [Message "user" "hi"];
        Create (Request "qwen3" [Message "user" "hi"] 0%float 50);
        Sleep 5;
        Create (Request "qwen3" [Message "user" "hi"] 0%float 50)]
       calm).
Proof. vm_compute. reflexivity. Qed.

(** ** The retry policy on concrete services *)

Lemma openrouter_returns_first_success_witness :
  fst (OPENROUTERWrapper.invoke_model_with_messages (Some "")
         [Message "user" "What is 2+2?"] 50 0%float 10 locked) = Return "4" /\
  network_calls
    (trace (snd (OPENROUTERWrapper.invoke_model_with_messages (Some "")
                   [Message "user" "What is 2+2?"] 50 0%float 10 locked))) = 3%nat /\
  sleeps
    (trace (snd (OPENROUTERWrapper.invoke_model_with_messages (Some "")
                   [Message "user" "What is 2+2?"] 50 0%float 10 locked))) = [] /\
  exists before,
    trace (snd (OPENROUTERWrapper.invoke_model_with_messages (Some "")
                  [Message "user" "What is 2+2?"] 50 0%float 10 locked)) =
      before ++
      [FileAppend "temp2.txt"
         ("2025-01-01 00:00:00" +:+ OPENROUTERWrapper.nl +:+ OPENROUTERWrapper.nl);
       FileAppend "temp2.txt" "4";
       FileAppend "temp2.txt" OPENROUTERWrapper.separator].
Proof.
  apply (openrouter_returns_first_success (Some "") [Message "user" "What is 2+2?"] 50
           0%float 10 locked 2 "4").
  - lia.
  - intros i Hi. destruct i as [|[|i]]; [reflexivity|reflexivity|lia].
  - reflexivity.
  - reflexivity.
Defined.

(** A completion without a text is not returned: the attempt appends the
    time stamp, fails on the text that is not there and is tried again at
    once, up to the bound. *)
Example completion_without_text_is_retried :
  OPENROUTERWrapper.invoke_model_with_messages (Some "") [Message "user" "hi"] 50 0%float 2
    (failing openrouter (always NoContent)) =
    (Raise (ValueError "Ratelimit exceeded too many times!"),
     World (self (failing openrouter (always NoContent))) ∅
       [Invoke (Some "") [Message "user" "hi"];
        Create (Request "gpt-oss" [Message "user" "hi"] 0%float 50);
        FileAppend "temp2.txt"
          ("2025-01-01 00:00:00" +:+ OPENROUTERWrapper.nl +:+ OPENROUTERWrapper.nl);
        Create (Request "gpt-oss" [Message "user" "hi"] 0%float 50);
        FileAppend "temp2.txt"
          ("2025-01-01 00:00:00" +:+ OPENROUTERWrapper.nl +:+ OPENROUTERWrapper.nl)]
       calm).
Proof. vm_compute. reflexivity. Qed.

Lemma openrouter_exhausts_after_max_attempts_witness :
  fst (OPENROUTERWrapper.invoke_model_with_messages (Some "") [Message "user" "hi"] 50
         0%float 3 (failing openrouter (always (OtherError "connection refused")))) =
    Raise (ValueError "Ratelimit exceeded too many times!") /\
  network_calls
    (trace (snd (OPENROUTERWrapper.invoke_model_with_messages (Some "")
                   [Message "user" "hi"] 50 0%float 3
                   (failing openrouter (always (OtherError "connection refused")))))) =
    3%nat /\
  sleeps
    (trace (snd (OPENROUTERWrapper.invoke_model_with_messages (Some "")
                   [Message "user" "hi"] 50 0%float 3
                   (failing openrouter (always (OtherError "connection refused")))))) = [] /\
  cache (snd (OPENROUTERWrapper.invoke_model_with_messages (Some "")
                [Message "user" "hi"] 50 0%float 3
                (failing openrouter (always (OtherError "connection refused"))))) = ∅.
Proof.
  apply (openrouter_exhausts_after_max_attempts (Some "") [Message "user" "hi"] 50
           0%float 3 (failing openrouter (always (OtherError "connection refused")))).
  intros i Hi. reflexivity.
Defined.

Lemma vllm_exhausts_when_rate_limited_witness :
  fst (VLLMWrapper.invoke_model_with_messages (Some "") [Message "user" "hi"] 50 0%float
         (failing vllm (always (RateLimitError "429")))) =
    Raise (ValueError "Ratelimit exceeded too many times!") /\
  network_calls
    (trace (snd (VLLMWrapper.invoke_model_with_messages (Some "") [Message "user" "hi"]
                   50 0%float (failing vllm (always (RateLimitError "429")))))) = 10%nat /\
  sleeps
    (trace (snd (VLLMWrapper.invoke_model_with_messages (Some "") [Message "user" "hi"]
                   50 0%float (failing vllm (always (RateLimitError "429")))))) =
    [5; 5; 5; 5; 5; 5; 5; 5; 5; 5].
Proof.
  apply (vllm_exhausts_when_rate_limited (Some "") [Message "user" "hi"] 50 0%float
           (failing vllm (always (RateLimitError "429")))).
  intros i Hi. exists "429". reflexivity.
Defined.

Lemma rate_limited_service_exhausts_uncached_witness :
  fst (run (H := canonical_fingerprint) vllm (QueryHistory (Some "be brief") "hi" [])
         (failing vllm (always (RateLimitError "429")))) =
    Raise (ValueError "Ratelimit exceeded too many times!") /\
  cache (snd (run (H := canonical_fingerprint) vllm (QueryHistory (Some "be brief") "hi" [])
                (failing vllm (always (RateLimitError "429"))))) = ∅ /\
  network_calls
    (trace (snd (run (H := canonical_fingerprint) vllm
                   (QueryHistory (Some "be brief") "hi" [])
                   (failing vllm (always (RateLimitError "429")))))) = 10%nat /\
  sleeps
    (trace (snd (run (H := canonical_fingerprint) vllm
                   (QueryHistory (Some "be brief") "hi" [])
                   (failing vllm (always (RateLimitError "429")))))) =
    [5; 5; 5; 5; 5; 5; 5; 5; 5; 5].
Proof.
  apply (rate_limited_service_exhausts_uncached (H := canonical_fingerprint) vllm
           (QueryHistory (Some "be brief") "hi" [])
           (failing vllm (always (RateLimitError "429")))).
  - reflexivity.
  - vm_compute. reflexivity.
  - intros calls r. exists "429". reflexivity.
Defined.

(** ** The cache over a series of calls *)

Lemma run_model `{HashMessages} v c w : model (self (snd (run v c w))) = model (self w).
Proof. rewrite run_self. reflexivity. Qed.

Lemma run_all_model `{HashMessages} v cs w : model (self (run_all v cs w)) = model (self w).
Proof. apply run_all_self. Qed.

(** A call leaves every entry of the cache in place, and entries under
    another model or another fingerprint as they were. *)
Lemma run_keeps_entries `{HashMessages} v c w k e :
  cache w !! k = Some e -> cache (snd (run v c w)) !! k = Some e.
Proof.
  intros Hk.
  destruct (run_cases v c w) as
    [[_ ->]|[(_ & ? & ? & _ & ->)|(_ & Hmiss & t' & _ & [(? & _ & ->)|(? & _ & ->)])]];
    cbn [snd cache]; try assumption.
  rewrite lookup_insert_ne; [assumption|]. intros <-. congruence.
Qed.

Lemma run_other_keys `{HashMessages} v c w k :
  k <> (model (self w), call_fingerprint c) ->
  cache (snd (run v c w)) !! k = cache w !! k.
Proof.
  intros Hk.
  destruct (run_cases v c w) as
    [[_ ->]|[(_ & ? & ? & _ & ->)|(_ & Hmiss & t' & _ & [(? & _ & ->)|(? & _ & ->)])]];
    cbn [snd cache]; try reflexivity.
  rewrite lookup_insert_ne; [reflexivity|]. congruence.
Qed.

Lemma run_all_keeps_entries `{HashMessages} v cs w k e :
  cache w !! k = Some e -> cache (run_all v cs w) !! k = Some e.
Proof.
  revert w. induction cs as [|c cs IH]; intros w Hk; cbn [run_all]; [assumption|].
  apply IH. now apply run_keeps_entries.
Qed.

(** What a call returns is afterwards in the cache under its fingerprint. *)
Lemma run_returns_cached `{HashMessages} v c w answer :
  fst (run v c w) = Return answer ->
  answer = Reply None (response answer) /\
  exists payload,
    cache (snd (run v c w)) !! (model (self w), call_fingerprint c) =
      Some (payload, response answer).
Proof.
  destruct (run_cases v c w) as
    [[_ ->]|[(_ & payload & stored & Hhit & ->)|
             (_ & Hmiss & t' & _ & [(text & _ & ->)|(? & _ & ->)])]];
    cbn [fst snd cache]; try discriminate; intros [= <-]; cbn [response];
    (split; [reflexivity|]).
  - exists payload. exact Hhit.
  - eexists. apply lookup_insert_eq.
Qed.

(** Once a call has returned a reply, the same call made again on the same
    wrapper, directly or after any series of other calls, returns the same
    reply from the cache: no invocation and no network call is made, and
    the cache is not written. *)
Theorem answered_call_is_served_from_cache `{HashMessages} (v : variant) (c : call)
    (w : world) (answer : reply) (cs : list call) :
  fst (run v c w) = Return answer ->
  fst (run v c (run_all v cs (snd (run v c w)))) = Return answer /\
  network_calls (trace (snd (run v c (run_all v cs (snd (run v c w)))))) =
    network_calls (trace (run_all v cs (snd (run v c w)))) /\
  invocations (trace (snd (run v c (run_all v cs (snd (run v c w)))))) =
    invocations (trace (run_all v cs (snd (run v c w)))) /\
  cache (snd (run v c (run_all v cs (snd (run v c w))))) =
    cache (run_all v cs (snd (run v c w))).
Proof.
  intros Hret.
  destruct (run_returns_cached v c w answer Hret) as (Hans & payload & Hin).
  pose proof (run_all_keeps_entries v cs _ _ _ Hin) as Hlater.
  assert (model (self (run_all v cs (snd (run v c w)))) = model (self w)) as Hm.
  { now rewrite run_all_model, run_model. }
  rewrite <- Hm in Hlater.
  assert (accepted c = true) as Hacc.
  { destruct (accepted c) eqn:Hacc; [reflexivity|].
    rewrite (run_rejected v c w Hacc) in Hret. discriminate. }
  rewrite (run_hit v c _ payload (response answer) Hacc Hlater).
  cbn [fst snd trace cache]. rewrite network_calls_app, invocations_app. cbn.
  rewrite <- Hans. repeat split; lia.
Qed.

(** Over any series of calls the cache only grows: an entry present before
    is present, with the same payload and response, afterwards, and no
    entry appears under a model other than the wrapper's. *)
Theorem cache_entries_are_never_lost `{HashMessages} (v : variant) (cs : list call)
    (w : world) (m fp : string) :
  (forall e, cache w !! (m, fp) = Some e -> cache (run_all v cs w) !! (m, fp) = Some e) /\
  (m <> model (self w) -> cache (run_all v cs w) !! (m, fp) = cache w !! (m, fp)).
Proof.
  split.
  - intros e. apply run_all_keeps_entries.
  - revert w. induction cs as [|c cs IH]; intros w Hm; cbn [run_all]; [reflexivity|].
    rewrite IH by (now rewrite run_model).
    apply run_other_keys. congruence.
Qed.

(** The vLLM wrapper never writes to the cache: after any series of calls
    on it the cache is the one it started with. *)
Theorem vllm_wrapper_never_caches `{HashMessages} (cs : list call) (w : world) :
  cache (run_all vllm cs w) = cache w.
Proof.
  revert w. induction cs as [|c cs IH]; intros w; cbn [run_all]; [reflexivity|].
  rewrite IH.
  destruct (run_cases vllm c w) as
    [[_ ->]|[(_ & ? & ? & _ & ->)|(_ & _ & t' & _ & [(text & Hinv & _)|(? & _ & ->)])]];
    cbn [snd cache]; try reflexivity.
  exfalso. unfold invocation_of in Hinv. cbn [invoke_model_with_messages] in Hinv.
  rewrite vllm_invoke_run in Hinv. apply (f_equal fst) in Hinv. cbn [fst] in Hinv.
  match type of Hinv with
  | vllm_result ?n ?service ?k ?r = _ =>
      destruct (vllm_result_raises n service k r) as [Hv|Hv];
      rewrite Hv in Hinv; discriminate
  end.
Qed.

(** ** The cost of one call *)

Lemma retry_steps_sleeps n service h k r :
  (length (sleeps (retry_steps n service h k r)) <= n)%nat /\
  Forall (fun seconds => seconds = 5) (sleeps (retry_steps n service h k r)).
Proof.
  revert k. induction n as [|n IH]; intros k; cbn [retry_steps sleeps length].
  - split; [lia|constructor].
  - destruct (IH (S k)) as [Hlen Hall].
    destruct (service k r) as [text|err|err|]; cbn [sleeps length];
      rewrite ?sleeps_log_prefix; try (split; auto; lia).
    destruct (logged h (S k) (Some text)); cbn [sleeps length]; split; auto; lia.
Qed.

Lemma vllm_steps_sleeps n service k r :
  (length (sleeps (vllm_steps n service k r)) <= n)%nat /\
  Forall (fun seconds => seconds = 5) (sleeps (vllm_steps n service k r)).
Proof.
  revert k. induction n as [|n IH]; intros k; cbn [vllm_steps sleeps length].
  - split; [lia|constructor].
  - destruct (IH (S k)) as [Hlen Hall].
    destruct (service k r); cbn [sleeps length]; split; auto; lia.
Qed.

Lemma invocation_cost `{HashMessages} v c w :
  exists t',
    trace (snd (invocation_of v c w)) = trace w ++ t' /\
    (network_calls t' <= 10)%nat /\ (length (sleeps t') <= 10)%nat /\
    Forall (fun seconds => seconds = 5) (sleeps t').
Proof.
  unfold invocation_of. destruct v; cbn [invoke_model_with_messages].
  - rewrite vllm_invoke_run. cbn [snd trace entering]. eexists.
    rewrite <- app_assoc. split; [reflexivity|]. cbn [app network_calls sleeps].
    match goal with
    | |- context [vllm_steps ?n ?service ?k ?r] =>
        pose proof (vllm_steps_bound n service k r);
        destruct (vllm_steps_sleeps n service k r)
    end.
    auto.
  - rewrite openrouter_invoke_run. cbn [snd trace entering]. eexists.
    rewrite <- app_assoc. split; [reflexivity|]. cbn [app network_calls sleeps].
    match goal with
    | |- context [retry_steps ?n ?service ?h ?k ?r] =>
        pose proof (retry_steps_bound n service h k r);
        destruct (retry_steps_sleeps n service h k r)
    end.
    change (Z.to_nat OPENROUTERWrapper.default_max_attempts) with 10%nat in *.
    auto.
Qed.

(** One call to [query] or [query_history] costs at most ten network calls
    and at most ten sleeps, each of 5 seconds, on either wrapper and
    whatever the service answers. *)
Theorem call_cost_is_bounded `{HashMessages} (v : variant) (c : call) (w : world) :
  exists t',
    trace (snd (run v c w)) = trace w ++ t' /\
    (network_calls t' <= 10)%nat /\ (length (sleeps t') <= 10)%nat /\
    Forall (fun seconds => seconds = 5) (sleeps t').
Proof.
  destruct (accepted c) eqn:Hacc.
  2:{ rewrite (run_rejected v c w Hacc). exists []. cbn. rewrite app_nil_r.
      repeat split; auto; lia. }
  destruct (cache w !! (model (self w), call_fingerprint c)) as [[payload stored]|] eqn:Hk.
  { rewrite (run_hit v c w payload stored Hacc Hk). eexists. split; [reflexivity|].
    cbn. repeat split; auto; lia. }
  rewrite (run_miss v c w Hacc Hk).
  destruct (invocation_cost v c w) as (t' & Ht & Hn & Hl & Hall).
  destruct (invocation_of v c w) as [[text|e] w1]; cbn [snd trace] in *.
  - exists (t' ++ [AddResult (call_fingerprint c) (call_messages c) text (model (self w));
                   GetResult (call_fingerprint c) (model (self w))]).
    rewrite Ht, <- app_assoc. split; [reflexivity|].
    rewrite network_calls_app, sleeps_app. cbn. rewrite app_nil_r.
    repeat split; auto; lia.
  - exists t'. auto.
Qed.

Lemma answered_call_is_served_from_cache_witness :
  fst (run (H := canonical_fingerprint) openrouter (Query None "hi")
         (run_all (H := canonical_fingerprint) openrouter
            [QueryHistory (Some "be brief") "and then?" [("hi", "hello")]]
            (snd (run (H := canonical_fingerprint) openrouter (Query None "hi")
                    (scenario openrouter))))) = Return (Reply None "4") /\
  network_calls
    (trace (snd (run (H := canonical_fingerprint) openrouter (Query None "hi")
                   (run_all (H := canonical_fingerprint) openrouter
                      [QueryHistory (Some "be brief") "and then?" [("hi", "hello")]]
                      (snd (run (H := canonical_fingerprint) openrouter (Query None "hi")
                              (scenario openrouter))))))) =
    network_calls
      (trace (run_all (H := canonical_fingerprint) openrouter
                [QueryHistory (Some "be brief") "and then?" [("hi", "hello")]]
                (snd (run (H := canonical_fingerprint) openrouter (Query None "hi")
                        (scenario openrouter))))) /\
  invocations
    (trace (snd (run (H := canonical_fingerprint) openrouter (Query None "hi")
                   (run_all (H := canonical_fingerprint) openrouter
                      [QueryHistory (Some "be brief") "and then?" [("hi", "hello")]]
                      (snd (run (H := canonical_fingerprint) openrouter (Query None "hi")
                              (scenario openrouter))))))) =
    invocations
      (trace (run_all (H := canonical_fingerprint) openrouter
                [QueryHistory (Some "be brief") "and then?" [("hi", "hello")]]
                (snd (run (H := canonical_fingerprint) openrouter (Query None "hi")
                        (scenario openrouter))))) /\
  cache (snd (run (H := canonical_fingerprint) openrouter (Query None "hi")
                (run_all (H := canonical_fingerprint) openrouter
                   [QueryHistory (Some "be brief") "and then?" [("hi", "hello")]]
                   (snd (run (H := canonical_fingerprint) openrouter (Query None "hi")
                           (scenario openrouter)))))) =
    cache (run_all (H := canonical_fingerprint) openrouter
             [QueryHistory (Some "be brief") "and then?" [("hi", "hello")]]
             (snd (run (H := canonical_fingerprint) openrouter (Query None "hi")
                     (scenario openrouter)))).
Proof.
  apply (answered_call_is_served_from_cache (H := canonical_fingerprint) openrouter
           (Query None "hi") (scenario openrouter) (Reply None "4")
           [QueryHistory (Some "be brief") "and then?" [("hi", "hello")]]).
  vm_compute. reflexivity.
Defined.

(** ** get_llm and get_info *)

(** [get_llm] reaches its own [raise NotImplementedError] exactly for the
    names that are none of 'claude-35', 'gpt4-turbo' and 'gpt4-o' and
    contain neither 'vllm/' nor 'openrouter/'.  It ends on
    openai.OpenAIError, raised while the OpenRouter wrapper is built,
    exactly for the names that select that wrapper when the environment
    holds no key.  The constructor it hands over to gets the requested
    [max_tokens] unchanged for 'claude-35' and the minimum of the requested
    value and 40960 in every other branch. *)
Theorem get_llm_raises_or_clamps (p : platform) (model_name : string) (temp : float)
    (requested : Z) :
  (get_llm p model_name temp requested = Raise NotImplementedError <->
   model_name <> "claude-35" /\ model_name <> "gpt4-turbo" /\ model_name <> "gpt4-o" /\
   contains "vllm/" model_name = false /\ contains "openrouter/" model_name = false) /\
  (get_llm p model_name temp requested = Raise OpenAIError <->
   model_name <> "claude-35" /\ model_name <> "gpt4-turbo" /\ model_name <> "gpt4-o" /\
   contains "vllm/" model_name = false /\ contains "openrouter/" model_name = true /\
   keyed p = false) /\
  (forall l, get_llm p model_name temp requested = Return l ->
             llm_max_tokens l =
               if bool_decide (model_name = "claude-35") then requested
               else Z.min requested 40960).
Proof.
  unfold get_llm.
  destruct (bool_decide (model_name = "claude-35")) eqn:E1.
  { apply bool_decide_eq_true in E1. split; [|split].
    - split; [discriminate|]. intros (Hn & _). contradiction.
    - split; [discriminate|]. intros (Hn & _). contradiction.
    - intros l [= <-]. reflexivity. }
  apply bool_decide_eq_false in E1.
  destruct (bool_decide (model_name = "gpt4-turbo")) eqn:E2.
  { apply bool_decide_eq_true in E2. split; [|split].
    - split; [discriminate|]. intros (_ & Hn & _). contradiction.
    - split; [discriminate|]. intros (_ & Hn & _). contradiction.
    - intros l [= <-]. reflexivity. }
  apply bool_decide_eq_false in E2.
  destruct (bool_decide (model_name = "gpt4-o")) eqn:E3.
  { apply bool_decide_eq_true in E3. split; [|split].
    - split; [discriminate|]. intros (_ & _ & Hn & _). contradiction.
    - split; [discriminate|]. intros (_ & _ & Hn & _). contradiction.
    - intros l [= <-]. reflexivity. }
  apply bool_decide_eq_false in E3.
  destruct (contains "vllm/" model_name) eqn:E4.
  { rewrite vllm_init. cbn [built]. split; [|split].
    - split; [discriminate|]. intros (_ & _ & _ & Hn & _). discriminate.
    - split; [discriminate|]. intros (_ & _ & _ & Hn & _). discriminate.
    - intros l [= <-]. reflexivity. }
  destruct (contains "openrouter/" model_name) eqn:E5.
  { rewrite openrouter_init. destruct (keyed p); cbn [built]; (split; [|split]).
    - split; [discriminate|]. intros (_ & _ & _ & _ & Hn). discriminate.
    - split; [discriminate|]. intros (_ & _ & _ & _ & _ & Hn). discriminate.
    - intros l [= <-]. reflexivity.
    - split; [discriminate|]. intros (_ & _ & _ & _ & Hn). discriminate.
    - split; auto 10.
    - discriminate. }
  split; [|split].
  - split; auto.
  - split; [discriminate|]. intros (_ & _ & _ & _ & Hn & _). discriminate.
  - discriminate.
Qed.

(** The backend prefix is given back: 'vllm/' followed by any model name
    builds a vLLM wrapper for that model name, and 'openrouter/' followed by
    a model name without 'vllm/' in it builds an OpenRouter wrapper for
    that model name when the environment holds a key, and raises
    openai.OpenAIError when it does not.  The wrapper starts with the
    counter of the base class. *)
Theorem get_llm_strips_backend_prefix (p : platform) (m : string) (temp : float)
    (requested : Z) :
  get_llm p ("vllm/" +:+ m) temp requested =
    Return (Adapter vllm (Wrapper m temp (Z.min requested 40960) (base_count_queries p)
                            (service p))) /\
  (contains "vllm/" m = false ->
   get_llm p ("openrouter/" +:+ m) temp requested =
     if keyed p then
       Return (Adapter openrouter (Wrapper m temp (Z.min requested 40960)
                                     (base_count_queries p) (service p)))
     else Raise OpenAIError).
Proof.
  split.
  - assert (contains "vllm/" ("vllm/" +:+ m) = true) as Hin by (destruct m; reflexivity).
    rewrite get_llm_selected by (left; exact Hin).
    rewrite Hin, drop_prefix_vllm. reflexivity.
  - intros Hm.
    assert (contains "vllm/" ("openrouter/" +:+ m) = false) as Hno.
    { cbn. exact Hm. }
    assert (contains "openrouter/" ("openrouter/" +:+ m) = true) as Hin
      by (destruct m; reflexivity).
    rewrite get_llm_selected by (right; exact Hin).
    rewrite Hno, drop_prefix_openrouter. reflexivity.
Qed.

(** The test for 'vllm/' comes first and looks anywhere in the name, while
    the prefix is cut by position: 'openrouter/' followed by a model name
    that contains 'vllm/' builds a vLLM wrapper, whose model name is the
    whole name less its first five characters. *)
Theorem get_llm_prefers_vllm (p : platform) (m : string) (temp : float) (requested : Z) :
  contains "vllm/" m = true ->
  get_llm p ("openrouter/" +:+ m) temp requested =
    Return (Adapter vllm (Wrapper ("outer/" +:+ m) temp (Z.min requested 40960)
                            (base_count_queries p) (service p))).
Proof.
  intros Hm.
  pose proof (contains_append "vllm/" "openrouter/" m Hm) as Hin.
  rewrite get_llm_selected by (left; exact Hin).
  rewrite Hin, drop_prefix_outer. reflexivity.
Qed.

Lemma get_llm_prefers_vllm_witness :
  get_llm (lab (always (Completion "4"))) "openrouter/vllm/qwen3" 0%float 512 =
    Return (Adapter vllm (Wrapper "outer/vllm/qwen3" 0%float 512 0
                            (always (Completion "4")))).
Proof.
  apply (get_llm_prefers_vllm (lab (always (Completion "4"))) "vllm/qwen3" 0%float 512).
  reflexivity.
Defined.

Lemma get_info_after_calls `{HashMessages} v cs w :
  get_info v (run_all v cs w) =
    (Return (Info "gpt" (model (self w)) (temperature (self w)) (max_tokens (self w))),
     run_all v cs w).
Proof.
  destruct (run_all_self v cs w) as (_ & Hm & Ht & Hx).
  destruct v;
    cbv beta iota zeta delta [get_info VLLMWrapper.get_info OPENROUTERWrapper.get_info
      bind attr ret];
    rewrite Hm, Ht, Hx; reflexivity.
Qed.

(** [get_info] on a wrapper built by [get_llm] reports, after any series of
    calls, the type 'gpt', the model name less its first 5 characters (for
    the vLLM wrapper) or 11 characters (for the OpenRouter wrapper), the
    temperature given and the clamped [max_tokens]; it changes nothing, the
    query counter included. *)
Theorem get_info_reports_construction (p : platform) (model_name : string) (temp : float)
    (requested : Z) (v : variant) (s : wrapper) :
  get_llm p model_name temp requested = Return (Adapter v s) ->
  forall (H : HashMessages) (cs : list call) (stored : LLMHashCache) (past : list event)
         (h : machine),
    get_info v (run_all v cs (World s stored past h)) =
      (Return (Info "gpt"
                 (drop_prefix (match v with vllm => 5 | openrouter => 11 end) model_name)
                 temp (Z.min requested 40960)),
       run_all v cs (World s stored past h)).
Proof.
  intros Hbuilt H cs stored past h. rewrite get_info_after_calls. cbn [self].
  assert (contains "vllm/" model_name = true \/ contains "openrouter/" model_name = true)
    as Hname.
  { revert Hbuilt. unfold get_llm.
    repeat (case_bool_decide; [discriminate|]).
    destruct (contains "vllm/" model_name); [auto|].
    destruct (contains "openrouter/" model_name); [auto|discriminate]. }
  rewrite (get_llm_selected _ _ _ _ Hname) in Hbuilt.
  destruct (contains "vllm/" model_name).
  - injection Hbuilt as <- <-. reflexivity.
  - destruct (keyed p); [|discriminate]. injection Hbuilt as <- <-. reflexivity.
Qed.

Lemma get_info_reports_construction_witness :
  get_llm (lab (always (Completion "4"))) (e_acute +:+ "/vllm/x") 0%float 100000 =
    Return (Adapter vllm (Wrapper "m/x" 0%float 40960 0 (always (Completion "4")))) /\
  get_info vllm
    (run_all (H := canonical_fingerprint) vllm [Query None "hi"]
       (fresh (Wrapper "m/x" 0%float 40960 0 (always (Completion "4"))))) =
    (Return (Info "gpt" "m/x" 0%float 40960),
     run_all (H := canonical_fingerprint) vllm [Query None "hi"]
       (fresh (Wrapper "m/x" 0%float 40960 0 (always (Completion "4"))))).
Proof.
  split; [vm_compute; reflexivity|].
  apply (get_info_reports_construction (lab (always (Completion "4")))
           (e_acute +:+ "/vllm/x") 0%float 100000 vllm
           (Wrapper "m/x" 0%float 40960 0 (always (Completion "4")))
           ltac:(vm_compute; reflexivity) canonical_fingerprint [Query None "hi"] ∅ [] calm).
Defined.

(** ** The import graph: dotted names *)

Section DottedNames.
Import DepsViz.

Lemma split_dot_nonempty s : split_dot s <> [].
Proof.
  destruct s as [|c s]; cbn [split_dot]; [discriminate|].
  case_bool_decide; [discriminate|]. destruct (split_dot s); discriminate.
Qed.

Lemma join_split_dot s : join_dot (split_dot s) = s.
Proof.
  induction s as [|c s IH]; [reflexivity|]. cbn [split_dot].
  case_bool_decide as Hc.
  - subst c. pose proof (split_dot_nonempty s) as Hne.
    destruct (split_dot s) as [|p ps] eqn:E; [contradiction|].
    change (join_dot ("" :: p :: ps)) with ("" +:+ "." +:+ join_dot (p :: ps)).
    rewrite IH. reflexivity.
  - pose proof (split_dot_nonempty s) as Hne.
    destruct (split_dot s) as [|p ps] eqn:E; [contradiction|].
    destruct ps as [|q ps].
    + cbn [join_dot] in *. now rewrite IH.
    + change (join_dot (String c p :: q :: ps))
        with (String c (p +:+ "." +:+ join_dot (q :: ps))).
      change (join_dot (p :: q :: ps)) with (p +:+ "." +:+ join_dot (q :: ps)) in IH.
      now rewrite IH.
Qed.

Lemma split_dot_segment_app p s :
  no_dot p = true -> split_dot (p +:+ "." +:+ s) = p :: split_dot s.
Proof.
  induction p as [|c p IH]; intros Hp.
  - reflexivity.
  - cbn [no_dot] in Hp. apply andb_true_iff in Hp as [Hc Hp].
    apply negb_true_iff, bool_decide_eq_false in Hc.
    change (String c p +:+ "." +:+ s) with (String c (p +:+ "." +:+ s)).
    cbn [split_dot]. rewrite bool_decide_eq_false_2 by assumption.
    rewrite (IH Hp). reflexivity.
Qed.

Lemma split_dot_segment p : no_dot p = true -> split_dot p = [p].
Proof.
  induction p as [|c p IH]; intros Hp; [reflexivity|].
  cbn [no_dot] in Hp. apply andb_true_iff in Hp as [Hc Hp].
  apply negb_true_iff, bool_decide_eq_false in Hc.
  cbn [split_dot]. rewrite bool_decide_eq_false_2 by assumption.
  rewrite (IH Hp). reflexivity.
Qed.

Lemma split_join_dot l :
  l <> [] -> Forall segment l -> split_dot (join_dot l) = l.
Proof.
  induction l as [|p l IH]; intros Hne Hall; [contradiction|].
  inversion Hall as [|? ? [Hp _] Hl]; subst.
  destruct l as [|q l].
  - cbn [join_dot]. now apply split_dot_segment.
  - change (join_dot (p :: q :: l)) with (p +:+ "." +:+ join_dot (q :: l)).
    rewrite split_dot_segment_app by assumption.
    rewrite IH by (auto; discriminate). reflexivity.
Qed.

Lemma join_dot_truthy l : l <> [] -> Forall segment l -> truthy (join_dot l) = true.
Proof.
  intros Hne Hall. destruct l as [|p l]; [contradiction|].
  inversion Hall as [|? ? [_ Hp] _]; subst.
  unfold truthy. apply negb_true_iff, bool_decide_eq_false.
  destruct p as [|c p]; [contradiction|].
  destruct l; cbn; discriminate.
Qed.

Lemma filter_segments l :
  Forall segment l -> filter (fun p => truthy p = true) l = l.
Proof.
  induction 1 as [|p l [_ Hp] _ IH]; [reflexivity|].
  rewrite filter_cons_True, IH; [reflexivity|].
  unfold truthy. now apply negb_true_iff, bool_decide_eq_false.
Qed.

Lemma string_append_assoc (a b c : string) : (a +:+ b) +:+ c = a +:+ b +:+ c.
Proof.
  induction a as [|ch a IH]; [reflexivity|].
  change (String ch ((a +:+ b) +:+ c) = String ch (a +:+ b +:+ c)). now rewrite IH.
Qed.

Lemma join_dot_app_split base x :
  join_dot (base ++ split_dot x) =
    match base with
    | [] => x
    | _ => join_dot base +:+ "." +:+ x
    end.
Proof.
  induction base as [|p base IH]; [apply join_split_dot|].
  destruct base as [|q base].
  - cbn [app]. pose proof (split_dot_nonempty x).
    destruct (split_dot x) as [|y ys] eqn:E; [contradiction|].
    change (join_dot (p :: y :: ys)) with (p +:+ "." +:+ join_dot (y :: ys)).
    rewrite <- E, join_split_dot. reflexivity.
  - change (join_dot ((p :: q :: base) ++ split_dot x))
      with (p +:+ "." +:+ join_dot ((q :: base) ++ split_dot x)).
    rewrite IH.
    change (join_dot (p :: q :: base)) with (p +:+ "." +:+ join_dot (q :: base)).
    rewrite !string_append_assoc. reflexivity.
Qed.

(** A relative import is resolved against the package of the current
    module.  For a module [pkg.m] whose segments are non-empty, a
    [from ... import] with [k + 1] leading dots and the module part [x]
    resolves to [x] under the package [k] levels above [pkg]; when [pkg] has
    no more than [k] levels the result is [x] alone, and no error is
    raised.  Without a module part the result is that package itself. *)
Theorem relative_import_resolves_against_package (pkg : list string) (m x : string)
    (k : nat) :
  Forall segment (pkg ++ [m]) -> x <> "" ->
  resolve_from_import (join_dot (pkg ++ [m])) (Some x) (Z.of_nat (S k)) =
    match firstn (length pkg - k) pkg with
    | [] => x
    | base => join_dot base +:+ "." +:+ x
    end /\
  resolve_from_import (join_dot (pkg ++ [m])) None (Z.of_nat (S k)) =
    join_dot (firstn (length pkg - k) pkg).
Proof.
  intros Hall Hx.
  assert (pkg ++ [m] <> []) as Hne by (destruct pkg; discriminate).
  assert (Forall segment pkg) as Hpkg by (apply Forall_app in Hall; tauto).
  assert (forall imported,
            resolve_from_import (join_dot (pkg ++ [m])) imported (Z.of_nat (S k)) =
              if opt_truthy imported then
                join_dot (firstn (length pkg - k) pkg ++ split_dot (or_empty imported))
              else join_dot (firstn (length pkg - k) pkg)) as Hres.
  { intros imported. unfold resolve_from_import.
    replace (Z.of_nat (S k) =? 0) with false by (symmetry; apply Z.eqb_neq; lia).
    rewrite (split_join_dot _ Hne Hall), (join_dot_truthy _ Hne Hall).
    assert (match pkg ++ [m] with [] => pkg ++ [m] | _ => drop_last 1 (pkg ++ [m]) end = pkg)
      as ->.
    { destruct (pkg ++ [m]) eqn:E; [contradiction|]. rewrite <- E.
      unfold drop_last. rewrite length_app. cbn [length].
      replace (length pkg + 1 - 1)%nat with (length pkg) by lia.
      rewrite firstn_app, Nat.sub_diag, firstn_all. cbn. apply app_nil_r. }
    replace (Z.max (Z.of_nat (S k) - 1) 0) with (Z.of_nat k) by lia.
    assert ((if Z.of_nat k =? 0 then pkg
             else if Z.of_nat k <=? Z.of_nat (length pkg)
                  then drop_last (Z.to_nat (Z.of_nat k)) pkg else [])
            = firstn (length pkg - k) pkg) as ->.
    { destruct (Z.eqb_spec (Z.of_nat k) 0) as [H0|H0].
      - replace k with O by lia. rewrite Nat.sub_0_r. symmetry. apply firstn_all.
      - destruct (Z.leb_spec (Z.of_nat k) (Z.of_nat (length pkg))) as [Hle|Hgt].
        + unfold drop_last. rewrite Nat2Z.id. reflexivity.
        + replace (length pkg - k)%nat with O by lia. reflexivity. }
    rewrite filter_segments; [reflexivity|]. now apply Forall_take. }
  split.
  - rewrite Hres. cbn [opt_truthy or_empty]. unfold truthy.
    rewrite bool_decide_eq_false_2 by assumption. cbn [negb].
    rewrite join_dot_app_split. destruct (firstn (length pkg - k) pkg); reflexivity.
  - rewrite Hres. reflexivity.
Qed.

Lemma relative_import_resolves_against_package_witness :
  resolve_from_import "pkg.sub.module" (Some "x.y") 2 = "pkg.x.y" /\
  resolve_from_import "pkg.sub.module" None 2 = "pkg".
Proof.
  apply (relative_import_resolves_against_package ["pkg"; "sub"] "module" "x.y" 1).
  - repeat constructor; discriminate.
  - discriminate.
Defined.

End DottedNames.

(** ** The import graph: project modules and edges *)

Section ImportGraph.
Import DepsViz.

Lemma insert_by_len_In x y l : In y (insert_by_len x l) <-> y = x \/ In y l.
Proof.
  induction l as [|z l IH]; cbn [insert_by_len].
  - cbn. intuition congruence.
  - destruct (len x <? len z)%nat; cbn [In]; [rewrite IH|];
      intuition congruence.
Qed.

Lemma sorted_by_len_In y l : In y (sorted_by_len l) <-> In y l.
Proof.
  induction l as [|x l IH]; cbn [sorted_by_len foldr]; [tauto|].
  rewrite insert_by_len_In. fold (sorted_by_len l). rewrite IH. cbn.
  intuition congruence.
Qed.

Lemma first_match_spec mod_ l :
  (first_match mod_ l = Some mod_ /\ exists cand, In cand l /\ under cand mod_ = true) \/
  (first_match mod_ l = None /\ forall cand, In cand l -> under cand mod_ = false).
Proof.
  induction l as [|c l IH]; cbn [first_match].
  - right. split; [reflexivity|]. intros ? [].
  - fold (under c mod_). destruct (under c mod_) eqn:E.
    + left. split; [reflexivity|]. exists c. cbn. auto.
    + destruct IH as [[-> (cand & Hin & Hu)]|[-> Hall]].
      * left. split; [reflexivity|]. exists cand. cbn. auto.
      * right. split; [reflexivity|]. intros cand [<-|Hin]; auto.
Qed.

Lemma normalize_to_project_spec mod_ pm :
  (normalize_to_project mod_ pm = Some mod_ /\
   exists cand, In cand pm /\ under cand mod_ = true) \/
  (normalize_to_project mod_ pm = None /\ forall cand, In cand pm -> under cand mod_ = false).
Proof.
  unfold normalize_to_project.
  destruct (first_match_spec mod_ (sorted_by_len pm)) as [[Hr (cand & Hin & Hu)]|[Hr Hall]].
  - left. split; [exact Hr|]. exists cand. split; [|exact Hu]. now apply sorted_by_len_In.
  - right. split; [exact Hr|]. intros cand Hin. apply Hall. now apply sorted_by_len_In.
Qed.

(** [normalize_to_project] answers with the name it was given, never with
    the project module that matched: a name is kept, whole, exactly when
    some project module equals it or is followed by a dot at its start, and
    the answer does not depend on the order or the lengths of the project
    modules. *)
Theorem normalize_keeps_the_full_name (mod_ : string) (project_modules : list string) :
  (normalize_to_project mod_ project_modules = Some mod_ <->
   exists cand, In cand project_modules /\
                (mod_ = cand \/ String.prefix (cand +:+ ".") mod_ = true)) /\
  (normalize_to_project mod_ project_modules = None <->
   forall cand, In cand project_modules ->
                mod_ <> cand /\ String.prefix (cand +:+ ".") mod_ = false) /\
  (forall answer, normalize_to_project mod_ project_modules = Some answer -> answer = mod_).
Proof.
  assert (forall cand, under cand mod_ = true <->
                       mod_ = cand \/ String.prefix (cand +:+ ".") mod_ = true) as Hu.
  { intros cand. unfold under. rewrite orb_true_iff, bool_decide_eq_true. tauto. }
  assert (forall cand, under cand mod_ = false <->
                       mod_ <> cand /\ String.prefix (cand +:+ ".") mod_ = false) as Hf.
  { intros cand. unfold under. rewrite orb_false_iff, bool_decide_eq_false. tauto. }
  destruct (normalize_to_project_spec mod_ project_modules)
    as [[Hr (cand & Hin & Hc)]|[Hr Hall]]; rewrite Hr.
  - split; [|split].
    + split; [|reflexivity]. intros _. exists cand. split; [exact Hin|]. now apply Hu.
    + split; [discriminate|]. intros Hno. apply Hno, Hf in Hin. congruence.
    + intros answer [= <-]. reflexivity.
  - split; [|split].
    + split; [discriminate|]. intros (cand & Hin & Hc).
      apply Hu in Hc. apply Hall in Hin. congruence.
    + split; [|reflexivity]. intros _ cand Hin. now apply Hf, Hall.
    + discriminate.
Qed.

Lemma foldl_invariant {A B} (P : A -> Prop) (f : A -> B -> A) l a :
  P a -> (forall a x, In x l -> P a -> P (f a x)) -> P (foldl f a l).
Proof.
  revert a. induction l as [|x l IH]; intros a Ha Hstep; cbn [foldl]; [exact Ha|].
  apply IH; [apply Hstep; cbn; auto|]. intros a' y Hy. apply Hstep. cbn. auto.
Qed.

Lemma add_edge_ok pms G u v :
  graph_ok pms G -> u <> v -> u ∈ pms ->
  (exists cand, cand ∈ pms /\ under cand v = true) ->
  graph_ok pms (add_edge u v G).
Proof.
  intros (He & Hn & Hsub) Huv Hu Hv. unfold add_edge.
  split; [|split]; cbn [edges nodes].
  - intros a b Hab. apply elem_of_union in Hab as [Hab|Hab]; [now apply He|].
    apply elem_of_singleton in Hab. injection Hab as -> ->. auto.
  - intros n Hin. apply elem_of_union in Hin as [Hin|Hin].
    + apply elem_of_union in Hin as [Hin|Hin].
      * destruct (Hn n Hin) as [?|[u' ?]]; [auto|]. right. exists u'.
        apply elem_of_union. auto.
      * apply elem_of_singleton in Hin. subst. auto.
    + apply elem_of_singleton in Hin. subst. right. exists u.
      apply elem_of_union. right. now apply elem_of_singleton.
  - intros x Hx. apply elem_of_union. left. apply elem_of_union. left. now apply Hsub.
Qed.

(** The graph [build_graph] returns has no edge from a module to itself;
    every edge leaves a project module and arrives at a name that is a
    project module or lies under one; every project module is a node, and
    every other node is the target of an edge. *)
Theorem build_graph_edges_stay_in_project (module_of : list (string * string))
    (parse : string -> option (list node)) :
  let G := fst (build_graph module_of parse) in
  let project_modules := snd (build_graph module_of parse) in
  (forall m, m ∈ project_modules <-> exists f, In (f, m) module_of) /\
  (forall u v, (u, v) ∈ edges G ->
     u <> v /\ u ∈ project_modules /\
     exists cand, cand ∈ project_modules /\
                  (v = cand \/ String.prefix (cand +:+ ".") v = true)) /\
  (forall n, n ∈ nodes G -> n ∈ project_modules \/ exists u, (u, n) ∈ edges G) /\
  (forall m, m ∈ project_modules -> m ∈ nodes G).
Proof.
  cbv zeta. unfold build_graph. cbn [fst snd].
  set (pms := list_to_set (map snd module_of) : gset string).
  assert (forall m, m ∈ pms <-> exists f, In (f, m) module_of) as Hpms.
  { intros m. unfold pms. rewrite elem_of_list_to_set, list_elem_of_In, in_map_iff.
    split.
    - intros ([f m'] & <- & Hin). exists f. exact Hin.
    - intros (f & Hin). exists (f, m). auto. }
  split; [exact Hpms|].
  match goal with
  | |- context [foldl ?step ?G0 module_of] =>
      assert (graph_ok pms (foldl step G0 module_of)) as (He & Hn & Hsub)
  end.
  { apply foldl_invariant.
    - split; [|split]; cbn [edges nodes].
      + intros u v Huv. now apply not_elem_of_empty in Huv.
      + intros n Hn. auto.
      + reflexivity.
    - intros G [f modname] Hitem HG. cbn [fst snd].
      apply foldl_invariant; [exact HG|].
      intros G' target _ HG'.
      destruct (normalize_to_project_spec target (elements pms))
        as [[-> (cand & Hin & Hu)]|[-> _]]; [|exact HG'].
      destruct (truthy target && negb (bool_decide (target = modname))) eqn:E;
        [|exact HG'].
      apply andb_true_iff in E as [_ E].
      apply negb_true_iff, bool_decide_eq_false in E.
      apply add_edge_ok; [exact HG'|congruence| |].
      + apply Hpms. exists f. exact Hitem.
      + exists cand. split; [|exact Hu]. apply elem_of_elements, list_elem_of_In. exact Hin. }
  split; [|split].
  - intros u v Huv. destruct (He u v Huv) as (Hne & Hu & cand & Hc & Hunder).
    split; [exact Hne|]. split; [exact Hu|]. exists cand. split; [exact Hc|].
    unfold under in Hunder. apply orb_true_iff in Hunder as [Hunder|Hunder]; [|auto].
    apply bool_decide_eq_true in Hunder. auto.
  - exact Hn.
  - intros m Hm. now apply Hsub.
Qed.

End ImportGraph.

(** ** The DOT filter *)

Section DotFilter.
Import FilterGraph.

Context (node_re : string -> option (string * string * option string))
        (edge_re : string -> option (string * string))
        (isabs : string -> bool) (abspath : string -> string)
        (project_root : string).

Local Abbreviation is_node := (is_node node_re).
Local Abbreviation is_edge := (is_edge edge_re).
Local Abbreviation split_header := (split_header node_re edge_re).
Local Abbreviation wanted := (wanted node_re isabs abspath project_root).
Local Abbreviation keep_step := (keep_step node_re isabs abspath project_root).
Local Abbreviation keep_nodes := (keep_nodes node_re isabs abspath project_root).
Local Abbreviation kept_nodes_of := (kept_nodes_of node_re edge_re isabs abspath project_root).
Local Abbreviation kept_edges_of := (kept_edges_of node_re edge_re isabs abspath project_root).
Local Abbreviation filter_dot := (filter_dot node_re edge_re isabs abspath project_root).
Local Abbreviation dict_ok := (dict_ok node_re isabs abspath project_root).

Lemma filter_all {A} (p : A -> bool) l :
  Forall (fun x => p x = true) l -> List.filter p l = l.
Proof. induction 1 as [|x l Hx _ IH]; cbn; [reflexivity|]. now rewrite Hx, IH. Qed.

Lemma filter_none {A} (p : A -> bool) l :
  Forall (fun x => p x = false) l -> List.filter p l = [].
Proof. induction 1 as [|x l Hx _ IH]; cbn; [reflexivity|]. now rewrite Hx, IH. Qed.

Lemma split_header_app lines :
  fst (split_header lines) ++ snd (split_header lines) = lines.
Proof.
  induction lines as [|line rest IH]; cbn [FilterGraph.split_header]; [reflexivity|].
  destruct (is_node line || is_edge line); cbn [fst snd app]; [reflexivity|].
  now rewrite IH.
Qed.

Lemma split_header_plain lines :
  Forall (fun line => is_node line = false /\ is_edge line = false)
    (fst (split_header lines)).
Proof.
  induction lines as [|line rest IH]; cbn [FilterGraph.split_header]; [constructor|].
  destruct (is_node line || is_edge line) eqn:E; cbn [fst]; [constructor|].
  apply orb_false_iff in E. constructor; assumption.
Qed.

Lemma split_header_after_plain plain rest :
  Forall (fun line => is_node line = false /\ is_edge line = false) plain ->
  split_header (plain ++ rest) =
    (plain ++ fst (split_header rest), snd (split_header rest)).
Proof.
  induction 1 as [|line plain [Hn He] _ IH]; cbn [app].
  - now destruct (split_header rest).
  - cbn [FilterGraph.split_header]. rewrite Hn, He. cbn [orb]. rewrite IH. reflexivity.
Qed.

Lemma split_header_all_plain plain :
  Forall (fun line => is_node line = false /\ is_edge line = false) plain ->
  split_header plain = (plain, []).
Proof.
  intros Hplain. rewrite <- (app_nil_r plain) at 1.
  rewrite split_header_after_plain by assumption. cbn. now rewrite app_nil_r.
Qed.

(** *** The dict of kept nodes *)

Lemma dict_has_In k d : dict_has k d = true <-> In k (map fst d).
Proof.
  unfold dict_has. rewrite existsb_exists, in_map_iff. split.
  - intros (kv & Hin & Hk). apply bool_decide_eq_true in Hk. eauto.
  - intros (kv & Hk & Hin). exists kv. split; [exact Hin|]. now apply bool_decide_eq_true.
Qed.

Lemma dict_set_fresh k v d : ~ In k (map fst d) -> dict_set k v d = d ++ [(k, v)].
Proof.
  induction d as [|[k' v'] d IH]; intros Hk; cbn [dict_set app]; [reflexivity|].
  cbn in Hk. rewrite bool_decide_eq_false_2 by intuition congruence.
  rewrite IH by tauto. reflexivity.
Qed.

Lemma dict_set_In k v d kv :
  In kv (dict_set k v d) -> kv = (k, v) \/ In kv d.
Proof.
  induction d as [|[k' v'] d IH]; cbn [dict_set].
  - cbn. intuition.
  - case_bool_decide; cbn [In]; intuition.
Qed.

Lemma dict_set_keys k v d :
  forall k', In k' (map fst (dict_set k v d)) <-> k' = k \/ In k' (map fst d).
Proof.
  induction d as [|[k1 v1] d IH]; intros k'; cbn [dict_set].
  - cbn. intuition.
  - case_bool_decide as Hk; cbn [map fst In].
    + subst. intuition.
    + rewrite IH. intuition.
Qed.

Lemma dict_set_NoDup k v d : NoDup (map fst d) -> NoDup (map fst (dict_set k v d)).
Proof.
  induction d as [|[k1 v1] d IH]; intros Hnd; cbn [dict_set].
  - cbn. apply NoDup_cons. split; [apply not_elem_of_nil|apply NoDup_nil_2].
  - cbn [map fst] in Hnd. apply NoDup_cons in Hnd as [Hk1 Hd].
    case_bool_decide as Hk; cbn [map fst].
    + subst. apply NoDup_cons. auto.
    + apply NoDup_cons. split; [|auto].
      rewrite list_elem_of_In, dict_set_keys. rewrite list_elem_of_In in Hk1.
      intuition.
Qed.

Lemma keep_step_ok nls d nl : In nl nls -> dict_ok nls d -> dict_ok nls (keep_step d nl).
Proof.
  intros Hnl [Hnd Hall]. unfold FilterGraph.keep_step.
  destruct (node_re nl) as [[[node_id tooltip] label]|] eqn:Hre; [|now split].
  destruct (under_project isabs abspath project_root tooltip
            && negb (excluded (or_empty label) tooltip)) eqn:Hw; [|now split].
  split; [now apply dict_set_NoDup|].
  intros id' nl' Hin. apply dict_set_In in Hin as [[= -> ->]|Hin]; [|now apply Hall].
  split; [exact Hnl|]. split; [|eauto].
  unfold FilterGraph.wanted. rewrite Hre. exact Hw.
Qed.

Lemma keep_nodes_ok nls : dict_ok nls (keep_nodes nls).
Proof.
  unfold FilterGraph.keep_nodes.
  apply (foldl_invariant (dict_ok nls)).
  - split; [apply NoDup_nil_2|]. intros ? ? [].
  - intros d nl Hnl Hd. now apply keep_step_ok.
Qed.

Lemma node_lines_In footer nl :
  In nl (node_lines node_re footer) <-> In nl footer /\ is_node nl = true.
Proof. apply filter_In. Qed.

Lemma footer_In lines line : In line (snd (split_header lines)) -> In line lines.
Proof.
  intros Hin. rewrite <- (split_header_app lines). apply in_or_app. now right.
Qed.

Lemma kept_nodes_come_from_input (lines : list string) :
  NoDup (map fst (kept_nodes_of lines)) /\
  forall node_id nl, In (node_id, nl) (kept_nodes_of lines) -> In nl lines.
Proof.
  destruct (keep_nodes_ok (node_lines node_re (snd (split_header lines)))) as [Hnd Hall].
  split; [exact Hnd|].
  intros node_id nl Hin. destruct (Hall node_id nl Hin) as (Hnl & _).
  apply node_lines_In in Hnl as [Hnl _]. now apply footer_In.
Qed.

(** The node lines written carry distinct ids, one line each; every one of
    them is a line of the input that the node pattern matches with that id,
    whose tooltip lies under the project root and which no exclusion
    pattern finds in its label or tooltip. *)
Theorem written_nodes_are_wanted_once (lines : list string) :
  NoDup (map fst (kept_nodes_of lines)) /\
  forall node_id nl, In (node_id, nl) (kept_nodes_of lines) ->
    In nl lines /\
    exists tooltip label,
      node_re nl = Some (node_id, tooltip, label) /\
      under_project isabs abspath project_root tooltip = true /\
      excluded (or_empty label) tooltip = false.
Proof.
  destruct (keep_nodes_ok (node_lines node_re (snd (split_header lines)))) as [Hnd Hall].
  split; [exact Hnd|].
  intros node_id nl Hin. destruct (Hall node_id nl Hin) as (Hnl & Hw & t & lb & Hre).
  split.
  - apply node_lines_In in Hnl as [Hnl _]. now apply footer_In.
  - exists t, lb. split; [exact Hre|].
    unfold FilterGraph.wanted in Hw. rewrite Hre in Hw.
    apply andb_true_iff in Hw as [Hu Hx]. now apply negb_true_iff in Hx.
Qed.

(** Every edge line written is an edge line of the input whose source and
    destination are both ids of node lines that are written: no edge is
    left hanging on a node that was filtered out. *)
Theorem written_edges_join_written_nodes (lines : list string) :
  Forall (fun el =>
            In el lines /\
            exists src dst n1 n2,
              edge_re el = Some (src, dst) /\
              In (src, n1) (kept_nodes_of lines) /\ In (dst, n2) (kept_nodes_of lines))
    (kept_edges_of lines).
Proof.
  apply Forall_forall. intros el Hin. apply list_elem_of_In in Hin. revert Hin.
  unfold FilterGraph.kept_edges_of, filtered_edges. intros Hin.
  apply filter_In in Hin as [Hin Hkept].
  split.
  - apply filter_In in Hin as [Hin _]. now apply footer_In.
  - unfold edge_kept in Hkept.
    destruct (edge_re el) as [[src dst]|]; [|discriminate].
    apply andb_true_iff in Hkept as [Hs Hd].
    apply dict_has_In, in_map_iff in Hs as ([s n1] & <- & Hs).
    apply dict_has_In, in_map_iff in Hd as ([d n2] & <- & Hd).
    exists s, d, n1, n2. auto.
Qed.

(** *** The output as a whole *)

Lemma footer_partition footer :
  (length (node_lines node_re footer) + length (edge_lines node_re edge_re footer)
   + length (other_lines node_re edge_re footer) = length footer)%nat.
Proof.
  unfold node_lines, edge_lines, other_lines.
  induction footer as [|line footer IH]; cbn [List.filter length]; [reflexivity|].
  destruct (is_node line), (is_edge line); cbn [negb andb length]; lia.
Qed.

Lemma dict_set_length k v d : (length (dict_set k v d) <= S (length d))%nat.
Proof.
  induction d as [|[k' v'] d IH]; cbn [dict_set length]; [lia|].
  case_bool_decide; cbn [length]; lia.
Qed.

Lemma keep_nodes_length nls : (length (keep_nodes nls) <= length nls)%nat.
Proof.
  unfold FilterGraph.keep_nodes.
  assert (forall d, (length (foldl keep_step d nls) <= length d + length nls)%nat) as Hgen.
  { induction nls as [|nl nls IH]; intros d; cbn [foldl length]; [lia|].
    specialize (IH (keep_step d nl)).
    assert (length (keep_step d nl) <= S (length d))%nat.
    { unfold FilterGraph.keep_step.
      destruct (node_re nl) as [[[node_id tooltip] label]|]; [|lia].
      destruct (_ && _); [apply dict_set_length|lia]. }
    lia. }
  apply (Hgen []).
Qed.

(** The filter only drops lines.  Every line written is a line that was
    read, the output is no longer than the input, and every line that is
    neither a node line nor an edge line (the graph header, attributes,
    the closing brace) is written. *)
Theorem filter_dot_only_drops_node_and_edge_lines (lines : list string) :
  (forall line, In line (filter_dot lines) -> In line lines) /\
  (length (filter_dot lines) <= length lines)%nat /\
  (forall line, In line lines -> is_node line = false -> is_edge line = false ->
                In line (filter_dot lines)).
Proof.
  unfold FilterGraph.filter_dot. split; [|split].
  - intros line Hin. apply in_app_or in Hin as [Hin|Hin].
    { rewrite <- (split_header_app lines). apply in_or_app. now left. }
    apply in_app_or in Hin as [Hin|Hin].
    { apply in_map_iff in Hin as ([node_id nl] & <- & Hin).
      now apply (proj2 (kept_nodes_come_from_input lines) node_id nl). }
    apply in_app_or in Hin as [Hin|Hin].
    { unfold FilterGraph.kept_edges_of, filtered_edges in Hin.
      apply filter_In in Hin as [Hin _]. apply filter_In in Hin as [Hin _].
      now apply footer_In. }
    apply filter_In in Hin as [Hin _]. now apply footer_In.
  - rewrite !length_app, length_map.
    pose proof (keep_nodes_length (node_lines node_re (snd (split_header lines)))) as Hk.
    pose proof (footer_partition (snd (split_header lines))) as Hp.
    assert (length (kept_edges_of lines)
            <= length (edge_lines node_re edge_re (snd (split_header lines))))%nat as He.
    { apply filter_length_le. }
    pose proof (f_equal (@length string) (split_header_app lines)) as Hl.
    rewrite length_app in Hl.
    unfold FilterGraph.kept_nodes_of. lia.
  - intros line Hin Hn He. rewrite <- (split_header_app lines) in Hin.
    apply in_app_or in Hin as [Hin|Hin]; apply in_or_app; [now left|right].
    apply in_or_app. right. apply in_or_app. right.
    apply filter_In. split; [exact Hin|]. now rewrite Hn, He.
Qed.

Lemma keep_nodes_rebuild K acc :
  NoDup (map fst (acc ++ K)) ->
  (forall node_id nl, In (node_id, nl) K ->
     wanted nl = true /\ exists tooltip label, node_re nl = Some (node_id, tooltip, label)) ->
  foldl keep_step acc (map snd K) = acc ++ K.
Proof.
  revert acc. induction K as [|[node_id nl] K IH]; intros acc Hnd Hall; cbn [map foldl snd].
  - now rewrite app_nil_r.
  - destruct (Hall node_id nl (or_introl eq_refl)) as (Hw & t & lb & Hre).
    assert (keep_step acc nl = acc ++ [(node_id, nl)]) as ->.
    { unfold FilterGraph.keep_step. unfold FilterGraph.wanted in Hw.
      rewrite Hre in Hw |- *. rewrite Hw. apply dict_set_fresh.
      rewrite map_app in Hnd. apply NoDup_app in Hnd as (_ & Hdis & _).
      intros Hin. apply list_elem_of_In in Hin. apply (Hdis _ Hin).
      cbn. apply list_elem_of_here. }
    rewrite IH.
    + now rewrite <- app_assoc.
    + now rewrite <- app_assoc.
    + intros id' nl' Hin. apply Hall. now right.
Qed.

(** Filtering is idempotent on lists of lines: given the lines it wrote as
    the lines to read, the script writes those lines again, one for one. *)
Theorem filter_dot_idempotent (lines : list string) :
  filter_dot (filter_dot lines) = filter_dot lines.
Proof.
  set (H := fst (split_header lines)).
  set (K := kept_nodes_of lines).
  set (E := kept_edges_of lines).
  set (O := other_lines node_re edge_re (snd (split_header lines))).
  assert (filter_dot lines = H ++ map snd K ++ E ++ O) as Hout by reflexivity.
  (* the four parts, by the patterns they match *)
  assert (Forall (fun line => is_node line = false /\ is_edge line = false) H) as HH
    by apply split_header_plain.
  destruct (keep_nodes_ok (node_lines node_re (snd (split_header lines)))) as [Hnd HK].
  fold K in Hnd, HK.
  assert (Forall (fun line => is_node line = true) (map snd K)) as HN.
  { apply Forall_forall. intros nl Hin. apply list_elem_of_In, in_map_iff in Hin.
    destruct Hin as ([node_id nl'] & <- & Hin).
    destruct (HK node_id nl' Hin) as (_ & _ & t & lb & Hre).
    cbn [snd]. unfold FilterGraph.is_node. now rewrite Hre. }
  assert (Forall (fun line => is_node line = false /\ is_edge line = true
                               /\ edge_kept edge_re K line = true) E) as HE.
  { apply Forall_forall. intros el Hin. apply list_elem_of_In in Hin.
    unfold E, FilterGraph.kept_edges_of, filtered_edges in Hin.
    apply filter_In in Hin as [Hin Hkept]. apply filter_In in Hin as [_ Hcls].
    apply andb_true_iff in Hcls as [Hn He]. apply negb_true_iff in Hn. auto. }
  assert (Forall (fun line => is_node line = false /\ is_edge line = false) O) as HO.
  { apply Forall_forall. intros l Hin. apply list_elem_of_In in Hin.
    apply filter_In in Hin as [_ Hcls].
    apply andb_true_iff in Hcls as [Hn He]. apply negb_true_iff in Hn, He. auto. }
  (* how the output splits again *)
  assert (split_header (map snd K ++ E ++ O) =
            if bool_decide (map snd K ++ E = []) then (O, [])
            else ([], map snd K ++ E ++ O)) as Hbody.
  { case_bool_decide as Hempty.
    - apply app_eq_nil in Hempty as [-> ->]. cbn [app].
      now apply split_header_all_plain.
    - destruct (map snd K) as [|nl N] eqn:EN.
      + destruct E as [|el E']; [contradiction|]. cbn [app].
        inversion HE as [|? ? (Hn & He & _) _]; subst.
        cbn [FilterGraph.split_header]. now rewrite Hn, He.
      + cbn [app]. inversion HN as [|? ? Hn _]; subst.
        cbn [FilterGraph.split_header]. now rewrite Hn. }
  assert (split_header (filter_dot lines) =
            if bool_decide (map snd K ++ E = []) then (H ++ O, [])
            else (H, map snd K ++ E ++ O)) as Hsplit.
  { rewrite Hout, split_header_after_plain by exact HH. rewrite Hbody.
    case_bool_decide; cbn [fst snd]; [reflexivity|]. now rewrite app_nil_r. }
  unfold FilterGraph.filter_dot at 1.
  unfold FilterGraph.kept_edges_of, FilterGraph.kept_nodes_of.
  rewrite Hsplit. case_bool_decide as Hempty; cbn [fst snd].
  - apply app_eq_nil in Hempty as [HN0 HE0]. rewrite Hout, HN0, HE0.
    cbn. now rewrite <- app_assoc, !app_nil_r.
  - assert (node_lines node_re (map snd K ++ E ++ O) = map snd K) as ->.
    { unfold node_lines. rewrite !List.filter_app.
      rewrite (filter_all _ _ HN).
      rewrite (filter_none (FilterGraph.is_node node_re) E),
        (filter_none (FilterGraph.is_node node_re) O), !app_nil_r; [reflexivity| |].
      - eapply Forall_impl; [exact HO|]. cbn. tauto.
      - eapply Forall_impl; [exact HE|]. cbn. tauto. }
    assert (edge_lines node_re edge_re (map snd K ++ E ++ O) = E) as ->.
    { unfold edge_lines. rewrite !List.filter_app.
      rewrite (filter_none _ (map snd K)), (filter_none _ O), app_nil_r; cbn [app].
      - apply filter_all. eapply Forall_impl; [exact HE|]. cbn.
        intros l (-> & -> & _). reflexivity.
      - eapply Forall_impl; [exact HO|]. cbn. intros l (-> & ->). reflexivity.
      - eapply Forall_impl; [exact HN|]. cbn. intros l ->. reflexivity. }
    assert (other_lines node_re edge_re (map snd K ++ E ++ O) = O) as ->.
    { unfold other_lines. rewrite !List.filter_app.
      rewrite (filter_none _ (map snd K)), (filter_none _ E); cbn [app].
      - apply filter_all. eapply Forall_impl; [exact HO|]. cbn.
        intros l (-> & ->). reflexivity.
      - eapply Forall_impl; [exact HE|]. cbn. intros l (-> & -> & _). reflexivity.
      - eapply Forall_impl; [exact HN|]. cbn. intros l ->. reflexivity. }
    assert (keep_nodes (map snd K) = K) as ->.
    { unfold FilterGraph.keep_nodes. rewrite keep_nodes_rebuild; [reflexivity|exact Hnd|].
      intros node_id nl Hin. destruct (HK node_id nl Hin) as (_ & Hw & Hre). auto. }
    assert (filtered_edges edge_re K E = E) as ->.
    { unfold filtered_edges. apply filter_all.
      eapply Forall_impl; [exact HE|]. cbn. tauto. }
    exact (eq_sym Hout).
Qed.

End DotFilter.

(** A run of the filter: the node 2 lies outside the project and the node 3
    is excluded by its tooltip, the second line of the node 1 replaces the
    first in its place, the edges to the dropped nodes go, and the lines
    that are neither nodes nor edges end up last. *)
Example filter_dot_run :
  FilterGraph.filter_dot toy_node_re toy_edge_re (String.prefix "/") (String.append "/cwd/")
    "/p"
    ["digraph {"; "N1 /p/a.py"; "N2 /q/b.py"; "E12"; "N3 /p/~c"; "N4 /p/d.py"; "E14";
     "rankdir=LR"; "N1 /p/z.py"; "E41"; "E43"; "}"] =
    ["digraph {"; "N1 /p/z.py"; "N4 /p/d.py"; "E14"; "E41"; "rankdir=LR"; "}"].
Proof. vm_compute. reflexivity. Qed.

(** ** The mocked prerequisites *)

Section MockRun.
Import MockPrereqs.

Context {rng : Type}
        (random_random : rng -> float * rng)
        (random_choice : rng -> bool * rng)
        (generate_id : dict -> json).

Local Abbreviation state := (@state rng).
Local Abbreviation St := (@St rng).
Local Abbreviation nli_sentence := (nli_sentence random_random random_choice).
Local Abbreviation nli_article := (nli_article random_random random_choice).
Local Abbreviation mock_nli := (mock_nli random_random random_choice).
Local Abbreviation filter_question := (filter_question random_random).
Local Abbreviation mock_question_filter := (mock_question_filter random_random).
Local Abbreviation idfy_article := (idfy_article generate_id).
Local Abbreviation idfy_news_articles := (idfy_news_articles (rng := rng) generate_id).
Local Abbreviation main := (main random_random random_choice generate_id).

(** *** Dicts *)

Lemma dict_get_set_eq k v d : dict_get k (dict_set k v d) = Some v.
Proof.
  induction d as [|[k' v'] d IH]; cbn [dict_set dict_get].
  - now rewrite bool_decide_eq_true_2.
  - case_bool_decide as Hk; cbn [dict_get].
    + now rewrite bool_decide_eq_true_2.
    + now rewrite bool_decide_eq_false_2.
Qed.

Lemma dict_get_set_ne k k' v d : k' <> k -> dict_get k' (dict_set k v d) = dict_get k' d.
Proof.
  intros Hne. induction d as [|[k1 v1] d IH]; cbn [dict_set dict_get].
  - now rewrite bool_decide_eq_false_2.
  - case_bool_decide as Hk; cbn [dict_get].
    + subst k1. now rewrite !bool_decide_eq_false_2.
    + case_bool_decide; [reflexivity|exact IH].
Qed.

Lemma bind_ok {A B} (c : St A) (k : A -> St B) st a st' :
  c st = (Ok a, st') -> bind c k st = k a st'.
Proof. intros Hc. unfold bind. now rewrite Hc. Qed.

(** *** Loops that append *)

Lemma for_each_appends {A S} (R : S -> dict -> Prop) (spec : A -> list S)
    (body : list dict -> A -> St (list dict)) (l : list A) :
  (forall x, In x l -> forall acc st, exists new st',
       body acc x st = (Ok (acc ++ new), st') /\
       files st' = files st /\ Forall2 R (spec x) new) ->
  forall acc st, exists new st',
    for_each l body acc st = (Ok (acc ++ new), st') /\
    files st' = files st /\ Forall2 R (flat_map spec l) new.
Proof.
  induction l as [|x l IH]; intros Hbody acc st; cbn [for_each flat_map].
  - exists [], st. rewrite app_nil_r. repeat split. constructor.
  - destruct (Hbody x (or_introl eq_refl) acc st) as (new1 & st1 & Hrun1 & Hf1 & HR1).
    destruct (IH (fun y Hy => Hbody y (or_intror Hy)) (acc ++ new1) st1)
      as (new2 & st2 & Hrun2 & Hf2 & HR2).
    exists (new1 ++ new2), st2. unfold bind. rewrite Hrun1, Hrun2, <- app_assoc.
    split; [reflexivity|]. split; [congruence|]. now apply Forall2_app.
Qed.

Lemma nli_sentence_run fail_pct art article_id preds sent_id st :
  dict_get "article_id" art = Some article_id ->
  exists new st',
    nli_sentence fail_pct art preds sent_id st = (Ok (preds ++ new), st') /\
    files st' = files st /\ Forall2 prediction_for [(article_id, sent_id)] new.
Proof.
  intros Hid. unfold MockPrereqs.nli_sentence, bind, draw_above, lift, getitem.
  destruct (random_random (seed st)) as [r g]. rewrite Hid.
  destruct (PrimFloat.ltb fail_pct r); cbn [ret].
  - eexists _, _. split; [reflexivity|]. split; [reflexivity|].
    repeat constructor. exists "entailment". auto.
  - unfold choose_neutral_or_contradiction. cbn [seed files].
    destruct (random_choice g) as [first g'].
    eexists _, _. split; [reflexivity|]. split; [reflexivity|].
    repeat constructor. destruct first; eexists; eauto.
Qed.

Lemma nli_article_run fail_pct art preds st :
  readable_article art ->
  exists new st',
    nli_article fail_pct preds art st = (Ok (preds ++ new), st') /\
    files st' = files st /\ Forall2 prediction_for (article_sentences art) new.
Proof.
  intros (used_items & sent_ids & Hused & Hiter & Hid).
  unfold MockPrereqs.nli_article, bind, lift, getitem, article_sentences.
  rewrite Hused, Hiter.
  destruct Hid as [->|[article_id Hid]].
  - cbn [for_each ret map]. exists [], st. rewrite app_nil_r.
    destruct (dict_get "article_id" art); repeat split; constructor.
  - rewrite Hid.
    destruct (for_each_appends prediction_for (fun sent_id => [(article_id, sent_id)])
                (nli_sentence fail_pct art) sent_ids
                (fun x _ acc st0 => nli_sentence_run fail_pct art article_id acc x st0 Hid)
                preds st) as (new & st' & Hrun & Hf & HR).
    exists new, st'. split; [exact Hrun|]. split; [exact Hf|].
    clear -HR. revert new HR. induction sent_ids as [|x l IH]; intros new HR; exact HR.
Qed.

Lemma nli_events_run fail_pct events st :
  readable_events events ->
  exists preds st',
    for_each events
      (fun preds ev => for_each (snd ev) (nli_article fail_pct) preds) [] st =
      (Ok preds, st') /\
    files st' = files st /\ Forall2 prediction_for (event_sentences events) preds.
Proof.
  intros Hok.
  destruct (for_each_appends prediction_for
              (fun ev : string * list dict => flat_map article_sentences (snd ev))
              (fun preds ev => for_each (snd ev) (nli_article fail_pct) preds) events)
    with (acc := @nil dict) (st := st) as (new & st' & Hrun & Hf & HR).
  - intros ev Hev acc st0.
    apply (for_each_appends prediction_for article_sentences).
    intros art Hart acc' st1. apply nli_article_run.
    apply list_elem_of_In in Hev, Hart.
    apply (proj1 (Forall_forall _ _) Hok) in Hev.
    now apply (proj1 (Forall_forall _ _) Hev).
  - exists new, st'. auto.
Qed.

Lemma mock_nli_run storyline_dir fail_pct st top events :
  files st !! path_join storyline_dir "news-articles-idfy.json" =
    Some (NewsArticles top events) ->
  readable_events events ->
  exists preds g,
    Forall2 prediction_for (event_sentences events) preds /\
    mock_nli storyline_dir fail_pct st =
      (match preds with
       | [] => Err ZeroDivisionError
       | _ => Ok (Some (path_join storyline_dir "nli-predictions.jsonl"))
       end,
       State (<[path_join storyline_dir "nli-predictions.jsonl" := JsonLines preds]>
                (files st)) g).
Proof.
  intros Hfile Hok.
  destruct (nli_events_run fail_pct events st Hok) as (preds & st' & Hrun & Hf & HR).
  exists preds, (seed st'). split; [exact HR|].
  unfold MockPrereqs.mock_nli, bind, path_exists, read_news, write_file.
  rewrite bool_decide_eq_true_2 by (rewrite Hfile; eauto). cbn [negb].
  rewrite Hfile. cbn [snd]. rewrite Hrun. cbn [files seed]. rewrite Hf.
  destruct preds; reflexivity.
Qed.

(** [mock_nli], on a news file whose articles it can read, writes one
    prediction for each used item of each article, in order, with the id of
    the article, the sentence, the label 'entailment' and one of the three
    NLI predictions. *)
Theorem mock_nli_predicts_every_used_item (storyline_dir : string) (fail_pct : float)
    (st : state) (top : dict) (events : list (string * list dict)) :
  files st !! path_join storyline_dir "news-articles-idfy.json" =
    Some (NewsArticles top events) ->
  readable_events events ->
  exists preds,
    files (snd (mock_nli storyline_dir fail_pct st))
      !! path_join storyline_dir "nli-predictions.jsonl" = Some (JsonLines preds) /\
    Forall2 prediction_for (event_sentences events) preds /\
    length preds = length (event_sentences events).
Proof.
  intros Hfile Hok.
  destruct (mock_nli_run storyline_dir fail_pct st top events Hfile Hok)
    as (preds & g & HR & ->).
  exists preds. cbn [snd files]. rewrite lookup_insert_eq.
  split; [reflexivity|]. split; [exact HR|]. symmetry. eapply Forall2_length, HR.
Qed.

(** When the articles have no used item at all, [mock_nli] writes an empty
    predictions file and then raises ZeroDivisionError on the share of
    unsure predictions; otherwise it returns the path of the file. *)
Theorem mock_nli_divides_by_the_number_of_predictions (storyline_dir : string)
    (fail_pct : float) (st : state) (top : dict) (events : list (string * list dict)) :
  files st !! path_join storyline_dir "news-articles-idfy.json" =
    Some (NewsArticles top events) ->
  readable_events events ->
  (event_sentences events = [] ->
   fst (mock_nli storyline_dir fail_pct st) = Err ZeroDivisionError /\
   files (snd (mock_nli storyline_dir fail_pct st))
     !! path_join storyline_dir "nli-predictions.jsonl" = Some (JsonLines [])) /\
  (event_sentences events <> [] ->
   fst (mock_nli storyline_dir fail_pct st) =
     Ok (Some (path_join storyline_dir "nli-predictions.jsonl"))).
Proof.
  intros Hfile Hok.
  destruct (mock_nli_run storyline_dir fail_pct st top events Hfile Hok)
    as (preds & g & HR & ->).
  cbn [fst snd files]. split.
  - intros Hnone. rewrite Hnone in HR. inversion HR; subst.
    rewrite lookup_insert_eq. auto.
  - intros Hsome. destruct preds; [|reflexivity].
    inversion HR as [Hnil|]. congruence.
Qed.

(** *** The question filter *)

Lemma filter_question_run fail_pct done q st :
  exists new st',
    filter_question fail_pct done q st = (Ok (done ++ new), st') /\
    files st' = files st /\ Forall2 verdict_for [q] new.
Proof.
  unfold MockPrereqs.filter_question, bind, draw_above.
  destruct (random_random (seed st)) as [r g]. cbn [ret].
  eexists _, _. split; [reflexivity|]. split; [reflexivity|].
  constructor; [|constructor]. split.
  - intros k Hk1 Hk2. now rewrite !dict_get_set_ne by assumption.
  - destruct (PrimFloat.ltb fail_pct r); [left|right];
      (split; [rewrite dict_get_set_ne by discriminate|]; apply dict_get_set_eq).
Qed.

Lemma gather_questions q_dir (step : list dict) (st : state) :
  readable_raw (files st !! path_join q_dir "multiv2-bridge-series.json") ->
  readable_raw (files st !! path_join q_dir "timespan-questions_v2complete.json") ->
  for_each raw_files
    (fun questions f_name =>
       let f_path := path_join q_dir f_name in
       bind (path_exists f_path) (fun there =>
       if there then
         bind (read_questions f_path) (fun data => ret (questions ++ default [] data))
       else ret questions))
    step st =
    (Ok (step
         ++ questions_in (files st !! path_join q_dir "multiv2-bridge-series.json")
         ++ questions_in (files st !! path_join q_dir "timespan-questions_v2complete.json")),
     st).
Proof.
  assert (forall questions f_name,
            readable_raw (files st !! path_join q_dir f_name) ->
            bind (path_exists (path_join q_dir f_name))
              (fun there =>
                 if there then
                   bind (read_questions (path_join q_dir f_name))
                     (fun data => ret (questions ++ default [] data))
                 else ret questions) st =
              (Ok (questions ++ questions_in (files st !! path_join q_dir f_name)), st))
    as Hstep.
  { intros questions f_name [Hf|(top & qs & Hf)]; unfold bind, path_exists, read_questions.
    - rewrite bool_decide_eq_false_2 by (rewrite Hf; intros [? ?]; discriminate).
      rewrite Hf. cbn. now rewrite app_nil_r.
    - rewrite bool_decide_eq_true_2 by (rewrite Hf; eauto).
      rewrite Hf. destruct qs; reflexivity. }
  intros H1 H2. unfold raw_files. cbn [for_each].
  unfold bind at 1. rewrite (Hstep step _ H1).
  unfold bind at 1. rewrite (Hstep _ _ H2).
  cbn [ret]. now rewrite <- app_assoc.
Qed.

(** [mock_question_filter] gathers the questions of the two raw files that
    are there.  Without any question it returns None and writes nothing;
    otherwise it writes one record for each question, in order, which is
    the question with 'filtered' set to 'success' or 'fail' and
    'filter_reason' set to match, every other key as it was. *)
Theorem mock_question_filter_marks_every_question (q_dir : string) (fail_pct : float)
    (st : state) :
  readable_raw (files st !! path_join q_dir "multiv2-bridge-series.json") ->
  readable_raw (files st !! path_join q_dir "timespan-questions_v2complete.json") ->
  (questions_in (files st !! path_join q_dir "multiv2-bridge-series.json")
   ++ questions_in (files st !! path_join q_dir "timespan-questions_v2complete.json") = [] ->
   mock_question_filter q_dir fail_pct st = (Ok None, st)) /\
  (questions_in (files st !! path_join q_dir "multiv2-bridge-series.json")
   ++ questions_in (files st !! path_join q_dir "timespan-questions_v2complete.json") <> [] ->
   exists verdicts,
     fst (mock_question_filter q_dir fail_pct st) =
       Ok (Some (path_join q_dir "filter-evaluated-outputs.jsonl")) /\
     files (snd (mock_question_filter q_dir fail_pct st)) =
       <[path_join q_dir "filter-evaluated-outputs.jsonl" := JsonLines verdicts]> (files st) /\
     Forall2 verdict_for
       (questions_in (files st !! path_join q_dir "multiv2-bridge-series.json")
        ++ questions_in (files st !! path_join q_dir "timespan-questions_v2complete.json"))
       verdicts).
Proof.
  intros H1 H2.
  unfold MockPrereqs.mock_question_filter.
  rewrite (bind_ok _ _ _ _ _ (gather_questions q_dir [] st H1 H2)). cbn [app].
  set (questions := questions_in _ ++ questions_in _).
  split.
  - intros ->. reflexivity.
  - intros Hne.
    destruct (for_each_appends verdict_for (fun q => [q]) (filter_question fail_pct)
                questions
                (fun q _ acc st0 => filter_question_run fail_pct acc q st0) [] st)
      as (verdicts & st' & Hrun & Hf & HR).
    cbn [app] in Hrun.
    assert (flat_map (fun q : dict => [q]) questions = questions) as Hflat.
    { clear. induction questions as [|q l IH]; [reflexivity|]. cbn. now rewrite IH. }
    rewrite Hflat in HR.
    exists verdicts. destruct questions as [|q qs] eqn:Eq; [contradiction|].
    unfold bind, write_file. rewrite Hrun. cbn [fst snd files ret]. rewrite Hf. auto.
Qed.

(** *** The whole script *)

Lemma append_cancel (d a b : string) : d +:+ a = d +:+ b -> a = b.
Proof.
  induction d as [|c d IH]; [auto|]. intros H. apply IH.
  change (String c (d +:+ a) = String c (d +:+ b)) in H. now injection H.
Qed.

Lemma path_join_same_dir d a b : a <> b -> path_join d a <> path_join d b.
Proof.
  unfold path_join. intros Hne H. apply append_cancel in H.
  apply (append_cancel "/") in H. contradiction.
Qed.

Lemma news_is_not_questions d a b :
  path_join (path_join d "questions") a <> path_join (path_join d "news") b.
Proof.
  unfold path_join. rewrite !string_append_assoc. intros H.
  apply append_cancel in H. discriminate.
Qed.

Lemma for_each_keeps_files {A B} (body : B -> A -> St B) l :
  (forall acc x st, files (snd (body acc x st)) = files st) ->
  forall acc st, files (snd (for_each l body acc st)) = files st.
Proof.
  intros Hbody. induction l as [|x l IH]; intros acc st; cbn [for_each];
    [reflexivity|].
  unfold bind. specialize (Hbody acc x st).
  destruct (body acc x st) as [[b|e] st1]; cbn [snd] in *; [|exact Hbody].
  rewrite IH. exact Hbody.
Qed.

Lemma question_filter_writes_one_file q_dir fail_pct (st : state) path :
  path <> path_join q_dir "filter-evaluated-outputs.jsonl" ->
  files (snd (mock_question_filter q_dir fail_pct st)) !! path = files st !! path.
Proof.
  intros Hpath. unfold MockPrereqs.mock_question_filter. unfold bind at 1.
  match goal with
  | |- context [for_each raw_files ?body [] st] =>
      pose proof (for_each_keeps_files body raw_files) as Hgather
  end.
  match type of Hgather with
  | ?P -> _ => assert P as Hbody
  end.
  { intros acc x st0. unfold bind, path_exists, read_questions. cbn [snd files].
    destruct (bool_decide _); [|reflexivity].
    destruct (files st0 !! path_join q_dir x) as [[]|]; reflexivity. }
  specialize (Hgather Hbody [] st).
  destruct (for_each raw_files _ [] st) as [[questions|e] st1]; cbn [snd] in *;
    [|now rewrite Hgather].
  destruct questions as [|q qs]; [cbn; now rewrite Hgather|].
  unfold bind, write_file.
  pose proof (for_each_keeps_files (filter_question fail_pct) (q :: qs)) as Hfilter.
  match type of Hfilter with
  | ?P -> _ => assert P as Hbody'
  end.
  { intros acc x st0. unfold MockPrereqs.filter_question, bind, draw_above.
    destruct (random_random (seed st0)). reflexivity. }
  specialize (Hfilter Hbody' [] st1).
  destruct (for_each (q :: qs) _ [] st1) as [[verdicts|e] st2]; cbn [snd files ret] in *.
  - rewrite lookup_insert_ne by congruence. now rewrite Hfilter, Hgather.
  - now rewrite Hfilter, Hgather.
Qed.

(** [main] on a storyline whose news articles have used items that can be
    iterated: the copy of the news file with ids is written first, so
    [mock_nli] finds it and every article in it has the id that
    [generate_id] gave; the predictions file holds one prediction for each
    used item, under that id.  When there is no used item, [main] ends on
    the ZeroDivisionError of [mock_nli] and the question filter is not run. *)
Theorem main_predicts_under_generated_ids (storyline_dir : string) (fail_pct : float)
    (st : state) (top : dict) (events : list (string * list dict)) :
  files st !! path_join (path_join storyline_dir "news") "news-articles.json" =
    Some (NewsArticles top events) ->
  Forall (fun ev => Forall iterable_article (snd ev)) events ->
  files (snd (main storyline_dir fail_pct st))
    !! path_join (path_join storyline_dir "news") "news-articles-idfy.json" =
    Some (NewsArticles top (map (fun ev => (fst ev, map idfy_article (snd ev))) events)) /\
  (exists preds,
     files (snd (main storyline_dir fail_pct st))
       !! path_join (path_join storyline_dir "news") "nli-predictions.jsonl" =
       Some (JsonLines preds) /\
     Forall2 prediction_for
       (flat_map (fun ev =>
          flat_map (fun art =>
            match dict_get "used_items" art with
            | Some used_items =>
                match py_iter used_items with
                | Ok sent_ids => map (fun sent_id => (generate_id art, sent_id)) sent_ids
                | Err _ => []
                end
            | None => []
            end) (snd ev)) events)
       preds /\
     (preds = [] ->
      fst (main storyline_dir fail_pct st) = Err ZeroDivisionError /\
      files (snd (main storyline_dir fail_pct st))
        !! path_join (path_join storyline_dir "questions") "filter-evaluated-outputs.jsonl" =
        files st
        !! path_join (path_join storyline_dir "questions") "filter-evaluated-outputs.jsonl")).
Proof.
  intros Hnews Hiter.
  set (news := path_join storyline_dir "news") in *.
  set (ided := map (fun ev => (fst ev, map idfy_article (snd ev))) events).
  assert (readable_events ided) as Hok.
  { unfold readable_events, ided. apply Forall_map. eapply Forall_impl; [exact Hiter|].
    cbn. intros ev Hev. apply Forall_map. eapply Forall_impl; [exact Hev|].
    cbn. intros art (used_items & sent_ids & Hused & Hit).
    exists used_items, sent_ids. unfold MockPrereqs.idfy_article.
    rewrite dict_get_set_ne by discriminate. split; [exact Hused|]. split; [exact Hit|].
    right. rewrite dict_get_set_eq. eauto. }
  assert (event_sentences ided =
          flat_map (fun ev =>
            flat_map (fun art =>
              match dict_get "used_items" art with
              | Some used_items =>
                  match py_iter used_items with
                  | Ok sent_ids => map (fun sent_id => (generate_id art, sent_id)) sent_ids
                  | Err _ => []
                  end
              | None => []
              end) (snd ev)) events) as Hsent.
  { unfold event_sentences, ided. clear.
    induction events as [|ev events IH]; [reflexivity|]. cbn [map flat_map snd].
    rewrite IH. f_equal. clear. induction (snd ev) as [|art arts IH]; [reflexivity|].
    cbn [map flat_map]. rewrite IH. f_equal.
    unfold article_sentences, MockPrereqs.idfy_article.
    rewrite dict_get_set_eq, dict_get_set_ne by discriminate. reflexivity. }
  unfold MockPrereqs.main. unfold bind at 1.
  unfold MockPrereqs.idfy_news_articles, bind, read_news, write_file. fold news.
  rewrite Hnews. cbn [fst snd ret]. fold ided.
  set (st1 := State (<[path_join news "news-articles-idfy.json" := NewsArticles top ided]>
                       (files st)) (seed st)).
  destruct (mock_nli_run news fail_pct st1 top ided) as (preds & g & HR & Hrun);
    [apply lookup_insert_eq|exact Hok|].
  rewrite Hrun. rewrite Hsent in HR.
  assert (path_join news "news-articles-idfy.json" <> path_join news "nli-predictions.jsonl")
    as Hne by (apply path_join_same_dir; discriminate).
  destruct preds as [|p preds].
  - cbn [fst snd files]. split.
    + rewrite lookup_insert_ne by congruence. apply lookup_insert_eq.
    + exists []. split; [apply lookup_insert_eq|]. split; [exact HR|]. intros _.
      split; [reflexivity|].
      rewrite lookup_insert_ne by (apply not_eq_sym, news_is_not_questions).
      unfold st1. cbn [files].
      rewrite lookup_insert_ne by (apply not_eq_sym, news_is_not_questions).
      reflexivity.
  - set (st2 := State _ g).
    pose proof (question_filter_writes_one_file (path_join storyline_dir "questions")
                  fail_pct st2) as Hq.
    destruct (mock_question_filter (path_join storyline_dir "questions") fail_pct st2)
      as [[q_path|e] st3]; cbn [fst snd ret] in *.
    + split.
      * rewrite Hq by (apply not_eq_sym, news_is_not_questions). unfold st2. cbn [files].
        rewrite lookup_insert_ne by congruence. apply lookup_insert_eq.
      * exists (p :: preds). split; [|split; [exact HR|discriminate]].
        rewrite Hq by (apply not_eq_sym, news_is_not_questions). apply lookup_insert_eq.
    + split.
      * rewrite Hq by (apply not_eq_sym, news_is_not_questions). unfold st2. cbn [files].
        rewrite lookup_insert_ne by congruence. apply lookup_insert_eq.
      * exists (p :: preds). split; [|split; [exact HR|discriminate]].
        rewrite Hq by (apply not_eq_sym, news_is_not_questions). apply lookup_insert_eq.
Qed.

End MockRun.

(** ** The mocked prerequisites on a concrete storyline *)

Lemma mock_nli_predicts_every_used_item_witness :
  exists preds,
    MockPrereqs.files
      (snd (MockPrereqs.mock_nli toy_random toy_choice "s/news" 0.5%float told_storyline))
      !! MockPrereqs.path_join "s/news" "nli-predictions.jsonl" =
      Some (MockPrereqs.JsonLines preds) /\
    Forall2 MockPrereqs.prediction_for (MockPrereqs.event_sentences told_events) preds /\
    length preds = length (MockPrereqs.event_sentences told_events).
Proof.
  apply (mock_nli_predicts_every_used_item toy_random toy_choice "s/news" 0.5%float
           told_storyline [] told_events).
  - vm_compute. reflexivity.
  - repeat constructor.
    exists (MockPrereqs.JArr [MockPrereqs.JStr "s1"; MockPrereqs.JStr "s2"]),
      [MockPrereqs.JStr "s1"; MockPrereqs.JStr "s2"].
    split; [reflexivity|]. split; [reflexivity|]. right. eexists. reflexivity.
Defined.

Lemma mock_nli_divides_by_the_number_of_predictions_witness :
  (MockPrereqs.event_sentences
     [("e1", [[("article_id", MockPrereqs.JInt 1);
               ("used_items", MockPrereqs.JArr [])]])] = [] ->
   fst (MockPrereqs.mock_nli toy_random toy_choice "s/news" 0.5%float silent_storyline) =
     MockPrereqs.Err MockPrereqs.ZeroDivisionError /\
   MockPrereqs.files
     (snd (MockPrereqs.mock_nli toy_random toy_choice "s/news" 0.5%float silent_storyline))
     !! MockPrereqs.path_join "s/news" "nli-predictions.jsonl" =
     Some (MockPrereqs.JsonLines [])) /\
  (MockPrereqs.event_sentences
     [("e1", [[("article_id", MockPrereqs.JInt 1);
               ("used_items", MockPrereqs.JArr [])]])] <> [] ->
   fst (MockPrereqs.mock_nli toy_random toy_choice "s/news" 0.5%float silent_storyline) =
     MockPrereqs.Ok (Some (MockPrereqs.path_join "s/news" "nli-predictions.jsonl"))).
Proof.
  apply (mock_nli_divides_by_the_number_of_predictions toy_random toy_choice "s/news"
           0.5%float silent_storyline []
           [("e1", [[("article_id", MockPrereqs.JInt 1);
                     ("used_items", MockPrereqs.JArr [])]])]).
  - vm_compute. reflexivity.
  - repeat constructor. exists (MockPrereqs.JArr []), []. repeat split. left. reflexivity.
Defined.

Lemma mock_question_filter_marks_every_question_witness :
  exists verdicts,
    fst (MockPrereqs.mock_question_filter toy_random "s/questions" 0.5%float storyline) =
      MockPrereqs.Ok
        (Some (MockPrereqs.path_join "s/questions" "filter-evaluated-outputs.jsonl")) /\
    MockPrereqs.files
      (snd (MockPrereqs.mock_question_filter toy_random "s/questions" 0.5%float storyline)) =
      <[MockPrereqs.path_join "s/questions" "filter-evaluated-outputs.jsonl" :=
          MockPrereqs.JsonLines verdicts]> (MockPrereqs.files storyline) /\
    Forall2 MockPrereqs.verdict_for
      (MockPrereqs.questions_in
         (MockPrereqs.files storyline
            !! MockPrereqs.path_join "s/questions" "multiv2-bridge-series.json")
       ++ MockPrereqs.questions_in
            (MockPrereqs.files storyline
               !! MockPrereqs.path_join "s/questions" "timespan-questions_v2complete.json"))
      verdicts.
Proof.
  apply (mock_question_filter_marks_every_question toy_random "s/questions" 0.5%float
           storyline).
  - right. exists [], (Some [[("question", MockPrereqs.JStr "who?")]]).
    vm_compute. reflexivity.
  - left. vm_compute. reflexivity.
  - vm_compute. discriminate.
Defined.

Lemma main_predicts_under_generated_ids_witness :
  MockPrereqs.files
    (snd (MockPrereqs.main toy_random toy_choice toy_generate_id "s" 0.5%float storyline))
    !! MockPrereqs.path_join (MockPrereqs.path_join "s" "news") "news-articles-idfy.json" =
    Some (MockPrereqs.NewsArticles []
            [("e1", [[("title", MockPrereqs.JStr "t");
                      ("used_items",
                       MockPrereqs.JArr [MockPrereqs.JStr "s1"; MockPrereqs.JStr "s2"]);
                      ("article_id", MockPrereqs.JInt 2)]])]) /\
  MockPrereqs.files
    (snd (MockPrereqs.main toy_random toy_choice toy_generate_id "s" 0.5%float storyline))
    !! MockPrereqs.path_join (MockPrereqs.path_join "s" "news") "nli-predictions.jsonl" =
    Some (MockPrereqs.JsonLines
            [[("article_id", MockPrereqs.JInt 2); ("sentence_id", MockPrereqs.JStr "s1");
              ("label", MockPrereqs.JStr "entailment");
              ("nli_prediction", MockPrereqs.JStr "entailment")];
             [("article_id", MockPrereqs.JInt 2); ("sentence_id", MockPrereqs.JStr "s2");
              ("label", MockPrereqs.JStr "entailment");
              ("nli_prediction", MockPrereqs.JStr "neutral")]]).
Proof.
  destruct (main_predicts_under_generated_ids toy_random toy_choice toy_generate_id "s"
              0.5%float storyline []
              [("e1", [[("title", MockPrereqs.JStr "t");
                        ("used_items",
                         MockPrereqs.JArr [MockPrereqs.JStr "s1"; MockPrereqs.JStr "s2"])]])])
    as (Hidfy & _).
  - vm_compute. reflexivity.
  - repeat constructor.
    exists (MockPrereqs.JArr [MockPrereqs.JStr "s1"; MockPrereqs.JStr "s2"]),
      [MockPrereqs.JStr "s1"; MockPrereqs.JStr "s2"].
    split; reflexivity.
  - split; [exact Hidfy|]. vm_compute. reflexivity.
Defined.
